(** * voltade/blog-crawler: extraction, prompt formatting and incremental crawl

    A shallow embedding of the two variants of the crawler that live in the
    repository:

    - the _legacy_ command-line variant ([types.ts], [scraper.ts],
      [generator.ts] and [main.ts] under [src/]), in [Module Legacy];
    - the _worker_ variant (the [BlogScraper] and [BlogGenerator] classes of
      the scheduled worker, and its [BlogCrawlerWorker]), in
      [Module Worker].

    JavaScript strings are sequences of UTF-16 code units; the DOM that
    cheerio hands to the scraper is a rose tree of text and element nodes. *)

From Stdlib Require Import List NArith ZArith Bool Lia String Ascii.
Import ListNotations.

Set Implicit Arguments.

Local Open Scope N_scope.

(* ================================================================== *)
(** * JavaScript strings *)
(* ================================================================== *)

Module JS.

(** A string is the list of its UTF-16 code units. *)
Definition jsstring := list N.

(** An ASCII literal as a JavaScript string. *)
Definition js (s : string) : jsstring :=
  map N_of_ascii (list_ascii_of_string s).

Definition eqb (a b : jsstring) : bool :=
  if list_eq_dec N.eq_dec a b then true else false.

(** [Boolean(s)] for a string: the empty string is the only falsy one. *)
Definition truthy (s : jsstring) : bool :=
  match s with [] => false | _ :: _ => true end.

(** [Boolean(x)] for [string | undefined]. *)
Definition truthy_opt (s : option jsstring) : bool :=
  match s with Some t => truthy t | None => false end.

(** The class [\s] of a regular expression without the [u] flag, which is
    also the set of code units that [String.prototype.trim] strips
    (WhiteSpace and LineTerminator of ECMA-262). *)
Definition isWhiteSpace (c : N) : bool :=
  ((9 <=? c) && (c <=? 13)) || (c =? 32) || (c =? 160) || (c =? 5760)
  || ((8192 <=? c) && (c <=? 8202)) || (c =? 8232) || (c =? 8233)
  || (c =? 8239) || (c =? 8287) || (c =? 12288) || (c =? 65279).

Fixpoint dropWhile (p : N -> bool) (s : jsstring) : jsstring :=
  match s with
  | [] => []
  | c :: r => if p c then dropWhile p r else s
  end.

Definition trimStart (s : jsstring) : jsstring := dropWhile isWhiteSpace s.
Definition trimEnd (s : jsstring) : jsstring :=
  rev (dropWhile isWhiteSpace (rev s)).

(** [s.trim()] *)
Definition trim (s : jsstring) : jsstring := trimEnd (trimStart s).

(** [arr.join(sep)] *)
Fixpoint join (sep : jsstring) (arr : list jsstring) : jsstring :=
  match arr with
  | [] => []
  | [x] => x
  | x :: rest => x ++ sep ++ join sep rest
  end.

(** [s.startsWith(p)] *)
Fixpoint startsWith (s p : jsstring) {struct p} : bool :=
  match p, s with
  | [], _ => true
  | _ :: _, [] => false
  | a :: p', b :: s' => (a =? b) && startsWith s' p'
  end.

(** [s.charAt(i)]: a string of length one, or the empty string. *)
Definition charAt (s : jsstring) (i : nat) : jsstring :=
  match nth_error s i with Some c => [c] | None => [] end.

(** [s.substring(0, n)] *)
Definition substring0 (n : nat) (s : jsstring) : jsstring := firstn n s.

Definition isDigit (c : N) : bool := (48 <=? c) && (c <=? 57).
Definition isAsciiUpper (c : N) : bool := (65 <=? c) && (c <=? 90).
Definition isAsciiLower (c : N) : bool := (97 <=? c) && (c <=? 122).

(** The class [\w] (no [u] or [i] flag): [A-Za-z0-9_]. *)
Definition isWordChar (c : N) : bool :=
  isAsciiUpper c || isAsciiLower c || isDigit c || (c =? 95).

(** Lower-casing of the ASCII range; every other code unit is kept.  This
    is [toLowerCase] on the tag names that the walks look at: the selector
    only lets through elements whose name is one of nine ASCII names. *)
Definition lowerAsciiUnit (c : N) : N := if isAsciiUpper c then c + 32 else c.
Definition toLowerCaseAscii (s : jsstring) : jsstring := map lowerAsciiUnit s.

(** [parseInt] of a string of at most one code unit: a decimal digit gives
    its value, anything else gives [NaN] ([None]). *)
Definition parseInt1 (s : jsstring) : option N :=
  match s with
  | [c] => if isDigit c then Some (c - 48) else None
  | _ => None
  end.

(** [`${n}`] for the result of [parseInt1]. *)
Definition numberToString (n : option N) : jsstring :=
  match n with
  | Some d => [48 + d]
  | None => js "NaN"
  end.

(** [s.split(" ")]: the pieces between single occurrences of the code
    unit [sep]; the result always has at least one piece. *)
Fixpoint splitOn (sep : N) (s : jsstring) : list jsstring :=
  match s with
  | [] => [[]]
  | c :: r =>
      if c =? sep then [] :: splitOn sep r
      else match splitOn sep r with
           | [] => [[c]]
           | p :: ps => (c :: p) :: ps
           end
  end.

(** The maximal runs of non-white-space code units of [s], in order: the
    white-space-delimited tokens of [s]. *)
Fixpoint tokensAux (cur : jsstring) (s : jsstring) : list jsstring :=
  match s with
  | [] => if truthy cur then [rev cur] else []
  | c :: r =>
      if isWhiteSpace c
      then (if truthy cur then [rev cur] else []) ++ tokensAux [] r
      else tokensAux (c :: cur) r
  end.
Definition whitespaceTokens (s : jsstring) : list jsstring := tokensAux [] s.

(** ** Regular-expression replacements used by the source *)

(** [s.replace(/[^C]/g, "")] for a character class [C]: only the code
    units of the class are kept. *)
Definition keepOnly (inClass : N -> bool) (s : jsstring) : jsstring :=
  filter inClass s.

(** [s.replace(/[^C]/g, r)] for a one-unit replacement [r]. *)
Definition replaceOutside (inClass : N -> bool) (r : N) (s : jsstring)
  : jsstring :=
  map (fun c => if inClass c then c else r) s.

(** [s.replace(/C+/g, r)]: every maximal run of code units of the class is
    replaced by [r].  [inRun] tells that the previous unit was in the
    class, so that the current match is still open. *)
Fixpoint replaceRunsAux (inClass : N -> bool) (r : jsstring) (inRun : bool)
    (s : jsstring) : jsstring :=
  match s with
  | [] => []
  | c :: t =>
      if inClass c
      then (if inRun then [] else r) ++ replaceRunsAux inClass r true t
      else c :: replaceRunsAux inClass r false t
  end.
Definition replaceRuns (inClass : N -> bool) (r s : jsstring) : jsstring :=
  replaceRunsAux inClass r false s.

Definition backslash : N := 92.
Definition hyphen : N := 45.
Definition isHyphen (c : N) : bool := c =? hyphen.
Definition isLetterS (c : N) : bool := c =? 115.

(** Does a match of the pattern written [/\\s+/] in the source (a
    backslash followed by one or more letters [s]) start at [c :: t]? *)
Definition backslashS_starts (c : N) (t : jsstring) : bool :=
  (c =? backslash) && match t with c' :: _ => isLetterS c' | [] => false end.

(** [s.replace(/\\s+/g, r)].  [inMatch] tells that a match is open and
    still swallows letters [s]. *)
Fixpoint replaceBackslashSAux (r : jsstring) (inMatch : bool) (s : jsstring)
  : jsstring :=
  match s with
  | [] => []
  | c :: t =>
      if inMatch && isLetterS c then replaceBackslashSAux r true t
      else if backslashS_starts c t then r ++ replaceBackslashSAux r true t
      else c :: replaceBackslashSAux r false t
  end.
Definition replaceBackslashS (r s : jsstring) : jsstring :=
  replaceBackslashSAux r false s.

(** [s.split(/\\s+/)]: the pieces of [s] between the matches of the same
    pattern.  [cur] is the current piece, reversed. *)
Fixpoint splitBackslashSAux (inMatch : bool) (cur : jsstring) (s : jsstring)
  : list jsstring :=
  match s with
  | [] => [rev cur]
  | c :: t =>
      if inMatch && isLetterS c then splitBackslashSAux true cur t
      else if backslashS_starts c t
           then rev cur :: splitBackslashSAux true [] t
           else splitBackslashSAux false (c :: cur) t
  end.
Definition splitBackslashS (s : jsstring) : list jsstring :=
  splitBackslashSAux false [] s.

(** [s.replace(/^-|-$/g, "")]: one hyphen at the very start and one at the
    very end are removed. *)
Definition stripLeadingHyphen (s : jsstring) : jsstring :=
  match s with
  | c :: t => if isHyphen c then t else s
  | [] => []
  end.
Definition stripTrailingHyphen (s : jsstring) : jsstring :=
  rev (stripLeadingHyphen (rev s)).
Definition stripEdgeHyphens (s : jsstring) : jsstring :=
  stripTrailingHyphen (stripLeadingHyphen s).

End JS.
Import JS.

(** Time value of a JavaScript [Date]: milliseconds since the epoch, or
    [None] for an Invalid Date (time value [NaN]). *)
Definition Date := option Z.

(** [a > b] and [a < b] on dates compare the time values; every comparison
    with [NaN] is false. *)
Definition Date_gt (a b : Date) : bool :=
  match a, b with Some x, Some y => (y <? x)%Z | _, _ => false end.
Definition Date_lt (a b : Date) : bool := Date_gt b a.

(** What the scraper uses from the JavaScript run time and does not define
    itself: the Unicode lower-casing of a string and the parsing of a date
    string by [new Date(s)]. *)
Class JsRuntime := {
  toLowerCase : jsstring -> jsstring;
  Date_parse : jsstring -> Date
}.

(* ================================================================== *)
(** * The DOM seen through cheerio *)
(* ================================================================== *)

Module Dom.

#[warnings="-register-all"]
Inductive node :=
| TextNode (data : jsstring)
| Element (name : jsstring) (children : list node).

(** [$(el).text()]: the text nodes below [el], concatenated in document
    order. *)
Fixpoint text (n : node) : jsstring :=
  match n with
  | TextNode d => d
  | Element _ cs => flat_map text cs
  end.

(** [el.tagName] ([el.name]); the HTML parser stores it in lower case. *)
Definition tagName (n : node) : jsstring :=
  match n with
  | TextNode _ => []
  | Element nm _ => nm
  end.

(** Proper descendants in document (pre-)order. *)
Fixpoint descendants (n : node) : list node :=
  match n with
  | TextNode _ => []
  | Element _ cs => flat_map (fun c => c :: descendants c) cs
  end.

(** A selector that is a comma-separated list of tag names. *)
Definition matches (sel : list jsstring) (n : node) : bool :=
  match n with
  | TextNode _ => false
  | Element nm _ => existsb (JS.eqb nm) sel
  end.

(** [$(root).find(sel)] *)
Definition find (sel : list jsstring) (root : node) : list node :=
  filter (matches sel) (descendants root).

End Dom.
Import Dom.

(* ================================================================== *)
(** * Data model ([types.ts], and the interfaces of [BlogScraper.ts]) *)
(* ================================================================== *)

Inductive ContentType := paragraph | list_.

Module ScrapedContent.
Record t := mk {
  type : ContentType;
  text : option jsstring;
  items : option (list jsstring)
}.
End ScrapedContent.

Module ContentSection.
Record t := mk {
  type : jsstring;
  heading : option jsstring;
  content : list ScrapedContent.t
}.
End ContentSection.

(** [{ type: "paragraph", text }] *)
Definition Paragraph (text : jsstring) : ScrapedContent.t :=
  ScrapedContent.mk paragraph (Some text) None.

(** [{ type: "list", items }] *)
Definition ListOf (items : list jsstring) : ScrapedContent.t :=
  ScrapedContent.mk list_ None (Some items).

(** [{ type: "intro", content }] *)
Definition Intro (content : list ScrapedContent.t) : ContentSection.t :=
  ContentSection.mk (js "intro") None content.

(** [{ type: "section_h<level>", heading, content }] *)
Definition Heading (level : N) (heading : jsstring)
    (content : list ScrapedContent.t) : ContentSection.t :=
  ContentSection.mk (js "section_h" ++ numberToString (Some level))
                    (Some heading) content.

(** [section.content.push(item)] on a section that nothing else refers to. *)
Definition push_content (s : ContentSection.t) (item : ScrapedContent.t)
  : ContentSection.t :=
  ContentSection.mk (ContentSection.type s) (ContentSection.heading s)
                    (ContentSection.content s ++ [item]).

(** The selector ["p, h1, h2, h3, h4, h5, h6, ul, ol"]. *)
Definition contentSelector : list jsstring :=
  [js "p"; js "h1"; js "h2"; js "h3"; js "h4"; js "h5"; js "h6";
   js "ul"; js "ol"].

(** The trimmed, non-empty texts of the [li] elements below a list. *)
Definition collectListItems (element : node) : list jsstring :=
  filter truthy (map (fun li => trim (Dom.text li)) (find [js "li"] element)).

(** State of the walk: the sections pushed so far and [currentSection]. *)
Definition walk := (list ContentSection.t * ContentSection.t)%type.

Definition walk_init : walk := ([], Intro []).

(** [if (currentSection.content.length > 0) sections.push(currentSection)] *)
Definition flush (sections : list ContentSection.t)
    (currentSection : ContentSection.t) : list ContentSection.t :=
  if (0 <? List.length (ContentSection.content currentSection))%nat
  then sections ++ [currentSection]
  else sections.

(** Result of an awaited call that may reject. *)
Inductive Outcome (A : Type) :=
| Returns (a : A)
| Throws.
Arguments Throws {A}.

(* ================================================================== *)
(** * Legacy variant: [scraper.ts], [generator.ts] *)
(* ================================================================== *)

Module Legacy.

(** ** Key-value store ([CloudflareKV] of [types.ts]) *)

Module CloudflareKV.
Record t := mk {
  get : jsstring -> Outcome (option jsstring);
  put : jsstring -> jsstring -> Outcome unit
}.
End CloudflareKV.

(** [MockKV] of [main.ts], over the entries it currently stores:
    [storage.get(key) || null], so a stored empty string reads as [null]. *)
Fixpoint storage_get (storage : list (jsstring * jsstring)) (key : jsstring)
  : option jsstring :=
  match storage with
  | [] => None
  | (k, v) :: rest => if JS.eqb k key then Some v else storage_get rest key
  end.

Definition MockKV (storage : list (jsstring * jsstring)) : CloudflareKV.t :=
  CloudflareKV.mk
    (fun key =>
       match storage_get storage key with
       | Some v => Returns (if truthy v then Some v else None)
       | None => Returns None
       end)
    (fun _ _ => Returns tt).

(** The class [[a-zA-Z0-9-_]] of [createUrlKey]. *)
Definition isUrlKeyChar (c : N) : bool :=
  isAsciiLower c || isAsciiUpper c || isDigit c || isHyphen c || (c =? 95).

Definition createUrlKey (url : jsstring) : jsstring :=
  firstn 512 (replaceOutside isUrlKeyChar 95 url).

Definition scrapedKey (url : jsstring) : jsstring :=
  js "scraped:" ++ createUrlKey url.

Definition isUrlScraped (kvNamespace : option CloudflareKV.t) (url : jsstring)
  : bool :=
  match kvNamespace with
  | None => false
  | Some kv =>
      match CloudflareKV.get kv (scrapedKey url) with
      | Returns result =>
          match result with Some _ => true | None => false end
      | Throws => false
      end
  end.

(** ** Section extraction *)

(** Body of the [.each] callback of [extractSections]. *)
Definition extractStep (st : walk) (element : node) : walk :=
  let '(sections, currentSection) := st in
  let text := trim (Dom.text element) in
  if negb (truthy text) then st
  else
    let tagName := toLowerCaseAscii (Dom.tagName element) in
    if startsWith tagName (js "h") then
      let sections' := flush sections currentSection in
      let level := parseInt1 (charAt tagName 1) in
      (sections',
       ContentSection.mk (js "section_h" ++ numberToString level)
                         (Some text) [])
    else if JS.eqb tagName (js "ul") || JS.eqb tagName (js "ol") then
      let listItems := collectListItems element in
      if (0 <? List.length listItems)%nat
      then (sections, push_content currentSection (ListOf listItems))
      else st
    else (sections, push_content currentSection (Paragraph text)).

(** [extractSections], for a selection [blogContent] of one content root. *)
Definition extractSections (blogContent : node) : list ContentSection.t :=
  let '(sections, currentSection) :=
    fold_left extractStep (find contentSelector blogContent) walk_init in
  flush sections currentSection.

(** ** Prompt formatting *)

(** The argument of [prepareForAI]. *)
Module PromptData.
Record t := mk {
  title : jsstring;
  description : option jsstring;
  category : jsstring;
  sections : list ContentSection.t;
  url : jsstring
}.
End PromptData.

(** The source writes the separator as the literal ["\\n"]: a backslash
    followed by the letter [n]. *)
Definition lineSeparator : jsstring := [backslash; 110].

(** ["  • "] *)
Definition bulletPrefix : jsstring := [32; 32; 8226; 32].

Definition paragraphLine (content : ScrapedContent.t) : list jsstring :=
  match ScrapedContent.type content, ScrapedContent.text content with
  | paragraph, Some text => if truthy text then [js "- " ++ text] else []
  | _, _ => []
  end.

Definition contentLines (content : ScrapedContent.t) : list jsstring :=
  match ScrapedContent.type content with
  | paragraph => paragraphLine content
  | list_ =>
      match ScrapedContent.items content with
      | Some items =>
          js "List items:" :: map (fun item => bulletPrefix ++ item) items
      | None => []
      end
  end.

(** What one iteration of [for (const section of scrapedData.sections)]
    pushes onto [promptSections]. *)
Definition sectionLines (section : ContentSection.t) : list jsstring :=
  if JS.eqb (ContentSection.type section) (js "intro") then
    js "Introduction:"
      :: flat_map paragraphLine (ContentSection.content section)
  else
    (match ContentSection.heading section with
     | Some heading =>
         if truthy heading then [lineSeparator ++ heading] else []
     | None => []
     end)
    ++ flat_map contentLines (ContentSection.content section).

Definition headerLines (scrapedData : PromptData.t) : list jsstring :=
  filter truthy
    [ js "Title: " ++ PromptData.title scrapedData;
      match PromptData.description scrapedData with
      | Some description =>
          if truthy description then js "Description: " ++ description
          else []
      | None => []
      end;
      js "Category: " ++ PromptData.category scrapedData;
      [] ].

Definition promptSections (scrapedData : PromptData.t) : list jsstring :=
  fold_left (fun acc section => acc ++ sectionLines section)
            (PromptData.sections scrapedData) (headerLines scrapedData).

Definition prepareForAI (scrapedData : PromptData.t) : jsstring :=
  join lineSeparator (promptSections scrapedData).

(** ** Scraping one post *)

Module ScrapedBlog.
Record t := mk {
  title : jsstring;
  description : option jsstring;
  category : jsstring;
  sections : list ContentSection.t;
  url : jsstring;
  sourceUrl : jsstring;
  scrapedDate : jsstring;
  wordCount : nat;
  sectionsCount : nat
}.
End ScrapedBlog.

(** A [ScrapedBlog] passed where [prepareForAI] expects its argument. *)
Definition asPromptData (b : ScrapedBlog.t) : PromptData.t :=
  PromptData.mk (ScrapedBlog.title b) (ScrapedBlog.description b)
                (ScrapedBlog.category b) (ScrapedBlog.sections b)
                (ScrapedBlog.url b).

(** What the selectors of [scrapePepperCloudBlog] find in a fetched page:
    the text of [h1.article-title.max-90], the text of
    [p.article-excerpt.max-90], and [section.gh-content] if there is one. *)
Module Page.
Record t := mk {
  titleText : jsstring;
  excerptText : jsstring;
  content : option node
}.
End Page.

(** Calls made on the outside world, in order. *)
Inductive Effect :=
| KvGet (key : jsstring)
| Fetch (url : jsstring)
| KvPut (key value : jsstring).

(** The outside world of one call of [scrapePepperCloudBlog]: the KV
    namespace, the page behind a URL ([None] when the request fails or the
    status is not 2xx), the clock, and [JSON.stringify] on an object whose
    fields are strings. *)
Record World := mkWorld {
  kvNamespace : option CloudflareKV.t;
  fetchPage : jsstring -> option Page.t;
  nowISO : jsstring;
  JSON_stringify : list (jsstring * jsstring) -> jsstring
}.

Definition markUrlAsScraped (w : World) (url : jsstring)
    (blogData : ScrapedBlog.t) : list Effect :=
  match kvNamespace w with
  | None => []
  | Some _ =>
      [KvPut (scrapedKey url)
             (JSON_stringify w
                [ (js "url", url);
                  (js "title", ScrapedBlog.title blogData);
                  (js "scrapedDate", ScrapedBlog.scrapedDate blogData);
                  (js "category", ScrapedBlog.category blogData) ])]
  end.

Definition kvGetEffect (w : World) (url : jsstring) : list Effect :=
  match kvNamespace w with
  | None => []
  | Some _ => [KvGet (scrapedKey url)]
  end.

Definition scrapePepperCloudBlog (w : World) (blogUrl category : jsstring)
  : option ScrapedBlog.t * list Effect :=
  let fullUrl := js "https://blog.peppercloud.com" ++ blogUrl in
  if isUrlScraped (kvNamespace w) fullUrl
  then (None, kvGetEffect w fullUrl)
  else
    match fetchPage w fullUrl with
    | None => (None, kvGetEffect w fullUrl ++ [Fetch fullUrl])
    | Some page =>
        let title := trim (Page.titleText page) in
        let description := trim (Page.excerptText page) in
        if negb (truthy title)
        then (None, kvGetEffect w fullUrl ++ [Fetch fullUrl])
        else
          match Page.content page with
          | None => (None, kvGetEffect w fullUrl ++ [Fetch fullUrl])
          | Some blogContent =>
              let sections := extractSections blogContent in
              let aiReadyContent :=
                prepareForAI
                  (PromptData.mk title (Some description) category sections
                                 blogUrl) in
              let scrapedBlog :=
                ScrapedBlog.mk title (Some description) category sections
                  blogUrl fullUrl (nowISO w)
                  (List.length (splitBackslashS aiReadyContent))
                  (List.length sections) in
              (Some scrapedBlog,
               kvGetEffect w fullUrl ++ [Fetch fullUrl]
                 ++ markUrlAsScraped w fullUrl scrapedBlog)
          end
    end.

(** ** Listing page *)

(** What [getRecentBlogUrls] reads from one [article] card: the [datetime]
    attribute of its [time] element and the [href] of its image link. *)
Module ArticleCard.
Record t := mk {
  datetime : option jsstring;
  href : option jsstring
}.
End ArticleCard.

Section Listing.
Context {rt : JsRuntime}.

(** [return false] of the [.each] callback: the card is dated and its date
    is before the cut-off. *)
Definition stopsAt (cutoffDate : Date) (article : ArticleCard.t) : bool :=
  match ArticleCard.datetime article with
  | Some dateTime =>
      truthy dateTime && Date_lt (Date_parse dateTime) cutoffDate
  | None => false
  end.

(** The [$("article").each(...)] loop of [getRecentBlogUrls], started with
    the [urls] collected so far. *)
Fixpoint eachArticle (cutoffDate : Date) (articles : list ArticleCard.t)
    (urls : list jsstring) : list jsstring :=
  match articles with
  | [] => urls
  | article :: rest =>
      if stopsAt cutoffDate article then urls
      else
        match ArticleCard.href article with
        | Some blogUrl =>
            if truthy blogUrl
            then eachArticle cutoffDate rest (urls ++ [blogUrl])
            else eachArticle cutoffDate rest urls
        | None => eachArticle cutoffDate rest urls
        end
  end.

(** [getRecentBlogUrls] on the cards of the fetched category page, with
    the cut-off date it computes from the clock. *)
Definition getRecentBlogUrls (cutoffDate : Date)
    (articles : list ArticleCard.t) : list jsstring :=
  eachArticle cutoffDate articles [].

End Listing.

(** ** File names ([generator.ts]) *)

Section Filename.
Context {rt : JsRuntime}.

(** The class written [[a-z0-9\\s-]] in the source: lower-case letters,
    digits, the backslash and the hyphen (the [s] is a letter). *)
Definition isCleanChar (c : N) : bool :=
  isAsciiLower c || isDigit c || (c =? backslash) || isLetterS c
  || isHyphen c.

Definition cleanFilename (title : jsstring) : jsstring :=
  substring0 100
    (replaceRuns isHyphen [hyphen]
       (replaceBackslashS [hyphen]
          (trim (keepOnly isCleanChar (toLowerCase title))))).

End Filename.

End Legacy.

(* ================================================================== *)
(** * Worker variant: [BlogScraper.ts], [BlogGenerator.ts], [index.ts] *)
(* ================================================================== *)

Module Worker.

Module BlogPost.
Record t := mk {
  url : jsstring;
  lastmod : jsstring
}.
End BlogPost.

Module ScrapedBlog.
Record t := mk {
  title : jsstring;
  description : jsstring;
  category : jsstring;
  sections : list ContentSection.t;
  url : jsstring;
  filename : option jsstring;
  lastmod : option jsstring
}.
End ScrapedBlog.

(** ** Sitemap *)

(** What [parseXMLSitemap] reads from one [url] element: the text of its
    [loc] and of its [lastmod] descendants (empty when there is none). *)
Module UrlElement.
Record t := mk {
  locText : jsstring;
  lastmodText : jsstring
}.
End UrlElement.

Definition parseXMLSitemap (urls : list UrlElement.t) : list BlogPost.t :=
  flat_map
    (fun element =>
       let loc := trim (UrlElement.locText element) in
       let lastmod := trim (UrlElement.lastmodText element) in
       if truthy loc && truthy lastmod then [BlogPost.mk loc lastmod] else [])
    urls.

Section Recent.
Context {rt : JsRuntime}.

(** [new Date(post.lastmod)] *)
Definition postDate (post : BlogPost.t) : Date :=
  Date_parse (BlogPost.lastmod post).

(** [getRecentPosts] on the posts of the fetched sitemap.  The log line
    after the filter calls [cutoffDate.toISOString()], which throws on an
    Invalid Date. *)
Definition getRecentPosts (cutoffDate : Date) (allPosts : list BlogPost.t)
  : Outcome (list BlogPost.t) :=
  let recentPosts :=
    filter (fun post => Date_gt (postDate post) cutoffDate) allPosts in
  match cutoffDate with
  | Some _ => Returns recentPosts
  | None => Throws
  end.

End Recent.

(** ** Section extraction *)

(** Body of the [.each] callback of [parseContent]. *)
Definition parseStep (st : walk) (element : node) : walk :=
  let '(contentSections, currentSection) := st in
  let elementText := trim (Dom.text element) in
  if negb (truthy elementText) then st
  else
    let tagName := Dom.tagName element in
    if startsWith (toLowerCaseAscii tagName) (js "h") then
      let contentSections' := flush contentSections currentSection in
      let level := toLowerCaseAscii tagName in
      (contentSections',
       ContentSection.mk (js "section_" ++ level) (Some elementText) [])
    else
      let lowerTagName := toLowerCaseAscii tagName in
      if JS.eqb lowerTagName (js "ul") || JS.eqb lowerTagName (js "ol") then
        let listItems := collectListItems element in
        (contentSections, push_content currentSection (ListOf listItems))
      else
        (contentSections, push_content currentSection (Paragraph elementText)).

(** [parseContent], for a selection [blogContent] of one content root. *)
Definition parseContent (blogContent : node) : list ContentSection.t :=
  let '(contentSections, currentSection) :=
    fold_left parseStep (find contentSelector blogContent) walk_init in
  flush contentSections currentSection.

(** ** Word count *)

(** The strings one content item contributes to the count. *)
Definition contentTexts (content : ScrapedContent.t) : list jsstring :=
  match ScrapedContent.type content with
  | paragraph =>
      [match ScrapedContent.text content with
       | Some text => if truthy text then text else []
       | None => []
       end]
  | list_ =>
      match ScrapedContent.items content with
      | Some items => items
      | None => []
      end
  end.

Definition allTexts (sections : list ContentSection.t) : list jsstring :=
  flat_map (fun section => flat_map contentTexts (ContentSection.content section))
           sections.

Definition calculateWordCount (sections : list ContentSection.t) : nat :=
  let allText := join [32] (allTexts sections) in
  List.length (splitOn 32 allText).

Module PostData.
Record t := mk {
  filename : jsstring;
  word_count : nat;
  sections_count : nat
}.
End PostData.

(** [createPostData] of [index.ts]. *)
Definition createPostData (scrapedBlog : ScrapedBlog.t) : PostData.t :=
  let wordCount :=
    List.length
      (splitOn 32 (join [32] (allTexts (ScrapedBlog.sections scrapedBlog)))) in
  PostData.mk
    (match ScrapedBlog.filename scrapedBlog with
     | Some f => if truthy f then f else js "untitled.md"
     | None => js "untitled.md"
     end)
    wordCount
    (List.length (ScrapedBlog.sections scrapedBlog)).

(** ** File names *)

Section Filename.
Context {rt : JsRuntime}.

(** The class [[\w\s-]]. *)
Definition isFilenameChar (c : N) : bool :=
  isWordChar c || isWhiteSpace c || isHyphen c.

Definition generateCleanFilename (title : jsstring) : jsstring :=
  substring0 100
    (stripEdgeHyphens
       (replaceRuns isHyphen [hyphen]
          (replaceRuns isWhiteSpace [hyphen]
             (keepOnly isFilenameChar (toLowerCase title))))).

End Filename.

(** ** Scraping one post *)

(** What the selectors of [scrapeBlog] find in a fetched page: the text of
    [h1.article-title], the text of [p.article-excerpt], and
    [section.gh-content] if there is one. *)
Module Page.
Record t := mk {
  titleText : jsstring;
  excerptText : jsstring;
  content : option node
}.
End Page.

Section Scrape.
Context {rt : JsRuntime}.

(** [scrapeBlog]; [fetchPage] is [None] when the request throws. *)
Definition scrapeBlog (fetchPage : jsstring -> option Page.t)
    (blogUrl : jsstring) (lastmod : option jsstring) : option ScrapedBlog.t :=
  match fetchPage blogUrl with
  | None => None
  | Some page =>
      let title := trim (Page.titleText page) in
      let description := trim (Page.excerptText page) in
      if negb (truthy title) then None
      else
        match Page.content page with
        | None => None
        | Some blogContent =>
            let contentSections := parseContent blogContent in
            let cleanFilename := generateCleanFilename title in
            Some (ScrapedBlog.mk title description (js "uncategorized")
                    contentSections blogUrl
                    (Some (cleanFilename ++ js ".mdx")) lastmod)
        end
  end.

End Scrape.

(** ** Prompt formatting ([BlogGenerator.ts]) *)

(** ["\n"], a line feed. *)
Definition newline : jsstring := [10].

Definition introLines (section : ContentSection.t) : list jsstring :=
  if JS.eqb (ContentSection.type section) (js "intro") then
    js "Introduction:"
      :: flat_map
           (fun content =>
              match ScrapedContent.type content, ScrapedContent.text content with
              | paragraph, Some text =>
                  if truthy text then [js "- " ++ text] else []
              | _, _ => []
              end)
           (ContentSection.content section)
  else [].

Definition promptHeader (scrapedData : ScrapedBlog.t) : jsstring :=
  js "Title: " ++ ScrapedBlog.title scrapedData ++ newline
  ++ js "Description: " ++ ScrapedBlog.description scrapedData ++ newline
  ++ js "Category: " ++ ScrapedBlog.category scrapedData ++ newline ++ newline.

Definition promptSections (scrapedData : ScrapedBlog.t) : list jsstring :=
  fold_left (fun acc section => acc ++ introLines section)
            (ScrapedBlog.sections scrapedData) [promptHeader scrapedData].

Definition prepareForOpenAI (scrapedData : ScrapedBlog.t) : jsstring :=
  join newline (promptSections scrapedData).

(** ** The crawl loop ([BlogCrawlerWorker.run]) *)

(** [fileUtils.getLastProcessedDate] and [fileUtils.updateLastProcessedDate]
    belong to a class that [run] only calls: the answer of the first is an
    argument of [run], a call of the second is an effect of it. *)

(** Calls made by [run] that matter for the watermark, in order.
    [processPost] catches whatever its body throws, so a call of it always
    returns; what it does inside is not modelled. *)
Inductive Effect :=
| ProcessPost (post : BlogPost.t)
| UpdateLastProcessedDate (d : Date).

Section Run.
Context {rt : JsRuntime}.

(** The [for (const post of recentPosts)] loop, with its [break]. *)
Fixpoint processLoop (recentPosts : list BlogPost.t) (latestDate : Date)
    (processedCount : nat) : Date * nat * list Effect :=
  match recentPosts with
  | [] => (latestDate, processedCount, [])
  | post :: rest =>
      let processedCount' := S processedCount in
      let latestDate' :=
        if Date_gt (postDate post) latestDate then postDate post
        else latestDate in
      if (5 <=? processedCount')%nat
      then (latestDate', processedCount', [ProcessPost post])
      else
        let '(l, c, effects) := processLoop rest latestDate' processedCount' in
        (l, c, ProcessPost post :: effects)
  end.

(** [run], given what [fileUtils.getLastProcessedDate()] answers and the
    posts of the sitemap.  The messages pushed to [results] are left out;
    the first of them calls [lastProcessedDate.toISOString()], which throws
    on an Invalid Date, and every throw ends the run in the [catch]. *)
Definition run (getLastProcessedDate : Outcome Date)
    (allPosts : list BlogPost.t) : list Effect :=
  match getLastProcessedDate with
  | Throws => []
  | Returns lastProcessedDate =>
      match lastProcessedDate with
      | None => []
      | Some _ =>
          match getRecentPosts lastProcessedDate allPosts with
          | Throws => []
          | Returns recentPosts =>
              if (List.length recentPosts =? 0)%nat then []
              else
                let '(latestDate, processedCount, effects) :=
                  processLoop recentPosts lastProcessedDate 0 in
                if Date_gt latestDate lastProcessedDate
                then effects ++ [UpdateLastProcessedDate latestDate]
                else effects
          end
      end
  end.

End Run.

End Worker.

(* ================================================================== *)
(** * Legacy variant: the rest of [generator.ts] *)
(* ================================================================== *)

(** [s.endsWith(suffix)] *)
Definition endsWith (s suffix : jsstring) : bool :=
  startsWith (rev s) (rev suffix).

(** The longest prefix of [s] whose code units satisfy [p]. *)
Fixpoint takeWhile (p : N -> bool) (s : jsstring) : jsstring :=
  match s with
  | [] => []
  | c :: t => if p c then c :: takeWhile p t else []
  end.

Definition doubleQuote : N := 34.
Definition isNotQuote (c : N) : bool := negb (c =? doubleQuote).

Module LegacyGenerator.

(** [generateBlog], given what [completion.choices[0].message.content] is
    ([None] for [null]) or that the request rejects.  The prompt sent is
    not modelled. *)
Definition generateBlog (completion : Outcome (option jsstring))
  : Outcome jsstring :=
  match completion with
  | Throws => Throws
  | Returns content =>
      let generatedContent :=
        match content with Some c => trim c | None => [] end in
      if negb (truthy generatedContent) then Throws
      else Returns generatedContent
  end.

(** A match of the pattern of [extractTitleFromContent] starting at the
    head of [s].  As the source writes the pattern, it is: the text
    [title:], a backslash, any number of letters [s], a double quote, one
    or more code units other than a double quote (the captured group), and
    a double quote. *)
Definition matchTitleAt (s : jsstring) : option jsstring :=
  if startsWith s (js "title:" ++ [backslash]) then
    match dropWhile isLetterS (skipn 7 s) with
    | q :: rest =>
        if q =? doubleQuote then
          let group := takeWhile isNotQuote rest in
          match group, skipn (List.length group) rest with
          | _ :: _, _ :: _ => Some group
          | _, _ => None
          end
        else None
    | [] => None
    end
  else None.

(** [content.match(...)]: the captured group of the leftmost match. *)
Fixpoint matchTitle (content : jsstring) : option jsstring :=
  match content with
  | [] => None
  | _ :: rest =>
      match matchTitleAt content with
      | Some group => Some group
      | None => matchTitle rest
      end
  end.

Definition extractTitleFromContent (content : jsstring) : jsstring :=
  match matchTitle content with
  | Some title => title
  | None => js "Generated Blog Post"
  end.

Module GeneratedBlog.
Record t := mk {
  title : jsstring;
  content : jsstring;
  filename : jsstring;
  wordCount : nat;
  generatedDate : jsstring
}.
End GeneratedBlog.

(** [filename.endsWith(".mdx") ? filename : `${filename}.mdx`] *)
Definition blogFilename (filename : jsstring) : jsstring :=
  if endsWith filename (js ".mdx") then filename else filename ++ js ".mdx".

(** [saveBlogToFile].  [writeFile category blogFilename content] stands for
    creating the directory [generated_blogs/<category>] and writing the
    file there; it throws when the file system does, and the error is
    thrown again. *)
Definition saveBlogToFile
    (writeFile : jsstring -> jsstring -> jsstring -> Outcome unit)
    (nowISO : jsstring) (content filename category : jsstring)
  : Outcome GeneratedBlog.t :=
  match writeFile category (blogFilename filename) content with
  | Throws => Throws
  | Returns _ =>
      Returns (GeneratedBlog.mk (extractTitleFromContent content) content
                 (blogFilename filename)
                 (List.length (splitBackslashS content)) nowISO)
  end.

End LegacyGenerator.

(* ================================================================== *)
(** * Worker variant: the rest of [BlogGenerator] *)
(* ================================================================== *)

Module WorkerGenerator.

Definition categories : list jsstring :=
  [ js "Product Updates"; js "Grants"; js "CRM"; js "Sales & Marketing";
    js "Product Support" ].

Definition categoryMap : list (jsstring * jsstring) :=
  [ (js "Product Updates", js "product-update");
    (js "Grants", js "grant");
    (js "CRM", js "crm");
    (js "Sales & Marketing", js "sales-and-marketing");
    (js "Product Support", js "product-support") ].

(** [categoryMap[key]] for a key that is one of its own properties or no
    property at all. *)
Fixpoint lookup (map : list (jsstring * jsstring)) (key : jsstring)
  : option jsstring :=
  match map with
  | [] => None
  | (k, v) :: rest => if JS.eqb k key then Some v else lookup rest key
  end.

(** [arr.includes(x)] *)
Definition includes (arr : list jsstring) (x : jsstring) : bool :=
  existsb (JS.eqb x) arr.

Definition defaultCategory : jsstring := js "Product Updates".

(** [categorizeWithAI], given what [data.choices[0]?.message?.content] is
    in the answer of the model ([None] for [undefined]) or that the
    request throws or is not answered with a 2xx status. *)
Definition categorizeWithAI (reply : Outcome (option jsstring)) : jsstring :=
  match reply with
  | Throws => defaultCategory
  | Returns content =>
      let aiCategory :=
        match content with
        | Some c => if truthy (trim c) then trim c else defaultCategory
        | None => defaultCategory
        end in
      if includes categories aiCategory then aiCategory else defaultCategory
  end.

(** [this.categoryMap[aiCategory] || 'product-update'] *)
Definition categoryPathOf (aiCategory : jsstring) : jsstring :=
  match lookup categoryMap aiCategory with
  | Some path => if truthy path then path else js "product-update"
  | None => js "product-update"
  end.

Section CleanTitle.
Context {rt : JsRuntime}.

(** The [cleanTitle] of [generateBlogWithAI]. *)
Definition cleanTitle (title : jsstring) : jsstring :=
  replaceRuns isWhiteSpace [hyphen]
    (keepOnly Worker.isFilenameChar (toLowerCase title)).

End CleanTitle.

(** [generateBlogWithAI], given the two answers of the model: the one to
    the categorizing request and the content of the one to the generating
    request.  The prompt sent is not modelled. *)
Definition generateBlogWithAI (categoryReply : Outcome (option jsstring))
    (generationReply : Outcome (option jsstring))
  : option (jsstring * jsstring) :=
  let aiCategory := categorizeWithAI categoryReply in
  let categoryPath := categoryPathOf aiCategory in
  match generationReply with
  | Throws => None
  | Returns content =>
      match content with
      | Some generatedContent =>
          if truthy generatedContent
          then Some (generatedContent, categoryPath)
          else None
      | None => None
      end
  end.

End WorkerGenerator.

(* ================================================================== *)
(** * Legacy variant: the workflow of [main.ts] *)
(* ================================================================== *)

Module Main.

(** [MockKV.put]: [storage.set(key, value)].  The entries are kept newest
    first, and [storage_get] reads the newest entry of a key. *)
Definition storage_set (storage : list (jsstring * jsstring))
    (key value : jsstring) : list (jsstring * jsstring) :=
  (key, value) :: storage.

(** What a call recorded as an effect does to the store of the mock. *)
Definition applyEffect (storage : list (jsstring * jsstring))
    (e : Legacy.Effect) : list (jsstring * jsstring) :=
  match e with
  | Legacy.KvPut key value => storage_set storage key value
  | _ => storage
  end.

Definition categories : list jsstring :=
  [ js "sales-and-marketing"; js "crm"; js "product-update"; js "grant";
    js "product-support" ].

(** The outside world of one run of [main]. *)
Record World := mkWorld {
  (** [process.env.OPENAI_API_KEY] *)
  openaiApiKey : option jsstring;
  (** the [article] cards of the page of a category; [None] when the
      request fails *)
  listing : jsstring -> option (list Legacy.ArticleCard.t);
  (** the cut-off date computed when the page of a category is read *)
  cutoffDate : jsstring -> Date;
  fetchPage : jsstring -> option Legacy.Page.t;
  (** the clock when the post behind a URL is scraped or saved *)
  nowISO : jsstring -> jsstring;
  JSON_stringify : list (jsstring * jsstring) -> jsstring;
  (** the answer of the model for the content and the post handed to
      [generateBlog] *)
  completion : jsstring -> Legacy.ScrapedBlog.t -> Outcome (option jsstring);
  writeFile : jsstring -> jsstring -> jsstring -> Outcome unit
}.

Record State := mkState {
  storage : list (jsstring * jsstring);
  totalProcessed : nat;
  totalGenerated : nat;
  (** the posts counted in [totalProcessed], oldest first *)
  processed : list Legacy.ScrapedBlog.t;
  (** the calls made by the scraper, oldest first *)
  effects : list Legacy.Effect
}.

Definition initialState : State := mkState [] 0 0 [] [].

Section Workflow.
Context {rt : JsRuntime}.
Variable w : World.

(** The world that the scraper sees when the store of the mock is
    [storage]. *)
Definition scraperWorld (storage : list (jsstring * jsstring))
    (blogUrl : jsstring) : Legacy.World :=
  Legacy.mkWorld (Some (Legacy.MockKV storage)) (fetchPage w)
                 (nowISO w blogUrl) (JSON_stringify w).

(** Body of [for (const blogUrl of blogUrls)]. *)
Definition processUrl (category : jsstring) (st : State) (blogUrl : jsstring)
  : State :=
  let '(result, scrapeEffects) :=
    Legacy.scrapePepperCloudBlog (scraperWorld (storage st) blogUrl)
                                 blogUrl category in
  let storage' := fold_left applyEffect scrapeEffects (storage st) in
  let effects' := effects st ++ scrapeEffects in
  match result with
  | None =>
      mkState storage' (totalProcessed st) (totalGenerated st)
              (processed st) effects'
  | Some scrapedBlog =>
      let totalProcessed' := S (totalProcessed st) in
      let processed' := processed st ++ [scrapedBlog] in
      let aiContent := Legacy.prepareForAI (Legacy.asPromptData scrapedBlog) in
      match LegacyGenerator.generateBlog (completion w aiContent scrapedBlog) with
      | Throws =>
          mkState storage' totalProcessed' (totalGenerated st) processed'
                  effects'
      | Returns generatedContent =>
          let cleanFilename :=
            Legacy.cleanFilename (Legacy.ScrapedBlog.title scrapedBlog) in
          match LegacyGenerator.saveBlogToFile (writeFile w) (nowISO w blogUrl)
                  generatedContent cleanFilename category with
          | Throws =>
              mkState storage' totalProcessed' (totalGenerated st) processed'
                      effects'
          | Returns _ =>
              mkState storage' totalProcessed' (S (totalGenerated st))
                      processed' effects'
          end
      end
  end.

(** The URLs that [getRecentBlogUrls(category, 2)] returns. *)
Definition blogUrlsOf (category : jsstring) : list jsstring :=
  match listing w category with
  | Some articles => Legacy.getRecentBlogUrls (cutoffDate w category) articles
  | None => []
  end.

(** Body of [for (const category of categories)]. *)
Definition processCategory (st : State) (category : jsstring) : State :=
  fold_left (processUrl category) (blogUrlsOf category) st.

(** [main]: [None] when the API key is missing, which ends the process
    before anything is scraped. *)
Definition main : option State :=
  match openaiApiKey w with
  | Some key =>
      if truthy key then Some (fold_left processCategory categories initialState)
      else None
  | None => None
  end.

End Workflow.

End Main.

(* ================================================================== *)
(** * Worker variant: [BrowserImageGenerator] *)
(* ================================================================== *)

(** [s.replace(/c/g, r)] for a single code unit [c]. *)
Definition replaceUnit (c : N) (r : jsstring) (s : jsstring) : jsstring :=
  flat_map (fun x => if x =? c then r else [x]) s.

(** [s.replace(pattern, replacement)] for a string pattern: the first
    occurrence only. *)
Fixpoint replaceFirst (pattern replacement s : jsstring) : jsstring :=
  match s with
  | [] => if startsWith [] pattern then replacement else []
  | c :: t =>
      if startsWith s pattern
      then replacement ++ skipn (List.length pattern) s
      else c :: replaceFirst pattern replacement t
  end.

Module BrowserImageGenerator.

Definition escapeHtml (text : jsstring) : jsstring :=
  replaceUnit 39 (js "&#39;")
    (replaceUnit 34 (js "&quot;")
       (replaceUnit 62 (js "&gt;")
          (replaceUnit 60 (js "&lt;")
             (replaceUnit 38 (js "&amp;") text)))).

(** [`${filename.replace('.mdx', '')}.jpg`] of [generateBlogImage]. *)
Definition imageFilename (filename : jsstring) : jsstring :=
  replaceFirst (js ".mdx") [] filename ++ js ".jpg".

(** [`docs/public/images/blog/${category}/${imageFilename}`] *)
Definition imagePath (category filename : jsstring) : jsstring :=
  js "docs/public/images/blog/" ++ category ++ js "/" ++ imageFilename filename.

End BrowserImageGenerator.

(* ================================================================== *)
(** * A concrete run time for closed examples *)
(* ================================================================== *)

(** The theorems below hold for every [JsRuntime].  Closed examples need
    one: lower-casing is exact on ASCII titles, and dates are read in the
    two ISO 8601 shapes that the blog serves, [YYYY-MM-DD] and
    [YYYY-MM-DDTHH:MM:SS(.sss)Z], both in UTC; any other string is read as
    an Invalid Date. *)
Module IsoDate.

Local Open Scope Z_scope.

Definition digit (c : N) : option Z :=
  if isDigit c then Some (Z.of_N c - 48) else None.

Fixpoint number (acc : Z) (s : jsstring) : option Z :=
  match s with
  | [] => Some acc
  | c :: t =>
      match digit c with
      | Some d => number (10 * acc + d) t
      | None => None
      end
  end.

Definition isLeap (y : Z) : bool :=
  (y mod 4 =? 0) && (negb (y mod 100 =? 0) || (y mod 400 =? 0)).

Definition daysInMonth (y m : Z) : Z :=
  if m =? 2 then (if isLeap y then 29 else 28)
  else if (m =? 4) || (m =? 6) || (m =? 9) || (m =? 11) then 30
  else 31.

(** Days from 1970-01-01 to the civil date [y]-[m]-[d]. *)
Definition daysFromCivil (y m d : Z) : Z :=
  let y' := if m <=? 2 then y - 1 else y in
  let era := y' / 400 in
  let yoe := y' - era * 400 in
  let mp := (m + 9) mod 12 in
  let doy := (153 * mp + 2) / 5 + d - 1 in
  let doe := yoe * 365 + yoe / 4 - yoe / 100 + doy in
  era * 146097 + doe - 719468.

Definition datePart (s : jsstring) : option Z :=
  match s with
  | [y1; y2; y3; y4; 45%N; m1; m2; 45%N; d1; d2] =>
      match number 0 [y1; y2; y3; y4], number 0 [m1; m2], number 0 [d1; d2] with
      | Some y, Some m, Some d =>
          if (1 <=? m) && (m <=? 12) && (1 <=? d) && (d <=? daysInMonth y m)
          then Some (daysFromCivil y m d * 86400000)
          else None
      | _, _, _ => None
      end
  | _ => None
  end.

Definition clockPart (s : jsstring) : option Z :=
  match s with
  | [h1; h2; 58%N; m1; m2; 58%N; s1; s2] =>
      match number 0 [h1; h2], number 0 [m1; m2], number 0 [s1; s2] with
      | Some h, Some m, Some sec =>
          if (h <=? 23) && (m <=? 59) && (sec <=? 59)
          then Some ((h * 60 + m) * 60000 + sec * 1000)
          else None
      | _, _, _ => None
      end
  | _ => None
  end.

Definition fractionPart (s : jsstring) : option Z :=
  match s with
  | [90%N] => Some 0
  | [46%N; f1; f2; f3; 90%N] => number 0 [f1; f2; f3]
  | _ => None
  end.

Definition parse (s : jsstring) : Date :=
  match datePart (firstn 10 s), skipn 10 s with
  | Some day, [] => Some day
  | Some day, 84%N :: rest =>
      match clockPart (firstn 8 rest), fractionPart (skipn 8 rest) with
      | Some clock, Some ms => Some (day + clock + ms)
      | _, _ => None
      end
  | _, _ => None
  end.

End IsoDate.

Definition asciiRuntime : JsRuntime :=
  {| toLowerCase := toLowerCaseAscii; Date_parse := IsoDate.parse |}.

(* ================================================================== *)
(** * Vocabulary of the specification *)
(* ================================================================== *)

(** ** Sections *)

Definition isIntro (s : ContentSection.t) : bool :=
  JS.eqb (ContentSection.type s) (js "intro").

(** A section of kind Heading: its type is [section_h...]. *)
Definition isHeadingKind (s : ContentSection.t) : bool :=
  startsWith (ContentSection.type s) (js "section_h").

(** The invariant of the data model on one section: an Intro section has
    no heading, a Heading section has a heading that is not empty after
    trimming, and the content is not empty. *)
Definition sectionShape (s : ContentSection.t) : Prop :=
  (isIntro s = true /\ ContentSection.heading s = None)
  \/ (isIntro s = false /\ isHeadingKind s = true
      /\ exists h, ContentSection.heading s = Some h
                   /\ truthy (trim h) = true).

Definition wellFormedSection (s : ContentSection.t) : Prop :=
  sectionShape s /\ ContentSection.content s <> [].

(** Invariant of a walk, for a property [S] of sections: every pushed
    section satisfies [S] and has content; the current one satisfies [S]. *)
Definition walkInv (S : ContentSection.t -> Prop) (st : walk) : Prop :=
  Forall (fun s => S s /\ ContentSection.content s <> []) (fst st)
  /\ S (snd st).

(** What both walks do on a [p] element. *)
Definition paragraphStep (st : walk) (e : node) : walk :=
  if truthy (trim (Dom.text e))
  then (fst st, push_content (snd st) (Paragraph (trim (Dom.text e))))
  else st.

(** A [List] item without items. *)
Definition isEmptyList (c : ScrapedContent.t) : bool :=
  match ScrapedContent.type c, ScrapedContent.items c with
  | list_, Some [] => true
  | _, _ => false
  end.

(** Sections of the legacy walk: well shaped, and without empty lists. *)
Definition legacySection (s : ContentSection.t) : Prop :=
  sectionShape s
  /\ Forall (fun c => isEmptyList c = false) (ContentSection.content s).

(** ** Inputs of the scenarios *)

(** [<section><h2>Intro Heading</h2><p>Hello world</p><h2>Next</h2>
     <ul><li>A</li><li></li><li>B</li></ul></section>] *)
Definition scenarioRoot : node :=
  Element (js "section")
    [ Element (js "h2") [TextNode (js "Intro Heading")];
      Element (js "p") [TextNode (js "Hello world")];
      Element (js "h2") [TextNode (js "Next")];
      Element (js "ul")
        [ Element (js "li") [TextNode (js "A")];
          Element (js "li") [];
          Element (js "li") [TextNode (js "B")] ] ].

Definition scenarioSections : list ContentSection.t :=
  [ Heading 2 (js "Intro Heading") [Paragraph (js "Hello world")];
    Heading 2 (js "Next") [ListOf [js "A"; js "B"]] ].

(** [<section><ul>x<li> </li></ul></section>]: a list with stray text and
    one item that is empty after trimming. *)
Definition strayListRoot : node :=
  Element (js "section")
    [ Element (js "ul")
        [ TextNode (js "x"); Element (js "li") [TextNode (js " ")] ] ].

(** [<section><p>Hello world</p></section>] *)
Definition helloRoot : node :=
  Element (js "section") [Element (js "p") [TextNode (js "Hello world")]].

(** [<section><p> </p></section>]: one paragraph, empty after trimming. *)
Definition blankParagraphRoot : node :=
  Element (js "section") [Element (js "p") [TextNode (js " ")]].

(** [<section><p>One</p><p> </p><p>Two</p></section>] *)
Definition threeParagraphsRoot : node :=
  Element (js "section")
    [ Element (js "p") [TextNode (js "One")];
      Element (js "p") [TextNode (js " ")];
      Element (js "p") [TextNode (js "Two")] ].

(** ** Paragraph-only content roots *)

(** Every node that the walk visits is a [p] element. *)
Definition paragraphsOnly (root : node) : bool :=
  forallb (fun e => JS.eqb (Dom.tagName e) (js "p"))
          (find contentSelector root).

(** The texts of the visited nodes that are not empty after trimming. *)
Definition nonEmptyTexts (root : node) : list jsstring :=
  filter truthy (map (fun e => trim (Dom.text e)) (find contentSelector root)).

(** ** Word count of the specification *)

(** Number of white-space-delimited tokens of a string. *)
Definition tokenCount (s : jsstring) : nat := List.length (whitespaceTokens s).

(** Number of occurrences of the code unit [c] in [s]. *)
Definition occurrences (c : N) (s : jsstring) : nat :=
  List.length (filter (fun x => x =? c) s).

(** Number of pieces of [s] between single spaces. *)
Definition spacePieces (s : jsstring) : nat := S (occurrences 32 s).

Definition sum (l : list nat) : nat := fold_right Nat.add 0%nat l.

(** The texts of one content item that count as words: the text of a
    paragraph (the empty string when it has none), the items of a list. *)
Definition countedTextsOfItem (c : ScrapedContent.t) : list jsstring :=
  match ScrapedContent.type c with
  | paragraph =>
      match ScrapedContent.text c with
      | Some text => [text]
      | None => [[]]
      end
  | list_ =>
      match ScrapedContent.items c with
      | Some items => items
      | None => []
      end
  end.

(** The texts of a document that count as words: those of every content
    item of every section, in document order.  Headings, title,
    description and category are not among them. *)
Definition countedTexts (sections : list ContentSection.t) : list jsstring :=
  flat_map
    (fun section => flat_map countedTextsOfItem (ContentSection.content section))
    sections.

(** ** Listing entries *)

(** The HTML-listing filter as the specification words it: the walk stops
    at the first dated card whose date is at or before the cut-off. *)
Section ListingSpec.
Context {rt : JsRuntime}.

Definition Date_le (a b : Date) : bool :=
  match a, b with Some x, Some y => (x <=? y)%Z | _, _ => false end.

Definition specStopsAt (cutoffDate : Date) (article : Legacy.ArticleCard.t)
  : bool :=
  match Legacy.ArticleCard.datetime article with
  | Some dateTime => truthy dateTime && Date_le (Date_parse dateTime) cutoffDate
  | None => false
  end.

Fixpoint specRecentBlogUrls (cutoffDate : Date)
    (articles : list Legacy.ArticleCard.t) : list jsstring :=
  match articles with
  | [] => []
  | article :: rest =>
      if specStopsAt cutoffDate article then []
      else
        (match Legacy.ArticleCard.href article with
         | Some blogUrl => if truthy blogUrl then [blogUrl] else []
         | None => []
         end) ++ specRecentBlogUrls cutoffDate rest
  end.

(** The cards before the first one at which the walk of the source stops. *)
Fixpoint cardsBeforeStop (cutoffDate : Date)
    (articles : list Legacy.ArticleCard.t) : list Legacy.ArticleCard.t :=
  match articles with
  | [] => []
  | article :: rest =>
      if Legacy.stopsAt cutoffDate article then []
      else article :: cardsBeforeStop cutoffDate rest
  end.

(** The link of a card, when it has one. *)
Definition cardLink (article : Legacy.ArticleCard.t) : list jsstring :=
  match Legacy.ArticleCard.href article with
  | Some blogUrl => if truthy blogUrl then [blogUrl] else []
  | None => []
  end.

End ListingSpec.

(** ** Reading the effects of a run *)

Definition attemptedPosts (effects : list Worker.Effect)
  : list Worker.BlogPost.t :=
  flat_map (fun e => match e with
                     | Worker.ProcessPost p => [p]
                     | Worker.UpdateLastProcessedDate _ => []
                     end) effects.

Definition watermarkWrites (effects : list Worker.Effect) : list Date :=
  flat_map (fun e => match e with
                     | Worker.ProcessPost _ => []
                     | Worker.UpdateLastProcessedDate d => [d]
                     end) effects.

(** The later of the running latest date and the date of a post: the
    update of [latestDate] in the loop of [run]. *)
Definition laterDate {rt : JsRuntime} (latestDate : Date)
    (post : Worker.BlogPost.t) : Date :=
  if Date_gt (Worker.postDate post) latestDate then Worker.postDate post
  else latestDate.

(** A post is newer than the time value [c]. *)
Definition newerThan {rt : JsRuntime} (c : Z) (post : Worker.BlogPost.t)
  : bool :=
  Date_gt (Worker.postDate post) (Some c).

(** ** Reading a KV failure *)

(** The same namespace, with reads that find nothing. *)
Definition neverSeen (kv : Legacy.CloudflareKV.t) : Legacy.CloudflareKV.t :=
  Legacy.CloudflareKV.mk (fun _ => Returns None) (Legacy.CloudflareKV.put kv).

Definition withKv (w : Legacy.World) (kv : Legacy.CloudflareKV.t)
  : Legacy.World :=
  Legacy.mkWorld (Some kv) (Legacy.fetchPage w) (Legacy.nowISO w)
                 (Legacy.JSON_stringify w).

(** A namespace whose every call rejects. *)
Definition failingKV : Legacy.CloudflareKV.t :=
  Legacy.CloudflareKV.mk (fun _ => Throws) (fun _ _ => Throws).

(** ** Shape of a file name *)

Definition startsWithHyphen (s : jsstring) : bool :=
  match s with c :: _ => isHyphen c | [] => false end.

Fixpoint endsWithHyphen (s : jsstring) : bool :=
  match s with
  | [] => false
  | [c] => isHyphen c
  | _ :: t => endsWithHyphen t
  end.

(** Two hyphens in a row somewhere in [s]. *)
Fixpoint hasDoubleHyphen (s : jsstring) : bool :=
  match s with
  | [] => false
  | c :: t => (isHyphen c && startsWithHyphen t) || hasDoubleHyphen t
  end.

(** Neither white space nor an upper-case ASCII letter. *)
Definition isPlain (c : N) : Prop :=
  isWhiteSpace c = false /\ isAsciiUpper c = false.

(** The run time never yields an upper-case ASCII letter when it lowers
    the case of a string. *)
Definition lowersAscii (rt : JsRuntime) : Prop :=
  forall s, Forall (fun c => isAsciiUpper c = false) (toLowerCase s).

(** ** Inputs of the word-count and formatting examples *)

(** A page titled [T], without excerpt, whose content root is
    [<section><p>Hello world</p></section>]. *)
Definition helloWorkerPage : Worker.Page.t :=
  Worker.Page.mk (js "T") [] (Some helloRoot).

Definition helloUrl : jsstring := js "https://blog.peppercloud.com/hello/".

(** What [scrapeBlog] returns for that page. *)
Definition helloWorkerBlog : Worker.ScrapedBlog.t :=
  Worker.ScrapedBlog.mk (js "T") [] (js "uncategorized")
    [Intro [Paragraph (js "Hello world")]] helloUrl (Some (js "t.mdx")) None.

Definition helloLegacyPage : Legacy.Page.t :=
  Legacy.Page.mk (js "T") (js "D") (Some helloRoot).

(** A world without KV namespace in which every URL serves that page. *)
Definition helloWorld : Legacy.World :=
  Legacy.mkWorld None (fun _ => Some helloLegacyPage)
                 (js "2025-08-01T00:00:00.000Z") (fun _ => []).

(** What [scrapePepperCloudBlog] returns in that world for [/hello/] and
    the category [crm]. *)
Definition helloLegacyBlog : Legacy.ScrapedBlog.t :=
  Legacy.ScrapedBlog.mk (js "T") (Some (js "D")) (js "crm")
    [Intro [Paragraph (js "Hello world")]] (js "/hello/") helloUrl
    (js "2025-08-01T00:00:00.000Z") 1 1.

(** A scraped post of the worker whose sections are the two Heading
    sections of the scenario. *)
Definition headingsWorkerBlog : Worker.ScrapedBlog.t :=
  Worker.ScrapedBlog.mk (js "T") (js "D") (js "uncategorized")
    scenarioSections helloUrl (Some (js "t.mdx")) None.

(** The same document as the argument of the legacy formatter. *)
Definition headingsPromptData : Legacy.PromptData.t :=
  Legacy.PromptData.mk (js "T") (Some (js "D")) (js "uncategorized")
    scenarioSections helloUrl.

(** ** Inputs of the listing and crawl examples *)

(** 2025-08-01T00:00:00Z *)
Definition august1 : Z := 1754006400000.

(** A card dated exactly at the cut-off. *)
Definition cardAtCutoff : Legacy.ArticleCard.t :=
  Legacy.ArticleCard.mk (Some (js "2025-08-01")) (Some (js "/at-cutoff/")).

(** A card without [datetime] attribute. *)
Definition undatedCard : Legacy.ArticleCard.t :=
  Legacy.ArticleCard.mk None (Some (js "/undated/")).

(** A card dated the day before the cut-off. *)
Definition cardBeforeCutoff : Legacy.ArticleCard.t :=
  Legacy.ArticleCard.mk (Some (js "2025-07-31")) (Some (js "/old/")).

Definition post (url lastmod : string) : Worker.BlogPost.t :=
  Worker.BlogPost.mk (js url) (js lastmod).

(** Six posts newer than 2025-08-01, the last one the newest. *)
Definition sixPosts : list Worker.BlogPost.t :=
  [ post "https://blog.peppercloud.com/a/" "2025-08-03";
    post "https://blog.peppercloud.com/b/" "2025-08-05";
    post "https://blog.peppercloud.com/c/" "2025-08-02";
    post "https://blog.peppercloud.com/d/" "2025-08-04";
    post "https://blog.peppercloud.com/e/" "2025-08-02";
    post "https://blog.peppercloud.com/f/" "2025-08-09" ].

(** ** Inputs of the KV and file-name examples *)

(** The world of [helloWorld] with the failing namespace. *)
Definition failingWorld : Legacy.World := withKv helloWorld failingKV.

(** ["a".repeat(99) + "-b"] *)
Definition longTitle : jsstring := repeat 97 99 ++ js "-b".

(** ** Inputs of the workflow examples *)

(** The world of [helloWorld] with the mock store, empty, and a
    [JSON.stringify] that answers [{}]. *)
Definition mockWorld : Legacy.World :=
  Legacy.mkWorld (Some (Legacy.MockKV [])) (fun _ => Some helloLegacyPage)
                 (js "2025-08-01T00:00:00.000Z") (fun _ => js "{}").

(** A world for [main]: every category page lists the one card of
    [/hello/], every URL serves the page of [helloLegacyPage], the model
    answers [Hello] and every file is written. *)
Definition mainWorld : Main.World :=
  Main.mkWorld (Some (js "sk-test"))
    (fun _ => Some [Legacy.ArticleCard.mk None (Some (js "/hello/"))])
    (fun _ => Some august1)
    (fun _ => Some helloLegacyPage)
    (fun _ => js "2025-08-01T00:00:00.000Z")
    (fun _ => js "{}")
    (fun _ _ => Returns (Some (js "Hello")))
    (fun _ _ _ => Returns tt).

(* ================================================================== *)
(** * Further vocabulary *)
(* ================================================================== *)

(** ** Sections and their content *)

Definition isListTag (name : jsstring) : bool :=
  JS.eqb name (js "ul") || JS.eqb name (js "ol").

(** No visited list has text of its own but only items that are empty
    after trimming. *)
Definition listsHaveItems (root : node) : bool :=
  forallb
    (fun e =>
       negb (truthy (trim (Dom.text e)))
       || negb (isListTag (Dom.tagName e))
       || (0 <? List.length (collectListItems e))%nat)
    (find contentSelector root).

(** The seven section types. *)
Definition sectionTypes : list jsstring :=
  [ js "intro"; js "section_h1"; js "section_h2"; js "section_h3";
    js "section_h4"; js "section_h5"; js "section_h6" ].

(** A string that is not empty and that trimming leaves as it is. *)
Definition isTrimmedText (t : jsstring) : Prop :=
  truthy t = true /\ trim t = t.

(** A content item as the walks build them: a paragraph with a trimmed,
    non-empty text, or a list of trimmed, non-empty items. *)
Definition wellFormedItem (c : ScrapedContent.t) : Prop :=
  (exists t, c = Paragraph t /\ isTrimmedText t)
  \/ (exists items, c = ListOf items /\ Forall isTrimmedText items).

(** A visited node that opens a section: it has text and its tag starts
    with [h]. *)
Definition opensSection (e : node) : bool :=
  truthy (trim (Dom.text e))
  && startsWith (toLowerCaseAscii (Dom.tagName e)) (js "h").

Definition countHeadings (root : node) : nat :=
  List.length (filter opensSection (find contentSelector root)).

(** Invariant of a walk on the types of its sections: all are among the
    seven, and only the first pushed section can be the Intro. *)
Definition typesInv (st : walk) : Prop :=
  Forall (fun s => In (ContentSection.type s) sectionTypes) (fst st)
  /\ In (ContentSection.type (snd st)) sectionTypes
  /\ Forall (fun s => isIntro s = false) (tl (fst st))
  /\ (fst st <> [] -> isIntro (snd st) = false).

(** ** Prompts *)

(** A paragraph with text: the only content that the formatters print
    for an Intro section. *)
Definition isPrintedParagraph (c : ScrapedContent.t) : bool :=
  match ScrapedContent.type c, ScrapedContent.text c with
  | paragraph, Some text => truthy text
  | _, _ => false
  end.

(** A section with the content that is not printed in an Intro removed. *)
Definition printedIntro (s : ContentSection.t) : ContentSection.t :=
  ContentSection.mk (ContentSection.type s) (ContentSection.heading s)
                    (filter isPrintedParagraph (ContentSection.content s)).

(** ** Stored keys *)

(** The key under which the URL of a scraped post is stored. *)
Definition keyOf (b : Legacy.ScrapedBlog.t) : jsstring :=
  Legacy.scrapedKey (Legacy.ScrapedBlog.sourceUrl b).

(** [JSON.stringify] of the world never yields the empty string. *)
Definition stringifyNonEmpty (stringify : list (jsstring * jsstring) -> jsstring)
  : Prop :=
  forall fields, truthy (stringify fields) = true.

(** A key is stored with a value that reads as present. *)
Definition isStored (storage : list (jsstring * jsstring)) (key : jsstring)
  : Prop :=
  exists v, Legacy.storage_get storage key = Some v /\ truthy v = true.

(** ** HTML escaping *)

Definition isHtmlSpecial (c : N) : bool :=
  (c =? 38) || (c =? 60) || (c =? 62) || (c =? 34) || (c =? 39).

(** The entity of one code unit. *)
Definition escapeUnit (c : N) : jsstring :=
  if c =? 38 then js "&amp;"
  else if c =? 60 then js "&lt;"
  else if c =? 62 then js "&gt;"
  else if c =? 34 then js "&quot;"
  else if c =? 39 then js "&#39;"
  else [c].

(** The class [[A-Za-z0-9_-]]. *)
Definition isNameChar (c : N) : bool := isWordChar c || isHyphen c.

(** ** Invariant of the workflow of [main] *)

(** The counter of processed posts is the number of posts in the log, the
    counter of generated posts does not exceed it, the keys of the
    processed posts are pairwise different, and each of them is stored. *)
Definition mainInv (st : Main.State) : Prop :=
  Main.totalProcessed st = List.length (Main.processed st)
  /\ (Main.totalGenerated st <= Main.totalProcessed st)%nat
  /\ NoDup (map keyOf (Main.processed st))
  /\ (forall b, In b (Main.processed st) ->
                isStored (Main.storage st) (keyOf b)).

(** ** Categories *)

(** The slugs of [categoryMap]. *)
Definition categorySlugs : list jsstring :=
  map snd WorkerGenerator.categoryMap.

Example IsoDate_epoch :
  IsoDate.parse (js "1970-01-01") = Some 0%Z
  /\ IsoDate.parse (js "2025-08-01") = Some 1754006400000%Z
  /\ IsoDate.parse (js "2025-08-01T10:20:30.000Z") = Some 1754043630000%Z
  /\ IsoDate.parse (js "yesterday") = None.
Proof. repeat split; reflexivity. Qed.


(** A sitemap with two [url] elements, one of them without [lastmod],
    yields one post. *)
Example parseXMLSitemap_missing_lastmod :
  Worker.parseXMLSitemap
    [ Worker.UrlElement.mk (js "https://blog.peppercloud.com/a/")
                           (js "2025-08-03");
      Worker.UrlElement.mk (js "https://blog.peppercloud.com/b/") [] ]
  = [post "https://blog.peppercloud.com/a/" "2025-08-03"].
Proof. reflexivity. Qed.

(** The dedup check on the mock store: a stored URL is seen, another one
    is not, and without namespace nothing is. *)
Example isUrlScraped_MockKV :
  let kv := Legacy.MockKV [(Legacy.scrapedKey helloUrl, js "{}")] in
  Legacy.isUrlScraped (Some kv) helloUrl = true
  /\ Legacy.isUrlScraped (Some kv) (js "https://blog.peppercloud.com/x/") = false
  /\ Legacy.isUrlScraped None helloUrl = false
  /\ Legacy.scrapedKey helloUrl
     = js "scraped:https___blog_peppercloud_com_hello_".
Proof. repeat split; vm_compute; reflexivity. Qed.

(* ================================================================== *)
(** * Facts about strings *)
(* ================================================================== *)

Lemma eqb_true_iff (a b : jsstring) : JS.eqb a b = true <-> a = b.
Proof.
  unfold JS.eqb. destruct (list_eq_dec N.eq_dec a b); split; congruence.
Qed.

Lemma eqb_false_iff (a b : jsstring) : JS.eqb a b = false <-> a <> b.
Proof.
  unfold JS.eqb. destruct (list_eq_dec N.eq_dec a b); split; congruence.
Qed.

Lemma truthy_true_iff (s : jsstring) : truthy s = true <-> s <> [].
Proof. destruct s; simpl; split; congruence. Qed.

Lemma truthy_false_iff (s : jsstring) : truthy s = false <-> s = [].
Proof. destruct s; simpl; split; congruence. Qed.

Section DropWhile.
Variable p : N -> bool.

Lemma dropWhile_head (s : jsstring) :
  match dropWhile p s with [] => True | c :: _ => p c = false end.
Proof.
  induction s as [|c r IH]; simpl; [exact I|].
  destruct (p c) eqn:E; [exact IH | exact E].
Qed.

Lemma dropWhile_fixed (s : jsstring) :
  match s with [] => True | c :: _ => p c = false end -> dropWhile p s = s.
Proof. destruct s as [|c r]; simpl; [reflexivity|]. intros ->. reflexivity. Qed.

Lemma dropWhile_idem (s : jsstring) :
  dropWhile p (dropWhile p s) = dropWhile p s.
Proof. apply dropWhile_fixed, dropWhile_head. Qed.

Lemma dropWhile_suffix (s : jsstring) :
  exists pre, s = pre ++ dropWhile p s.
Proof.
  induction s as [|c r [pre IH]]; simpl.
  - exists []. reflexivity.
  - destruct (p c).
    + exists (c :: pre). simpl. congruence.
    + exists []. reflexivity.
Qed.

End DropWhile.

(** Trimming a trimmed string changes nothing. *)
Lemma trim_idem (s : jsstring) : trim (trim s) = trim s.
Proof.
  unfold trim, trimEnd, trimStart.
  set (a := dropWhile isWhiteSpace s).
  set (b := dropWhile isWhiteSpace (rev a)).
  assert (Hb : dropWhile isWhiteSpace b = b) by apply dropWhile_idem.
  assert (Hr : dropWhile isWhiteSpace (rev b) = rev b).
  { apply dropWhile_fixed.
    destruct (rev b) as [|c t] eqn:E; [exact I|].
    destruct (dropWhile_suffix isWhiteSpace (rev a)) as [pre Hpre].
    fold b in Hpre.
    assert (Ha : a = (c :: t) ++ rev pre).
    { rewrite <- E, <- rev_app_distr, <- Hpre, rev_involutive. reflexivity. }
    pose proof (dropWhile_head isWhiteSpace s) as Hh. fold a in Hh.
    rewrite Ha in Hh. exact Hh. }
  rewrite Hr, rev_involutive, Hb. reflexivity.
Qed.

Lemma trim_truthy_idem (s : jsstring) :
  truthy (trim s) = true -> truthy (trim (trim s)) = true.
Proof. rewrite trim_idem. exact (fun H => H). Qed.

Lemma startsWith_section_h (t : jsstring) :
  startsWith t (js "h") = true ->
  startsWith (js "section_" ++ t) (js "section_h") = true.
Proof.
  destruct t as [|c r]; [discriminate|].
  unfold startsWith at 1. simpl js. intros H.
  apply andb_prop in H. destruct H as [H _].
  apply N.eqb_eq in H. subst c. reflexivity.
Qed.

Lemma section_not_intro (t : jsstring) :
  JS.eqb (js "section_" ++ t) (js "intro") = false.
Proof. apply eqb_false_iff. simpl. discriminate. Qed.

Lemma In_firstn (A : Type) (n : nat) (l : list A) (x : A) :
  In x (firstn n l) -> In x l.
Proof.
  revert l. induction n as [|n IH]; intros [|y l]; simpl; try tauto.
  intros [H | H]; [left; exact H | right; exact (IH l H)].
Qed.

(* ================================================================== *)
(** * Section extraction *)
(* ================================================================== *)

(** ** The invariant of the walk *)

Section WalkInvariant.
Variable S : ContentSection.t -> Prop.

Lemma flush_walkInv sections cur :
  walkInv S (sections, cur) ->
  Forall (fun s => S s /\ ContentSection.content s <> []) (flush sections cur).
Proof.
  intros [Hs Hc]. simpl in *. unfold flush.
  destruct (ContentSection.content cur) as [|c r] eqn:E; simpl; [exact Hs|].
  apply Forall_app. split; [exact Hs|].
  constructor; [|constructor]. split; [exact Hc|]. rewrite E. discriminate.
Qed.

Variable step : walk -> node -> walk.
Hypothesis step_walkInv :
  forall st e, walkInv S st -> walkInv S (step st e).

Lemma fold_walkInv (es : list node) :
  forall st, walkInv S st -> walkInv S (fold_left step es st).
Proof.
  induction es as [|e es IH]; simpl; intros st H; [exact H|].
  apply IH, step_walkInv, H.
Qed.

End WalkInvariant.

Lemma sectionShape_push s item :
  sectionShape s -> sectionShape (push_content s item).
Proof. intros H. exact H. Qed.

Lemma sectionShape_heading (t text : jsstring) :
  startsWith (js "section_" ++ t) (js "section_h") = true ->
  truthy (trim text) = true ->
  sectionShape (ContentSection.mk (js "section_" ++ t) (Some (trim text)) []).
Proof.
  intros Ht Hx. right. unfold isIntro, isHeadingKind. simpl ContentSection.type.
  split; [apply section_not_intro|]. split; [exact Ht|].
  exists (trim text). split; [reflexivity|]. apply trim_truthy_idem, Hx.
Qed.

Lemma walkInv_init (S : ContentSection.t -> Prop) :
  S (Intro []) -> walkInv S walk_init.
Proof. intros H. split; [constructor | exact H]. Qed.

Lemma sectionShape_Intro content : sectionShape (Intro content).
Proof. left. split; reflexivity. Qed.

Lemma legacy_step_inv st e :
  walkInv legacySection st -> walkInv legacySection (Legacy.extractStep st e).
Proof.
  destruct st as [sections cur]. intros H. unfold Legacy.extractStep.
  destruct (truthy (trim (Dom.text e))) eqn:Ht; simpl negb; cbv iota; [|exact H].
  destruct (startsWith (toLowerCaseAscii (tagName e)) (js "h")) eqn:Hh.
  - split; simpl fst; simpl snd.
    + apply flush_walkInv, H.
    + split; [|constructor].
      change (js "section_h" ++ ?x) with (js "section_" ++ (104 :: x)).
      apply sectionShape_heading; [reflexivity | exact Ht].
  - destruct H as [Hs [Hshape Hitems]]. simpl in Hs.
    destruct (JS.eqb _ (js "ul") || JS.eqb _ (js "ol")).
    + destruct (collectListItems e) as [|i rest] eqn:Hl; simpl Nat.ltb; cbv iota.
      * split; [exact Hs | split; assumption].
      * split; [exact Hs|]. split; [exact Hshape|].
        simpl. apply Forall_app. split; [exact Hitems|].
        constructor; [reflexivity | constructor].
    + split; [exact Hs|]. split; [exact Hshape|].
      simpl. apply Forall_app. split; [exact Hitems|].
      constructor; [reflexivity | constructor].
Qed.

Lemma worker_step_inv st e :
  walkInv sectionShape st -> walkInv sectionShape (Worker.parseStep st e).
Proof.
  destruct st as [sections cur]. intros H. unfold Worker.parseStep.
  destruct (truthy (trim (Dom.text e))) eqn:Ht; simpl negb; cbv iota; [|exact H].
  destruct (startsWith (toLowerCaseAscii (tagName e)) (js "h")) eqn:Hh.
  - split; simpl fst; simpl snd.
    + apply flush_walkInv, H.
    + apply sectionShape_heading; [apply startsWith_section_h, Hh | exact Ht].
  - destruct H as [Hs Hshape]. simpl in Hs, Hshape.
    destruct (JS.eqb _ (js "ul") || JS.eqb _ (js "ol"));
      (split; [exact Hs | exact Hshape]).
Qed.

Lemma legacy_sections_inv root :
  Forall (fun s => legacySection s /\ ContentSection.content s <> [])
         (Legacy.extractSections root).
Proof.
  unfold Legacy.extractSections.
  pose proof (@fold_walkInv legacySection Legacy.extractStep legacy_step_inv
                (find contentSelector root) walk_init) as H.
  destruct (fold_left Legacy.extractStep _ walk_init) as [sections cur].
  apply flush_walkInv, H, walkInv_init.
  split; [apply sectionShape_Intro | constructor].
Qed.

Lemma worker_sections_inv root :
  Forall (fun s => sectionShape s /\ ContentSection.content s <> [])
         (Worker.parseContent root).
Proof.
  unfold Worker.parseContent.
  pose proof (@fold_walkInv sectionShape Worker.parseStep worker_step_inv
                (find contentSelector root) walk_init) as H.
  destruct (fold_left Worker.parseStep _ walk_init) as [sections cur].
  apply flush_walkInv, H, walkInv_init, sectionShape_Intro.
Qed.

(** The legacy walk never keeps a list without items. *)
Lemma legacy_no_empty_list root s c :
  In s (Legacy.extractSections root) ->
  In c (ContentSection.content s) ->
  isEmptyList c = false.
Proof.
  intros Hs Hc.
  pose proof (legacy_sections_inv root) as H.
  rewrite Forall_forall in H. destruct (H s Hs) as [[_ Hitems] _].
  rewrite Forall_forall in Hitems. exact (Hitems c Hc).
Qed.

(** ** Walks over paragraphs only *)

Lemma legacy_step_p st e :
  Dom.tagName e = js "p" -> Legacy.extractStep st e = paragraphStep st e.
Proof.
  intros H. unfold Legacy.extractStep, paragraphStep. destruct st as [secs cur].
  rewrite H. destruct (truthy (trim (Dom.text e))); reflexivity.
Qed.

Lemma worker_step_p st e :
  Dom.tagName e = js "p" -> Worker.parseStep st e = paragraphStep st e.
Proof.
  intros H. unfold Worker.parseStep, paragraphStep. destruct st as [secs cur].
  rewrite H. destruct (truthy (trim (Dom.text e))); reflexivity.
Qed.

Lemma fold_left_agree (f g : walk -> node -> walk) (es : list node) :
  Forall (fun e => forall st, f st e = g st e) es ->
  forall st, fold_left f es st = fold_left g es st.
Proof.
  induction 1 as [|e es He _ IH]; simpl; intros st; [reflexivity|].
  rewrite He. apply IH.
Qed.

Lemma fold_paragraphStep (es : list node) :
  forall secs cur,
    fold_left paragraphStep es (secs, cur)
    = (secs,
       ContentSection.mk (ContentSection.type cur) (ContentSection.heading cur)
         (ContentSection.content cur
            ++ map Paragraph
                 (filter truthy (map (fun e => trim (Dom.text e)) es)))).
Proof.
  induction es as [|e es IH]; intros secs cur; simpl.
  - rewrite app_nil_r. destruct cur; reflexivity.
  - unfold paragraphStep at 2. simpl fst. simpl snd.
    destruct (truthy (trim (Dom.text e))); rewrite IH; [|reflexivity].
    simpl. rewrite <- app_assoc. reflexivity.
Qed.

Lemma flush_intro (texts : list jsstring) :
  flush [] (Intro (map Paragraph texts))
  = match texts with [] => [] | _ :: _ => [Intro (map Paragraph texts)] end.
Proof. destruct texts; reflexivity. Qed.

Lemma paragraphsOnly_tags root :
  paragraphsOnly root = true ->
  Forall (fun e => Dom.tagName e = js "p") (find contentSelector root).
Proof.
  unfold paragraphsOnly. rewrite forallb_forall, Forall_forall.
  intros H e He. apply eqb_true_iff, H, He.
Qed.

(** C1.  On the content root
    [<section><h2>Intro Heading</h2><p>Hello world</p><h2>Next</h2>
     <ul><li>A</li><li></li><li>B</li></ul></section>]
    both walks return exactly the two sections
    [Heading(2, "Intro Heading", [Paragraph("Hello world")])] and
    [Heading(2, "Next", [List(["A", "B"])])], in that order: the empty [li]
    is dropped and no Intro section is emitted. *)
Theorem C1_scenario_sections :
  Legacy.extractSections scenarioRoot = scenarioSections
  /\ Worker.parseContent scenarioRoot = scenarioSections
  /\ Forall (fun s => isIntro s = false) scenarioSections.
Proof.
  split; [|split].
  - vm_compute. reflexivity.
  - vm_compute. reflexivity.
  - repeat constructor.
Qed.

(** C2.  The worker walk, on the list [<ul>x<li> </li></ul>] all of whose
    items are empty after trimming, appends a [List] without items to the
    current section, and the section is kept; the legacy walk appends
    nothing there. *)
Theorem C2_worker_keeps_empty_list :
  collectListItems (Element (js "ul")
                      [TextNode (js "x"); Element (js "li") [TextNode (js " ")]])
  = []
  /\ Worker.parseContent strayListRoot = [Intro [ListOf []]]
  /\ Legacy.extractSections strayListRoot = [].
Proof. repeat split; vm_compute; reflexivity. Qed.

(** C5 as stated fails on a content root whose only paragraph is empty
    after trimming: no section at all is produced, not one Intro section. *)
Lemma C5_counterexample :
  paragraphsOnly blankParagraphRoot = true
  /\ nonEmptyTexts blankParagraphRoot = []
  /\ ~ (exists s, Legacy.extractSections blankParagraphRoot = [s])
  /\ ~ (exists s, Worker.parseContent blankParagraphRoot = [s]).
Proof.
  repeat split; try (vm_compute; reflexivity);
    intros [s H]; vm_compute in H; discriminate H.
Qed.

(** C5, amended.  When every node visited below the content root is a
    paragraph, both walks produce no section if no paragraph has text
    after trimming, and otherwise exactly one Intro section, whose content
    is the non-empty trimmed paragraph texts in order; its length is the
    number of those paragraphs. *)
Theorem C5_paragraphs_only (root : node) :
  paragraphsOnly root = true ->
  let texts := nonEmptyTexts root in
  let expected :=
    match texts with [] => [] | _ :: _ => [Intro (map Paragraph texts)] end in
  Legacy.extractSections root = expected
  /\ Worker.parseContent root = expected
  /\ Forall (fun s => isIntro s = true
                      /\ List.length (ContentSection.content s)
                         = List.length texts) expected.
Proof.
  intros Hp texts expected.
  pose proof (paragraphsOnly_tags root Hp) as Htags.
  assert (Hfold : forall step,
             (forall st e, Dom.tagName e = js "p" -> step st e = paragraphStep st e) ->
             fold_left step (find contentSelector root) walk_init
             = ([], Intro (map Paragraph texts))).
  { intros step Hstep.
    rewrite (@fold_left_agree step paragraphStep).
    - unfold walk_init. rewrite fold_paragraphStep. reflexivity.
    - revert Htags. apply Forall_impl. intros e He st. apply Hstep, He. }
  split; [|split].
  - unfold Legacy.extractSections.
    rewrite (Hfold _ legacy_step_p). apply flush_intro.
  - unfold Worker.parseContent.
    rewrite (Hfold _ worker_step_p). apply flush_intro.
  - subst expected. destruct texts as [|t ts] eqn:E; constructor; [|constructor].
    split; [reflexivity|]. simpl. rewrite length_map. reflexivity.
Qed.

Lemma C5_paragraphs_only_witness :
  paragraphsOnly threeParagraphsRoot = true
  /\ Legacy.extractSections threeParagraphsRoot
     = [Intro [Paragraph (js "One"); Paragraph (js "Two")]]
  /\ Worker.parseContent threeParagraphsRoot
     = [Intro [Paragraph (js "One"); Paragraph (js "Two")]].
Proof.
  assert (H : paragraphsOnly threeParagraphsRoot = true) by reflexivity.
  split; [exact H|].
  destruct (C5_paragraphs_only threeParagraphsRoot H) as [Hl [Hw _]].
  split; [exact Hl | exact Hw].
Defined.

(** C8.  Every section returned by either walk is well formed: an Intro
    section has no heading, a Heading section has a heading that is
    present and not empty after trimming, and the content of the section
    is not empty. *)
Theorem C8_sections_well_formed (root : node) (s : ContentSection.t) :
  In s (Legacy.extractSections root) \/ In s (Worker.parseContent root) ->
  wellFormedSection s.
Proof.
  intros [H | H].
  - pose proof (legacy_sections_inv root) as Hinv.
    rewrite Forall_forall in Hinv. destruct (Hinv s H) as [[Hshape _] Hc].
    split; assumption.
  - pose proof (worker_sections_inv root) as Hinv.
    rewrite Forall_forall in Hinv. exact (Hinv s H).
Qed.

Lemma C8_sections_well_formed_witness :
  wellFormedSection (Heading 2 (js "Next") [ListOf [js "A"; js "B"]]).
Proof.
  apply (C8_sections_well_formed scenarioRoot).
  left. vm_compute. right. left. reflexivity.
Defined.

(* ================================================================== *)
(** * Word count and prompt formatting *)
(* ================================================================== *)

Lemma splitOn_length (sep : N) (s : jsstring) :
  List.length (splitOn sep s) = S (occurrences sep s).
Proof.
  unfold occurrences.
  induction s as [|c r IH]; simpl; [reflexivity|].
  destruct (c =? sep); simpl.
  - rewrite IH. reflexivity.
  - destruct (splitOn sep r) as [|p ps]; simpl in *; [discriminate IH | exact IH].
Qed.

Lemma occurrences_app (c : N) (a b : jsstring) :
  occurrences c (a ++ b) = (occurrences c a + occurrences c b)%nat.
Proof. unfold occurrences. rewrite filter_app, length_app. reflexivity. Qed.

Lemma occurrences_join_space (l : list jsstring) :
  S (occurrences 32 (join [32] l))
  = Nat.max 1 (sum (map spacePieces l)).
Proof.
  induction l as [|x rest IH]; [reflexivity|].
  destruct rest as [|y rest'].
  - simpl. unfold spacePieces. lia.
  - change (join [32] (x :: y :: rest'))
      with (x ++ [32] ++ join [32] (y :: rest')).
    rewrite !occurrences_app.
    change (occurrences 32 [32]) with 1%nat.
    change (sum (map spacePieces (x :: y :: rest')))
      with (spacePieces x + sum (map spacePieces (y :: rest')))%nat.
    assert (Hpos : (1 <= sum (map spacePieces (y :: rest')))%nat).
    { simpl. unfold spacePieces. lia. }
    unfold spacePieces in *. lia.
Qed.

(** The worker counts over the section texts only. *)
Lemma calculateWordCount_sum (sections : list ContentSection.t) :
  Worker.calculateWordCount sections
  = Nat.max 1 (sum (map spacePieces (Worker.allTexts sections))).
Proof.
  unfold Worker.calculateWordCount.
  rewrite splitOn_length. apply occurrences_join_space.
Qed.

Lemma createPostData_word_count (blog : Worker.ScrapedBlog.t) :
  Worker.PostData.word_count (Worker.createPostData blog)
  = Worker.calculateWordCount (Worker.ScrapedBlog.sections blog).
Proof. reflexivity. Qed.

(** C3 as stated fails in the worker: for the page titled [T] whose content
    is [<p>Hello world</p>] the count is 2, while the prompt produced from
    the same document has 9 white-space-delimited tokens. *)
Lemma C3_counterexample :
  Worker.scrapeBlog (rt := asciiRuntime) (fun _ => Some helloWorkerPage)
                    helloUrl None = Some helloWorkerBlog
  /\ Worker.calculateWordCount (Worker.ScrapedBlog.sections helloWorkerBlog)
     = 2%nat
  /\ tokenCount (Worker.prepareForOpenAI helloWorkerBlog) = 9%nat
  /\ Worker.PostData.word_count (Worker.createPostData helloWorkerBlog)
     <> tokenCount (Worker.prepareForOpenAI helloWorkerBlog).
Proof.
  repeat split; try (vm_compute; reflexivity).
  vm_compute. discriminate.
Qed.

Lemma contentTexts_counted (c : ScrapedContent.t) :
  Worker.contentTexts c = countedTextsOfItem c.
Proof.
  unfold Worker.contentTexts, countedTextsOfItem.
  destruct (ScrapedContent.type c); [|reflexivity].
  destruct (ScrapedContent.text c) as [[|x t]|]; reflexivity.
Qed.

Lemma allTexts_counted (sections : list ContentSection.t) :
  Worker.allTexts sections = countedTexts sections.
Proof.
  unfold Worker.allTexts, countedTexts.
  induction sections as [|s l IH]; [reflexivity|].
  cbn [flat_map]. rewrite IH. f_equal.
  induction (ContentSection.content s) as [|c cs IHc]; [reflexivity|].
  cbn [flat_map]. rewrite IHc, contentTexts_counted. reflexivity.
Qed.

(** C3, amended.  In the worker the word count of a document is not taken
    over the formatted prompt: it is taken over the texts of the sections
    alone, the text of every paragraph and every item of every list.  Each
    of these texts counts for the number of its pieces between single
    spaces, the count is the sum over all of them, and it is 1 when the
    document has no such text; [createPostData] reports the same number.
    A paragraph counts for its text and a list for each of its items. *)
Theorem C3_worker_word_count (blog : Worker.ScrapedBlog.t) :
  Worker.calculateWordCount (Worker.ScrapedBlog.sections blog)
  = Nat.max 1 (sum (map spacePieces
                      (countedTexts (Worker.ScrapedBlog.sections blog))))
  /\ Worker.PostData.word_count (Worker.createPostData blog)
     = Worker.calculateWordCount (Worker.ScrapedBlog.sections blog)
  /\ (forall type heading text,
        Worker.calculateWordCount
          [ContentSection.mk type heading [Paragraph text]]
        = spacePieces text)
  /\ (forall type heading item items,
        Worker.calculateWordCount
          [ContentSection.mk type heading [ListOf (item :: items)]]
        = sum (map spacePieces (item :: items))).
Proof.
  split; [|split; [|split]].
  - rewrite calculateWordCount_sum, allTexts_counted. reflexivity.
  - apply createPostData_word_count.
  - intros type heading text. rewrite calculateWordCount_sum, allTexts_counted.
    cbn [countedTexts flat_map ContentSection.content countedTextsOfItem
         Paragraph ScrapedContent.type ScrapedContent.text app map sum
         fold_right].
    unfold spacePieces. lia.
  - intros type heading item items.
    rewrite calculateWordCount_sum, allTexts_counted.
    cbn [countedTexts flat_map ContentSection.content countedTextsOfItem
         ListOf ScrapedContent.type ScrapedContent.items].
    rewrite !app_nil_r.
    change (sum (map spacePieces (item :: items)))
      with (S (occurrences 32 item + sum (map spacePieces items))).
    lia.
Qed.

(** The two Heading sections of the scenario count 4 words: 2 for the
    paragraph and 1 for each of the two list items; the headings are not
    counted. *)
Example worker_wordCount_scenario :
  Worker.calculateWordCount scenarioSections = 4%nat
  /\ countedTexts scenarioSections = [js "Hello world"; js "A"; js "B"].
Proof. split; vm_compute; reflexivity. Qed.

(** In the legacy variant the recorded count is 1 for the same page: the
    prompt holds no match of the separator pattern, and 6 tokens. *)
Example legacy_wordCount_hello :
  Legacy.ScrapedBlog.wordCount helloLegacyBlog = 1%nat
  /\ tokenCount (Legacy.prepareForAI (Legacy.asPromptData helloLegacyBlog))
     = 6%nat.
Proof. split; vm_compute; reflexivity. Qed.

(** ** The two formatters on Heading sections *)

Lemma fold_left_app_flat_map (A B : Type) (f : A -> list B) (l : list A) :
  forall acc, fold_left (fun acc x => acc ++ f x) l acc = acc ++ flat_map f l.
Proof.
  induction l as [|x l IH]; intros acc; simpl.
  - rewrite app_nil_r. reflexivity.
  - rewrite IH, <- app_assoc. reflexivity.
Qed.

Lemma legacy_promptSections_flat (d : Legacy.PromptData.t) :
  Legacy.promptSections d
  = Legacy.headerLines d
    ++ flat_map Legacy.sectionLines (Legacy.PromptData.sections d).
Proof. apply fold_left_app_flat_map. Qed.

(** The legacy formatter emits, for every section that is not the Intro
    and has a heading, the separator and the heading text, then the lines
    of its content, between the lines of the sections before and after. *)
Lemma legacy_heading_block (d : Legacy.PromptData.t) pre s post h :
  Legacy.PromptData.sections d = pre ++ s :: post ->
  isIntro s = false ->
  ContentSection.heading s = Some h ->
  truthy h = true ->
  Legacy.promptSections d
  = (Legacy.headerLines d ++ flat_map Legacy.sectionLines pre)
    ++ [Legacy.lineSeparator ++ h]
    ++ flat_map Legacy.contentLines (ContentSection.content s)
    ++ flat_map Legacy.sectionLines post.
Proof.
  intros Hs Hi Hh Ht.
  rewrite legacy_promptSections_flat, Hs, flat_map_app. simpl flat_map.
  unfold Legacy.sectionLines at 2. unfold isIntro in Hi.
  rewrite Hi, Hh, Ht, <- !app_assoc. reflexivity.
Qed.

Lemma legacy_contentLines_Paragraph (text : jsstring) :
  truthy text = true ->
  Legacy.contentLines (Paragraph text) = [js "- " ++ text].
Proof. intros H. unfold Legacy.contentLines, Legacy.paragraphLine. simpl. rewrite H. reflexivity. Qed.

Lemma legacy_contentLines_ListOf (items : list jsstring) :
  Legacy.contentLines (ListOf items)
  = js "List items:" :: map (fun item => Legacy.bulletPrefix ++ item) items.
Proof. reflexivity. Qed.

(** The worker formatter emits nothing for a section that is not the
    Intro. *)
Lemma worker_introLines_heading (s : ContentSection.t) :
  isIntro s = false -> Worker.introLines s = [].
Proof. unfold isIntro, Worker.introLines. intros ->. reflexivity. Qed.

Lemma worker_prompt_without_intro (blog : Worker.ScrapedBlog.t) :
  Forall (fun s => isIntro s = false) (Worker.ScrapedBlog.sections blog) ->
  Worker.prepareForOpenAI blog = Worker.promptHeader blog.
Proof.
  intros H. unfold Worker.prepareForOpenAI, Worker.promptSections.
  rewrite fold_left_app_flat_map.
  replace (flat_map Worker.introLines (Worker.ScrapedBlog.sections blog))
    with (@nil jsstring); [reflexivity|].
  induction H as [|s l Hs _ IH]; simpl; [reflexivity|].
  rewrite (worker_introLines_heading s Hs). exact IH.
Qed.

(** C4.  For the document whose sections are the two Heading sections of
    the scenario, the worker formatter returns the header alone: neither
    heading text nor any content line of the two sections is in the
    output.  The legacy formatter emits them all, in section order. *)
Theorem C4_worker_omits_heading_sections :
  Worker.ScrapedBlog.sections headingsWorkerBlog = scenarioSections
  /\ Worker.promptSections headingsWorkerBlog
     = [Worker.promptHeader headingsWorkerBlog]
  /\ Worker.prepareForOpenAI headingsWorkerBlog
     = js "Title: T" ++ [10] ++ js "Description: D" ++ [10]
       ++ js "Category: uncategorized" ++ [10; 10]
  /\ Legacy.promptSections headingsPromptData
     = [ js "Title: T"; js "Description: D"; js "Category: uncategorized";
         Legacy.lineSeparator ++ js "Intro Heading";
         js "- Hello world";
         Legacy.lineSeparator ++ js "Next";
         js "List items:";
         Legacy.bulletPrefix ++ js "A";
         Legacy.bulletPrefix ++ js "B" ].
Proof. repeat split; vm_compute; reflexivity. Qed.

(* ================================================================== *)
(** * Recency filtering *)
(* ================================================================== *)

Section ListingFacts.
Context {rt : JsRuntime}.

Lemma Date_gt_Some (d : Date) (c : Z) :
  Date_gt d (Some c) = true <-> exists t, d = Some t /\ (c < t)%Z.
Proof.
  destruct d as [t|]; simpl.
  - rewrite Z.ltb_lt. split.
    + intros H. exists t. split; [reflexivity | exact H].
    + intros [t' [E H]]. injection E as ->. exact H.
  - split; [discriminate | intros [t [E _]]; discriminate].
Qed.

Lemma newerThan_mono (c1 c2 : Z) (p : Worker.BlogPost.t) :
  (c1 <= c2)%Z -> newerThan c2 p = true -> newerThan c1 p = true.
Proof.
  unfold newerThan. rewrite !Date_gt_Some.
  intros Hc [t [E H]]. exists t. split; [exact E | lia].
Qed.

Lemma filter_newer_mono (c1 c2 : Z) (posts : list Worker.BlogPost.t) :
  (c1 <= c2)%Z ->
  filter (newerThan c2) posts = filter (newerThan c2) (filter (newerThan c1) posts).
Proof.
  intros Hc. induction posts as [|p posts IH]; simpl; [reflexivity|].
  destruct (newerThan c2 p) eqn:E2.
  - rewrite (newerThan_mono p Hc E2). simpl. rewrite E2, IH. reflexivity.
  - destruct (newerThan c1 p); simpl; [rewrite E2|]; exact IH.
Qed.

Lemma filter_length_le (A : Type) (f : A -> bool) (l : list A) :
  (List.length (filter f l) <= List.length l)%nat.
Proof.
  induction l as [|x l IH]; simpl; [lia|]. destruct (f x); simpl; lia.
Qed.

Lemma getRecentPosts_Some (c : Z) (posts : list Worker.BlogPost.t) :
  Worker.getRecentPosts (Some c) posts = Returns (filter (newerThan c) posts).
Proof. reflexivity. Qed.

(** The loop over the cards, unrolled. *)
Lemma eachArticle_cardsBeforeStop cutoff (articles : list Legacy.ArticleCard.t) :
  forall urls,
    Legacy.eachArticle cutoff articles urls
    = urls ++ flat_map cardLink (cardsBeforeStop cutoff articles).
Proof.
  induction articles as [|a rest IH]; intros urls; simpl.
  - rewrite app_nil_r. reflexivity.
  - destruct (Legacy.stopsAt cutoff a).
    + rewrite app_nil_r. reflexivity.
    + simpl. unfold cardLink at 1.
      destruct (Legacy.ArticleCard.href a) as [u|]; [destruct (truthy u)|];
        rewrite IH; simpl; rewrite <- ?app_assoc; reflexivity.
Qed.

Lemma stopsAt_iff (c : Z) (a : Legacy.ArticleCard.t) :
  Legacy.stopsAt (Some c) a = true
  <-> exists dateTime t,
        Legacy.ArticleCard.datetime a = Some dateTime
        /\ dateTime <> []
        /\ Date_parse dateTime = Some t
        /\ (t < c)%Z.
Proof.
  unfold Legacy.stopsAt, Date_lt.
  destruct (Legacy.ArticleCard.datetime a) as [dt|].
  - rewrite andb_true_iff, truthy_true_iff. split.
    + intros [Hne Hgt]. destruct (Date_parse dt) as [t|] eqn:E; [|discriminate].
      simpl in Hgt. apply Z.ltb_lt in Hgt.
      exists dt, t. repeat split; assumption.
    + intros [dt' [t [E [Hne [Hp Hlt]]]]]. injection E as <-.
      split; [exact Hne|]. rewrite Hp. simpl. apply Z.ltb_lt, Hlt.
  - split; [discriminate | intros [dt [t [E _]]]; discriminate].
Qed.

Lemma stopsAt_mono (c1 c2 : Z) (a : Legacy.ArticleCard.t) :
  (c1 <= c2)%Z ->
  Legacy.stopsAt (Some c1) a = true -> Legacy.stopsAt (Some c2) a = true.
Proof.
  rewrite !stopsAt_iff. intros Hc [dt [t [E [Hne [Hp Hlt]]]]].
  exists dt, t. repeat split; try assumption. lia.
Qed.

Lemma cardsBeforeStop_mono (c1 c2 : Z) (articles : list Legacy.ArticleCard.t) :
  (c1 <= c2)%Z ->
  exists later,
    cardsBeforeStop (Some c1) articles
    = cardsBeforeStop (Some c2) articles ++ later.
Proof.
  intros Hc. induction articles as [|a rest [later IH]]; simpl.
  - exists []. reflexivity.
  - destruct (Legacy.stopsAt (Some c1) a) eqn:E1.
    + rewrite (stopsAt_mono a Hc E1). exists []. reflexivity.
    + destruct (Legacy.stopsAt (Some c2) a).
      * eexists. reflexivity.
      * exists later. simpl. rewrite IH. reflexivity.
Qed.

End ListingFacts.

(** C7 as stated fails on the listing page: a card dated exactly at the
    cut-off does not stop the walk of the source and its link is returned,
    while a walk that stops at the first dated entry at or before the
    cut-off returns nothing; and an undated card behind a card that is
    before the cut-off is not returned. *)
Lemma C7_counterexample :
  IsoDate.parse (js "2025-08-01") = Some august1
  /\ Legacy.getRecentBlogUrls (rt := asciiRuntime) (Some august1) [cardAtCutoff]
     = [js "/at-cutoff/"]
  /\ specRecentBlogUrls (rt := asciiRuntime) (Some august1) [cardAtCutoff] = []
  /\ Legacy.getRecentBlogUrls (rt := asciiRuntime) (Some august1)
       [cardBeforeCutoff; undatedCard] = [].
Proof. repeat split; vm_compute; reflexivity. Qed.

(** C7, amended.  Recency filtering is monotonic in the cut-off: for
    cut-offs [c1 <= c2], the sitemap result for [c2] is the result for [c1]
    filtered once more, so it is contained in it and not longer, and the
    listing result for [c2] is a prefix of the result for [c1].  The
    sitemap variant retains exactly the posts whose date is valid and
    strictly after the cut-off.  The listing variant stops at the first
    card that has a non-empty [datetime] whose date is strictly before the
    cut-off, and returns the links of the cards before it; a card dated at
    the cut-off, undated or with an unreadable date never stops the walk. *)
Theorem C7_recency_filtering {rt : JsRuntime} (c1 c2 : Z)
    (posts : list Worker.BlogPost.t) (cards : list Legacy.ArticleCard.t) :
  (c1 <= c2)%Z ->
  (exists r1 r2,
      Worker.getRecentPosts (Some c1) posts = Returns r1
      /\ Worker.getRecentPosts (Some c2) posts = Returns r2
      /\ r2 = filter (newerThan c2) r1
      /\ incl r2 r1
      /\ (List.length r2 <= List.length r1)%nat
      /\ (forall p, In p r1 <->
                    In p posts
                    /\ exists t, Worker.postDate p = Some t /\ (c1 < t)%Z))
  /\ (exists later,
        Legacy.getRecentBlogUrls (Some c1) cards
        = Legacy.getRecentBlogUrls (Some c2) cards ++ later)
  /\ Legacy.getRecentBlogUrls (Some c1) cards
     = flat_map cardLink (cardsBeforeStop (Some c1) cards)
  /\ (forall a,
        Legacy.stopsAt (Some c1) a = true
        <-> exists dateTime t,
              Legacy.ArticleCard.datetime a = Some dateTime
              /\ dateTime <> []
              /\ Date_parse dateTime = Some t
              /\ (t < c1)%Z).
Proof.
  intros Hc. split; [|split; [|split]].
  - exists (filter (newerThan c1) posts), (filter (newerThan c2) posts).
    split; [apply getRecentPosts_Some|]. split; [apply getRecentPosts_Some|].
    pose proof (filter_newer_mono posts Hc) as Hm.
    split; [exact Hm|]. split; [|split].
    + rewrite Hm. apply incl_filter.
    + rewrite Hm. apply filter_length_le.
    + intros p. rewrite filter_In. unfold newerThan. rewrite Date_gt_Some.
      reflexivity.
  - destruct (cardsBeforeStop_mono cards Hc) as [later Hl].
    exists (flat_map cardLink later).
    unfold Legacy.getRecentBlogUrls. rewrite !eachArticle_cardsBeforeStop.
    simpl. rewrite Hl, flat_map_app. reflexivity.
  - unfold Legacy.getRecentBlogUrls. rewrite eachArticle_cardsBeforeStop.
    reflexivity.
  - intros a. apply stopsAt_iff.
Qed.

Lemma C7_recency_filtering_witness :
  Legacy.getRecentBlogUrls (rt := asciiRuntime) (Some (august1 - 1)%Z)
                           [cardAtCutoff; cardBeforeCutoff]
  = flat_map cardLink
      (cardsBeforeStop (rt := asciiRuntime) (Some (august1 - 1)%Z)
                       [cardAtCutoff; cardBeforeCutoff]).
Proof.
  assert (H : (august1 - 1 <= august1)%Z) by (unfold august1; lia).
  exact (proj1 (proj2 (proj2
           (C7_recency_filtering (rt := asciiRuntime) sixPosts
              [cardAtCutoff; cardBeforeCutoff] H)))).
Defined.

(* ================================================================== *)
(** * The crawl loop and the watermark *)
(* ================================================================== *)

Section RunFacts.
Context {rt : JsRuntime}.

(** The loop processes the first posts up to the fifth, and leaves in
    [latestDate] the fold of [laterDate] over them. *)
Lemma processLoop_firstn (posts : list Worker.BlogPost.t) :
  forall latest count,
    (count < 5)%nat ->
    Worker.processLoop posts latest count
    = (fold_left laterDate (firstn (5 - count) posts) latest,
       (count + List.length (firstn (5 - count) posts))%nat,
       map Worker.ProcessPost (firstn (5 - count) posts)).
Proof.
  induction posts as [|p rest IH]; intros latest count Hc.
  - rewrite firstn_nil. simpl. rewrite Nat.add_0_r. reflexivity.
  - replace (5 - count)%nat with (S (5 - S count)) by lia.
    cbn [Worker.processLoop firstn fold_left map List.length].
    fold (laterDate latest p).
    destruct (5 <=? S count)%nat eqn:E.
    + apply Nat.leb_le in E. replace (5 - S count)%nat with 0%nat by lia.
      simpl. f_equal. f_equal. lia.
    + apply Nat.leb_gt in E. rewrite IH by lia.
      f_equal. f_equal. lia.
Qed.

(** Over posts that are all newer than the start value, the fold of
    [laterDate] is their maximum, or the start value if there is none. *)
Lemma fold_laterDate_max (posts : list Worker.BlogPost.t) :
  forall d0,
    exists d,
      fold_left laterDate posts (Some d0) = Some d
      /\ (d0 <= d)%Z
      /\ (forall p t, In p posts -> Worker.postDate p = Some t -> (t <= d)%Z)
      /\ (d = d0 \/ exists p, In p posts /\ Worker.postDate p = Some d).
Proof.
  induction posts as [|p rest IH]; intros d0; simpl.
  - exists d0. repeat split; [lia | intros p t [] | left; reflexivity].
  - unfold laterDate at 2.
    destruct (Date_gt (Worker.postDate p) (Some d0)) eqn:E.
    + apply Date_gt_Some in E. destruct E as [t [Et Hlt]]. rewrite Et.
      destruct (IH t) as [d [Hf [Hle [Hall Hex]]]].
      exists d. split; [exact Hf|]. split; [lia|]. split.
      * intros q tq [<- | Hq] Hd.
        -- rewrite Et in Hd. injection Hd as <-. exact Hle.
        -- exact (Hall q tq Hq Hd).
      * right. destruct Hex as [-> | [q [Hq Hd]]].
        -- exists p. split; [left; reflexivity | exact Et].
        -- exists q. split; [right; exact Hq | exact Hd].
    + destruct (IH d0) as [d [Hf [Hle [Hall Hex]]]].
      exists d. split; [exact Hf|]. split; [exact Hle|]. split.
      * intros q tq [<- | Hq] Hd.
        -- rewrite Hd in E. simpl in E. apply Z.ltb_ge in E. lia.
        -- exact (Hall q tq Hq Hd).
      * destruct Hex as [-> | [q [Hq Hd]]]; [left; reflexivity|].
        right. exists q. split; [right; exact Hq | exact Hd].
Qed.

Lemma attemptedPosts_app (a b : list Worker.Effect) :
  attemptedPosts (a ++ b) = attemptedPosts a ++ attemptedPosts b.
Proof. apply flat_map_app. Qed.

Lemma watermarkWrites_app (a b : list Worker.Effect) :
  watermarkWrites (a ++ b) = watermarkWrites a ++ watermarkWrites b.
Proof. apply flat_map_app. Qed.

Lemma attemptedPosts_map (l : list Worker.BlogPost.t) :
  attemptedPosts (map Worker.ProcessPost l) = l.
Proof. induction l as [|p l IH]; simpl; [|rewrite IH]; reflexivity. Qed.

Lemma watermarkWrites_map (l : list Worker.BlogPost.t) :
  watermarkWrites (map Worker.ProcessPost l) = [].
Proof. induction l as [|p l IH]; simpl; [|rewrite IH]; reflexivity. Qed.

(** A run that starts from a valid watermark [lp]: it attempts the first
    five recent posts and, if there is one, writes their latest date. *)
Lemma run_from_valid (lp : Z) (allPosts : list Worker.BlogPost.t) :
  let attempted := firstn 5 (filter (newerThan lp) allPosts) in
  Worker.run (Returns (Some lp : Date)) allPosts
  = map Worker.ProcessPost attempted
    ++ match attempted with
       | [] => []
       | _ :: _ =>
           [Worker.UpdateLastProcessedDate
              (fold_left laterDate attempted (Some lp))]
       end
  /\ (attempted <> [] ->
      exists d, fold_left laterDate attempted (Some lp) = Some d /\ (lp < d)%Z).
Proof.
  intros attempted. unfold Worker.run.
  rewrite getRecentPosts_Some.
  assert (Hgt : attempted <> [] ->
            exists d, fold_left laterDate attempted (Some lp) = Some d
                      /\ (lp < d)%Z).
  { intros Hne.
    destruct (fold_laterDate_max attempted lp) as [d [Hf [Hle [Hall _]]]].
    exists d. split; [exact Hf|].
    destruct attempted as [|p l] eqn:Ea; [congruence|].
    assert (Hin : In p (filter (newerThan lp) allPosts)).
    { apply (@In_firstn _ 5). fold attempted. rewrite Ea. left. reflexivity. }
    apply filter_In in Hin. destruct Hin as [_ Hn].
    unfold newerThan in Hn. apply Date_gt_Some in Hn.
    destruct Hn as [t [Et Hlt]].
    pose proof (Hall p t (or_introl eq_refl) Et). lia. }
  split; [|exact Hgt].
  destruct (filter (newerThan lp) allPosts) as [|p l] eqn:Er.
  - reflexivity.
  - cbn [List.length Nat.eqb]. cbv iota.
    rewrite processLoop_firstn by lia.
    change (5 - 0)%nat with 5%nat. fold attempted.
    assert (Hne : attempted <> []) by (subst attempted; simpl; discriminate).
    destruct (Hgt Hne) as [d [Hf Hlt]]. rewrite Hf.
    simpl Date_gt. apply Z.ltb_lt in Hlt. rewrite Hlt.
    destruct attempted; [congruence | reflexivity].
Qed.

End RunFacts.

(** C6.  In every run the effects are the processed posts followed by the
    writes of the watermark; at most five posts are attempted and the
    watermark is written at most once.  A written value is a valid date,
    strictly after the valid date loaded at the start; the attempted posts
    are the first five of the posts newer than the loaded date, every one
    of them is dated at or before the written value, and one of them is
    dated exactly at it: the written value is the maximum over the
    attempted posts, whatever the posts after the fifth are. *)
Theorem C6_watermark_written_once {rt : JsRuntime}
    (getLastProcessedDate : Outcome Date) (allPosts : list Worker.BlogPost.t) :
  let effects := Worker.run getLastProcessedDate allPosts in
  let attempted := attemptedPosts effects in
  let writes := watermarkWrites effects in
  effects
  = map Worker.ProcessPost attempted
    ++ map Worker.UpdateLastProcessedDate writes
  /\ (List.length attempted <= 5)%nat
  /\ (List.length writes <= 1)%nat
  /\ (forall written, In written writes ->
        exists lp d,
          getLastProcessedDate = Returns (Some lp)
          /\ written = Some d
          /\ (lp < d)%Z
          /\ attempted = firstn 5 (filter (newerThan lp) allPosts)
          /\ (forall p, In p attempted ->
                exists t, Worker.postDate p = Some t /\ (lp < t <= d)%Z)
          /\ (exists p, In p attempted /\ Worker.postDate p = Some d)).
Proof.
  destruct getLastProcessedDate as [[lp|]|];
    try (cbn; repeat split; try lia; intros w []).
  intros effects attempted writes.
  destruct (run_from_valid lp allPosts) as [Hrun Hgt].
  remember (firstn 5 (filter (newerThan lp) allPosts)) as att eqn:Hdef.
  assert (Hatt : attempted = att).
  { subst attempted effects. rewrite Hrun, attemptedPosts_app, attemptedPosts_map.
    destruct att; simpl; rewrite ?app_nil_r; reflexivity. }
  assert (Hw : writes = match att with
                        | [] => []
                        | _ :: _ => [fold_left laterDate att (Some lp)]
                        end).
  { subst writes effects. rewrite Hrun, watermarkWrites_app, watermarkWrites_map.
    destruct att; reflexivity. }
  split; [|split; [|split]].
  - rewrite Hatt, Hw. subst effects. rewrite Hrun. destruct att; reflexivity.
  - rewrite Hatt, Hdef. apply firstn_le_length.
  - rewrite Hw. destruct att; simpl; lia.
  - intros written Hin. rewrite Hw in Hin.
    destruct att as [|p0 l0]; [destruct Hin|].
    destruct Hin as [<- | []].
    destruct (Hgt ltac:(discriminate)) as [d [Hf Hlt]].
    destruct (fold_laterDate_max (p0 :: l0) lp) as [d' [Hf' [_ [Hall Hex]]]].
    rewrite Hf in Hf'. injection Hf' as <-.
    exists lp, d. split; [reflexivity|]. split; [exact Hf|].
    split; [exact Hlt|]. split; [rewrite Hatt; exact Hdef|]. split.
    + intros p Hp. rewrite Hatt in Hp.
      assert (Hr : In p (filter (newerThan lp) allPosts)).
      { apply (@In_firstn _ 5). rewrite <- Hdef. exact Hp. }
      apply filter_In in Hr. destruct Hr as [_ Hn].
      unfold newerThan in Hn. apply Date_gt_Some in Hn.
      destruct Hn as [t [Et Ht]]. exists t. split; [exact Et|].
      split; [exact Ht | exact (Hall p t Hp Et)].
    + destruct Hex as [-> | [p [Hp Hd]]]; [lia|].
      exists p. split; [rewrite Hatt; exact Hp | exact Hd].
Qed.

(** With six posts newer than the loaded date, the sixth being the newest,
    the run attempts the first five and writes the latest date among them,
    2025-08-05, not the date of the sixth. *)
Example run_six_posts :
  Worker.run (rt := asciiRuntime) (Returns (Some august1 : Date)) sixPosts
  = map Worker.ProcessPost (firstn 5 sixPosts)
    ++ [Worker.UpdateLastProcessedDate (IsoDate.parse (js "2025-08-05"))]
  /\ Worker.getRecentPosts (rt := asciiRuntime) (Some august1) sixPosts
     = Returns sixPosts.
Proof. split; vm_compute; reflexivity. Qed.

(** Without a valid loaded date nothing is attempted or written. *)
Lemma run_without_watermark {rt : JsRuntime} (allPosts : list Worker.BlogPost.t) :
  Worker.run Throws allPosts = []
  /\ Worker.run (Returns (None : Date)) allPosts = [].
Proof. split; reflexivity. Qed.

Lemma C6_watermark_written_once_witness :
  exists lp d,
    Returns (Some august1 : Date) = Returns (Some lp)
    /\ IsoDate.parse (js "2025-08-05") = Some d
    /\ (lp < d)%Z
    /\ attemptedPosts
         (Worker.run (rt := asciiRuntime) (Returns (Some august1 : Date)) sixPosts)
       = firstn 5 (filter (newerThan (rt := asciiRuntime) lp) sixPosts)
    /\ (forall p,
          In p (attemptedPosts
                  (Worker.run (rt := asciiRuntime)
                              (Returns (Some august1 : Date)) sixPosts)) ->
          exists t, Worker.postDate (rt := asciiRuntime) p = Some t
                    /\ (lp < t <= d)%Z)
    /\ (exists p,
          In p (attemptedPosts
                  (Worker.run (rt := asciiRuntime)
                              (Returns (Some august1 : Date)) sixPosts))
          /\ Worker.postDate (rt := asciiRuntime) p = Some d).
Proof.
  assert (H : In (IsoDate.parse (js "2025-08-05"))
                 (watermarkWrites
                    (Worker.run (rt := asciiRuntime)
                                (Returns (Some august1 : Date)) sixPosts))).
  { vm_compute. left. reflexivity. }
  exact (proj2 (proj2 (proj2
           (C6_watermark_written_once (rt := asciiRuntime)
              (Returns (Some august1 : Date)) sixPosts))) _ H).
Defined.

(* ================================================================== *)
(** * The dedup check *)
(* ================================================================== *)

Lemma scrape_with_failing_read (w : Legacy.World) (kv : Legacy.CloudflareKV.t)
    (blogUrl category : jsstring) :
  Legacy.kvNamespace w = Some kv ->
  Legacy.CloudflareKV.get kv
    (Legacy.scrapedKey (js "https://blog.peppercloud.com" ++ blogUrl)) = Throws ->
  Legacy.scrapePepperCloudBlog w blogUrl category
  = Legacy.scrapePepperCloudBlog (withKv w (neverSeen kv)) blogUrl category
  /\ In (Legacy.Fetch (js "https://blog.peppercloud.com" ++ blogUrl))
        (snd (Legacy.scrapePepperCloudBlog w blogUrl category)).
Proof.
  intros Hkv Hget.
  unfold Legacy.scrapePepperCloudBlog, Legacy.isUrlScraped, Legacy.kvGetEffect,
    Legacy.markUrlAsScraped.
  rewrite Hkv, Hget. cbn.
  destruct (Legacy.fetchPage w _) as [page|]; [|split; [reflexivity|]].
  - destruct (truthy (trim (Legacy.Page.titleText page))); cbn;
      [|split; [reflexivity | right; left; reflexivity]].
    destruct (Legacy.Page.content page);
      (split; [reflexivity | right; left; reflexivity]).
  - right. left. reflexivity.
Qed.

(** C9.  If the KV read of the dedup check throws, the check answers "not
    previously seen"; the post is then scraped exactly as if the read had
    found nothing, and its page is fetched. *)
Theorem C9_kv_failure_reads_as_new (kv : Legacy.CloudflareKV.t)
    (url : jsstring) :
  Legacy.CloudflareKV.get kv (Legacy.scrapedKey url) = Throws ->
  Legacy.isUrlScraped (Some kv) url = false
  /\ forall (w : Legacy.World) (blogUrl category : jsstring),
       Legacy.kvNamespace w = Some kv ->
       url = js "https://blog.peppercloud.com" ++ blogUrl ->
       Legacy.scrapePepperCloudBlog w blogUrl category
       = Legacy.scrapePepperCloudBlog (withKv w (neverSeen kv)) blogUrl category
       /\ In (Legacy.Fetch url)
             (snd (Legacy.scrapePepperCloudBlog w blogUrl category)).
Proof.
  intros Hget. split.
  - unfold Legacy.isUrlScraped. rewrite Hget. reflexivity.
  - intros w blogUrl category Hkv ->.
    apply scrape_with_failing_read; assumption.
Qed.

Lemma C9_kv_failure_reads_as_new_witness :
  Legacy.isUrlScraped (Some failingKV) helloUrl = false
  /\ fst (Legacy.scrapePepperCloudBlog failingWorld (js "/hello/") (js "crm"))
     = Some helloLegacyBlog.
Proof.
  assert (H : Legacy.CloudflareKV.get failingKV (Legacy.scrapedKey helloUrl)
              = Throws) by reflexivity.
  split.
  - exact (proj1 (C9_kv_failure_reads_as_new failingKV helloUrl H)).
  - vm_compute. reflexivity.
Defined.

(* ================================================================== *)
(** * File names *)
(* ================================================================== *)

(** Membership in the character classes, as arithmetic on code units. *)
Ltac class_arith :=
  unfold Legacy.isCleanChar, Worker.isFilenameChar, isPlain, isWordChar,
    isWhiteSpace, isAsciiUpper, isAsciiLower, isDigit, isHyphen, isLetterS,
    hyphen, backslash in *;
  repeat rewrite ?orb_true_iff, ?andb_true_iff, ?orb_false_iff,
    ?andb_false_iff, ?N.leb_le, ?N.leb_gt, ?N.eqb_eq, ?N.eqb_neq in *;
  lia.

Lemma isCleanChar_plain (c : N) : Legacy.isCleanChar c = true -> isPlain c.
Proof. intros H. class_arith. Qed.

Lemma isFilenameChar_plain (c : N) :
  Worker.isFilenameChar c = true ->
  isAsciiUpper c = false -> isWhiteSpace c = false -> isPlain c.
Proof. intros H1 H2 H3. split; assumption. Qed.

Lemma hyphen_plain : isPlain hyphen.
Proof. split; reflexivity. Qed.

Section ForallPreserved.
Variable P : N -> Prop.

Lemma Forall_dropWhile p (s : jsstring) : Forall P s -> Forall P (dropWhile p s).
Proof.
  induction 1 as [|c r Hc Hr IH]; simpl; [constructor|].
  destruct (p c); [exact IH | constructor; assumption].
Qed.

Lemma Forall_trim (s : jsstring) : Forall P s -> Forall P (trim s).
Proof.
  intros H. unfold trim, trimEnd, trimStart.
  apply Forall_rev, Forall_dropWhile, Forall_rev, Forall_dropWhile, H.
Qed.

Lemma Forall_firstn' n (s : jsstring) : Forall P s -> Forall P (firstn n s).
Proof.
  rewrite !Forall_forall. intros H x Hx. apply H. exact (In_firstn _ _ _ Hx).
Qed.

Lemma Forall_replaceBackslashS (r : jsstring) (s : jsstring) :
  Forall P r -> Forall P s ->
  forall b, Forall P (replaceBackslashSAux r b s).
Proof.
  intros Hr. induction 1 as [|c t Hc Ht IH]; intros b; simpl; [constructor|].
  destruct (b && isLetterS c); [apply IH|].
  destruct (backslashS_starts c t).
  - apply Forall_app. split; [exact Hr | apply IH].
  - constructor; [exact Hc | apply IH].
Qed.

Lemma Forall_stripLeadingHyphen (s : jsstring) :
  Forall P s -> Forall P (stripLeadingHyphen s).
Proof.
  intros H. destruct H as [|c t Hc Ht]; simpl; [constructor|].
  destruct (isHyphen c); [exact Ht | constructor; assumption].
Qed.

Lemma Forall_stripEdgeHyphens (s : jsstring) :
  Forall P s -> Forall P (stripEdgeHyphens s).
Proof.
  intros H. unfold stripEdgeHyphens, stripTrailingHyphen.
  apply Forall_rev, Forall_stripLeadingHyphen, Forall_rev,
    Forall_stripLeadingHyphen, H.
Qed.

End ForallPreserved.

(** Replacing the runs of a class: the units kept are outside the class. *)
Lemma Forall_replaceRuns (P Q : N -> Prop) (inClass : N -> bool)
    (r : jsstring) (s : jsstring) :
  Forall Q r ->
  (forall c, P c -> inClass c = false -> Q c) ->
  Forall P s ->
  forall b, Forall Q (replaceRunsAux inClass r b s).
Proof.
  intros Hr Hpq. induction 1 as [|c t Hc Ht IH]; intros b; simpl; [constructor|].
  destruct (inClass c) eqn:E.
  - apply Forall_app. split; [destruct b; [constructor | exact Hr] | apply IH].
  - constructor; [exact (Hpq c Hc E) | apply IH].
Qed.

Lemma Forall_filter_both (P : N -> Prop) (f : N -> bool) (s : jsstring) :
  Forall P s -> Forall (fun c => f c = true /\ P c) (filter f s).
Proof.
  induction 1 as [|c t Hc Ht IH]; simpl; [constructor|].
  destruct (f c) eqn:E; [constructor; [split; assumption | exact IH] | exact IH].
Qed.

Lemma Forall_true (s : jsstring) : Forall (fun _ => True) s.
Proof. induction s; constructor; auto. Qed.

(** ** Hyphens *)

Lemma collapse_hyphens (s : jsstring) :
  forall b,
    hasDoubleHyphen (replaceRunsAux isHyphen [hyphen] b s) = false
    /\ (b = true ->
        startsWithHyphen (replaceRunsAux isHyphen [hyphen] b s) = false).
Proof.
  induction s as [|c t IH]; intros b; simpl; [split; reflexivity|].
  destruct (isHyphen c) eqn:E.
  - destruct (IH true) as [Hd Hs]. specialize (Hs eq_refl).
    destruct b; simpl.
    + split; [exact Hd | intros _; exact Hs].
    + rewrite Hs, Hd. split; [reflexivity | discriminate].
  - destruct (IH false) as [Hd _]. simpl. rewrite E, Hd.
    split; [reflexivity | intros _; reflexivity].
Qed.

Lemma hasDoubleHyphen_cons c (t : jsstring) :
  hasDoubleHyphen (c :: t)
  = (isHyphen c && startsWithHyphen t) || hasDoubleHyphen t.
Proof. reflexivity. Qed.

Lemma hasDoubleHyphen_tail c (t : jsstring) :
  hasDoubleHyphen (c :: t) = false -> hasDoubleHyphen t = false.
Proof. simpl. intros H. apply orb_false_iff in H. exact (proj2 H). Qed.

Lemma startsWithHyphen_firstn n (s : jsstring) :
  startsWithHyphen (firstn n s) = true -> startsWithHyphen s = true.
Proof. destruct n, s; simpl; congruence. Qed.

Lemma hasDoubleHyphen_firstn n (s : jsstring) :
  hasDoubleHyphen s = false -> hasDoubleHyphen (firstn n s) = false.
Proof.
  revert s. induction n as [|n IH]; intros [|c t]; simpl; try reflexivity.
  intros H. apply orb_false_iff in H. destruct H as [H1 H2].
  rewrite (IH t H2), orb_false_r.
  destruct (isHyphen c); [|reflexivity]. simpl in *.
  destruct (startsWithHyphen (firstn n t)) eqn:E; [|reflexivity].
  rewrite (startsWithHyphen_firstn _ _ E) in H1. discriminate.
Qed.

Lemma startsWithHyphen_removelast (s : jsstring) :
  startsWithHyphen (removelast s) = true -> startsWithHyphen s = true.
Proof. destruct s as [|c [|c' t]]; simpl; congruence. Qed.

Lemma hasDoubleHyphen_removelast (s : jsstring) :
  hasDoubleHyphen s = false -> hasDoubleHyphen (removelast s) = false.
Proof.
  induction s as [|c t IH]; [reflexivity|].
  intros H. simpl in H. apply orb_false_iff in H. destruct H as [H1 H2].
  destruct t as [|c' t']; [reflexivity|].
  change (removelast (c :: c' :: t')) with (c :: removelast (c' :: t')).
  rewrite hasDoubleHyphen_cons, (IH H2), orb_false_r.
  destruct (isHyphen c); [|reflexivity]. cbn [andb] in *.
  destruct (startsWithHyphen (removelast (c' :: t'))) eqn:E; [|reflexivity].
  rewrite (startsWithHyphen_removelast _ E) in H1. discriminate.
Qed.

Lemma endsWithHyphen_snoc (a : jsstring) (c : N) :
  endsWithHyphen (a ++ [c]) = isHyphen c.
Proof.
  induction a as [|x a IH]; [reflexivity|].
  simpl. destruct (a ++ [c]) eqn:E; [|exact IH].
  destruct a; discriminate.
Qed.

(** The trailing hyphen is dropped, when there is one. *)
Lemma stripTrailingHyphen_removelast (s : jsstring) :
  stripTrailingHyphen s = if endsWithHyphen s then removelast s else s.
Proof.
  unfold stripTrailingHyphen.
  destruct (rev s) as [|c t] eqn:E.
  - apply (f_equal (@rev N)) in E. rewrite rev_involutive in E. subst s.
    reflexivity.
  - assert (Hs : s = rev t ++ [c]).
    { rewrite <- (rev_involutive s), E. reflexivity. }
    rewrite Hs, endsWithHyphen_snoc, removelast_last. simpl.
    destruct (isHyphen c); reflexivity.
Qed.

Lemma endsWithHyphen_double (a : jsstring) (c : N) :
  isHyphen c = true ->
  hasDoubleHyphen (a ++ [c]) = false -> endsWithHyphen a = false.
Proof.
  intros Hc. induction a as [|x a IH]; [reflexivity|].
  simpl app. simpl hasDoubleHyphen. intros H.
  apply orb_false_iff in H. destruct H as [H1 H2].
  destruct a as [|y a'].
  - simpl in *. rewrite Hc, andb_true_r in H1. exact H1.
  - exact (IH H2).
Qed.

Lemma stripTrailingHyphen_ends (s : jsstring) :
  hasDoubleHyphen s = false -> endsWithHyphen (stripTrailingHyphen s) = false.
Proof.
  intros H. rewrite stripTrailingHyphen_removelast.
  destruct (endsWithHyphen s) eqn:E; [|exact E].
  destruct (exists_last (l := s)) as [a [c Hs]].
  { intros ->. discriminate. }
  subst s. rewrite endsWithHyphen_snoc in E. rewrite removelast_last.
  exact (endsWithHyphen_double a c E H).
Qed.

Lemma stripLeadingHyphen_starts (s : jsstring) :
  hasDoubleHyphen s = false -> startsWithHyphen (stripLeadingHyphen s) = false.
Proof.
  destruct s as [|c t]; [reflexivity|]. simpl.
  destruct (isHyphen c) eqn:E; simpl; [|intros _; exact E].
  intros H. apply orb_false_iff in H. exact (proj1 H).
Qed.

Lemma stripLeadingHyphen_double (s : jsstring) :
  hasDoubleHyphen s = false -> hasDoubleHyphen (stripLeadingHyphen s) = false.
Proof.
  destruct s as [|c t]; [reflexivity|]. intros H. simpl.
  destruct (isHyphen c); [exact (hasDoubleHyphen_tail _ _ H) | exact H].
Qed.

(** After the edge hyphens are stripped from a string without double
    hyphens, no hyphen is left at either end. *)
Lemma stripEdgeHyphens_shape (s : jsstring) :
  hasDoubleHyphen s = false ->
  hasDoubleHyphen (stripEdgeHyphens s) = false
  /\ startsWithHyphen (stripEdgeHyphens s) = false
  /\ endsWithHyphen (stripEdgeHyphens s) = false.
Proof.
  intros H. unfold stripEdgeHyphens.
  pose proof (stripLeadingHyphen_double s H) as Hd.
  pose proof (stripLeadingHyphen_starts s H) as Hs.
  split; [|split].
  - rewrite stripTrailingHyphen_removelast.
    destruct (endsWithHyphen _); [apply hasDoubleHyphen_removelast|]; exact Hd.
  - rewrite stripTrailingHyphen_removelast.
    destruct (endsWithHyphen _); [|exact Hs].
    destruct (startsWithHyphen (removelast _)) eqn:E; [|reflexivity].
    rewrite (startsWithHyphen_removelast _ E) in Hs. discriminate.
  - apply stripTrailingHyphen_ends, Hd.
Qed.

(** ** The two cleaning functions *)

(** X29.  The legacy name is at most 100 code units long and holds neither
    white space nor upper-case letters, whatever the run time. *)
Lemma legacy_cleanFilename_plain {rt : JsRuntime} (title : jsstring) :
  (List.length (Legacy.cleanFilename title) <= 100)%nat
  /\ Forall isPlain (Legacy.cleanFilename title).
Proof.
  unfold Legacy.cleanFilename, substring0. split; [apply firstn_le_length|].
  apply Forall_firstn'.
  apply (@Forall_replaceRuns isPlain isPlain);
    [repeat constructor; apply hyphen_plain | intros c H _; exact H |].
  apply Forall_replaceBackslashS; [repeat constructor; apply hyphen_plain|].
  apply Forall_trim. unfold keepOnly.
  eapply Forall_impl; [|apply Forall_filter_both, Forall_true].
  intros c [H _]. apply isCleanChar_plain, H.
Qed.

(** What the worker name is before it is cut at 100 code units. *)
Lemma worker_uncut_shape {rt : JsRuntime} (title : jsstring) :
  lowersAscii rt ->
  let uncut :=
    stripEdgeHyphens
      (replaceRuns isHyphen [hyphen]
         (replaceRuns isWhiteSpace [hyphen]
            (keepOnly Worker.isFilenameChar (toLowerCase title)))) in
  Forall isPlain uncut
  /\ hasDoubleHyphen uncut = false
  /\ startsWithHyphen uncut = false
  /\ endsWithHyphen uncut = false.
Proof.
  intros Hlow uncut. split.
  - apply Forall_stripEdgeHyphens.
    apply (@Forall_replaceRuns isPlain isPlain);
      [repeat constructor; apply hyphen_plain | intros c H _; exact H |].
    apply (@Forall_replaceRuns (fun c => isAsciiUpper c = false) isPlain);
      [repeat constructor; apply hyphen_plain
      | intros c Hu Hw; split; assumption |].
    unfold keepOnly.
    eapply Forall_impl; [|apply Forall_filter_both, (Hlow title)].
    intros c [_ H]. exact H.
  - apply stripEdgeHyphens_shape.
    exact (proj1 (collapse_hyphens _ false)).
Qed.

(** X28.  The worker name, for a run time that lowers the ASCII letters: at most
    100 code units, no white space, no upper-case letter, no hyphen at the
    start, no two hyphens in a row; and no hyphen at the end when the
    name was not cut. *)
Lemma worker_generateCleanFilename_shape {rt : JsRuntime} (title : jsstring) :
  lowersAscii rt ->
  let name := Worker.generateCleanFilename title in
  (List.length name <= 100)%nat
  /\ Forall isPlain name
  /\ hasDoubleHyphen name = false
  /\ startsWithHyphen name = false
  /\ ((List.length
         (stripEdgeHyphens
            (replaceRuns isHyphen [hyphen]
               (replaceRuns isWhiteSpace [hyphen]
                  (keepOnly Worker.isFilenameChar (toLowerCase title)))))
       <= 100)%nat ->
      endsWithHyphen name = false).
Proof.
  intros Hlow name. subst name. unfold Worker.generateCleanFilename, substring0.
  destruct (worker_uncut_shape title Hlow) as [Hp [Hd [Hs He]]].
  split; [apply firstn_le_length|].
  split; [apply Forall_firstn', Hp|].
  split; [apply hasDoubleHyphen_firstn, Hd|].
  split.
  - destruct (startsWithHyphen (firstn 100 _)) eqn:E; [|reflexivity].
    rewrite (startsWithHyphen_firstn _ _ E) in Hs. discriminate.
  - intros Hlen. rewrite firstn_all2 by exact Hlen. exact He.
Qed.

Lemma asciiRuntime_lowersAscii : lowersAscii asciiRuntime.
Proof.
  intros s. simpl. unfold toLowerCaseAscii.
  induction s as [|c t IH]; simpl; constructor; [|exact IH].
  unfold lowerAsciiUnit. destruct (isAsciiUpper c) eqn:E; [|exact E].
  class_arith.
Qed.

(** C10.  For the title made of 99 letters [a] followed by [-b], the
    worker name is the 99 letters followed by a hyphen: the cut at 100
    code units comes after the hyphens at the ends were stripped, and
    leaves a name that ends with a hyphen. *)
Theorem C10_worker_name_ends_with_hyphen :
  lowersAscii asciiRuntime
  /\ Worker.generateCleanFilename (rt := asciiRuntime) longTitle
     = repeat 97 99 ++ [hyphen]
  /\ endsWithHyphen (Worker.generateCleanFilename (rt := asciiRuntime) longTitle)
     = true
  /\ List.length (Worker.generateCleanFilename (rt := asciiRuntime) longTitle)
     = 100%nat
  /\ Legacy.cleanFilename (rt := asciiRuntime) longTitle
     = repeat 97 99 ++ [hyphen].
Proof.
  split; [exact asciiRuntime_lowersAscii|].
  repeat split; vm_compute; reflexivity.
Qed.

(* ================================================================== *)
(** * More on section extraction *)
(* ================================================================== *)

Lemma fold_left_invariant (I : walk -> Prop) (step : walk -> node -> walk)
    (es : list node) :
  (forall e, In e es -> forall st, I st -> I (step st e)) ->
  forall st, I st -> I (fold_left step es st).
Proof.
  induction es as [|e es IH]; simpl; intros Hstep st H; [exact H|].
  apply IH.
  - intros e' He'. apply Hstep. right. exact He'.
  - apply Hstep; [left; reflexivity | exact H].
Qed.

(** A node found by a selector is an element whose name the selector
    lists. *)
Lemma find_tagName (sel : list jsstring) (root e : node) :
  In e (find sel root) -> In (Dom.tagName e) sel.
Proof.
  unfold find. rewrite filter_In. intros [_ H].
  destruct e as [d|nm cs]; simpl in *; [discriminate|].
  apply existsb_exists in H. destruct H as [x [Hx E]].
  apply eqb_true_iff in E. subst x. exact Hx.
Qed.

(** Case analysis on the nine names of the selector. *)
Ltac selector_cases H :=
  simpl in H;
  destruct H as [H|[H|[H|[H|[H|[H|[H|[H|[H|[]]]]]]]]]]; rewrite <- H.

Lemma steps_agree (st : walk) (e : node) :
  In (Dom.tagName e) contentSelector ->
  negb (truthy (trim (Dom.text e)))
  || negb (isListTag (Dom.tagName e))
  || (0 <? List.length (collectListItems e))%nat = true ->
  Legacy.extractStep st e = Worker.parseStep st e.
Proof.
  intros Hsel Hl. unfold Legacy.extractStep, Worker.parseStep, isListTag in *.
  destruct st as [secs cur].
  destruct (truthy (trim (Dom.text e))) eqn:Ht; [|reflexivity].
  simpl negb in *. cbv iota. rewrite orb_false_l in Hl.
  revert Hl. selector_cases Hsel; intros Hl; try reflexivity;
    simpl in Hl; rewrite Hl; reflexivity.
Qed.

(** X1.  The two walks return the same sections on every content root in
    which each visited list that has text also has an item that is not
    empty after trimming. *)
Theorem walks_agree_without_empty_lists (root : node) :
  listsHaveItems root = true ->
  Legacy.extractSections root = Worker.parseContent root.
Proof.
  intros H. unfold listsHaveItems in H. rewrite forallb_forall in H.
  unfold Legacy.extractSections, Worker.parseContent.
  rewrite (@fold_left_agree Legacy.extractStep Worker.parseStep); [reflexivity|].
  apply Forall_forall. intros e He st.
  apply steps_agree; [exact (find_tagName _ _ _ He) | exact (H e He)].
Qed.

Lemma walks_agree_without_empty_lists_witness :
  Legacy.extractSections scenarioRoot = Worker.parseContent scenarioRoot.
Proof.
  apply walks_agree_without_empty_lists. vm_compute. reflexivity.
Defined.

(** ** Section types *)

Lemma typesInv_flush (secs : list ContentSection.t) (cur : ContentSection.t) :
  typesInv (secs, cur) ->
  Forall (fun s => In (ContentSection.type s) sectionTypes) (flush secs cur)
  /\ Forall (fun s => isIntro s = false) (tl (flush secs cur)).
Proof.
  intros [Hs [Hc [Ht Hn]]]. simpl in *. unfold flush.
  destruct (0 <? List.length (ContentSection.content cur))%nat; [|split; assumption].
  split.
  - apply Forall_app. split; [exact Hs | constructor; [exact Hc | constructor]].
  - destruct secs as [|s0 secs']; simpl; [constructor|].
    apply Forall_app. split; [exact Ht|].
    constructor; [apply Hn; discriminate | constructor].
Qed.

Lemma typesInv_heading (secs : list ContentSection.t)
    (cur : ContentSection.t) (type text : jsstring) :
  typesInv (secs, cur) ->
  In type (tl sectionTypes) ->
  typesInv (flush secs cur, ContentSection.mk type (Some text) []).
Proof.
  intros H Hty. destruct (typesInv_flush H) as [Hf Ht].
  assert (Hni : JS.eqb type (js "intro") = false).
  { apply eqb_false_iff. intros ->. simpl in Hty.
    repeat (destruct Hty as [Hty|Hty]; [discriminate Hty|]). exact Hty. }
  split; [exact Hf|]. split; [right; exact Hty|].
  split; [exact Ht|]. intros _. exact Hni.
Qed.

Lemma legacy_step_types (st : walk) (e : node) :
  In (Dom.tagName e) contentSelector ->
  typesInv st -> typesInv (Legacy.extractStep st e).
Proof.
  intros Hsel H. destruct st as [secs cur]. unfold Legacy.extractStep.
  destruct (truthy (trim (Dom.text e))); [|exact H].
  simpl negb. cbv iota.
  selector_cases Hsel;
    try (apply typesInv_heading; [exact H | simpl; tauto]);
    try exact H.
  - cbn -[collectListItems].
    destruct (List.length (collectListItems e)); exact H.
  - cbn -[collectListItems].
    destruct (List.length (collectListItems e)); exact H.
Qed.

Lemma worker_step_types (st : walk) (e : node) :
  In (Dom.tagName e) contentSelector ->
  typesInv st -> typesInv (Worker.parseStep st e).
Proof.
  intros Hsel H. destruct st as [secs cur]. unfold Worker.parseStep.
  destruct (truthy (trim (Dom.text e))); [|exact H].
  simpl negb. cbv iota.
  selector_cases Hsel;
    try (apply typesInv_heading; [exact H | simpl; tauto]);
    try exact H.
Qed.

Lemma typesInv_init : typesInv walk_init.
Proof.
  split; [constructor|]. split; [left; reflexivity|].
  split; [constructor|]. intros H. exfalso. apply H. reflexivity.
Qed.

(** X2.  Every section returned by either walk has one of the seven types
    [intro], [section_h1], ..., [section_h6], and only the first section
    of the result can be the Intro. *)
Theorem section_types_and_order (root : node) :
  Forall (fun s => In (ContentSection.type s) sectionTypes)
         (Legacy.extractSections root)
  /\ Forall (fun s => isIntro s = false) (tl (Legacy.extractSections root))
  /\ Forall (fun s => In (ContentSection.type s) sectionTypes)
            (Worker.parseContent root)
  /\ Forall (fun s => isIntro s = false) (tl (Worker.parseContent root)).
Proof.
  assert (Hl : typesInv (fold_left Legacy.extractStep
                           (find contentSelector root) walk_init)).
  { apply fold_left_invariant; [|exact typesInv_init].
    intros e He st. apply legacy_step_types, (find_tagName _ _ _ He). }
  assert (Hw : typesInv (fold_left Worker.parseStep
                           (find contentSelector root) walk_init)).
  { apply fold_left_invariant; [|exact typesInv_init].
    intros e He st. apply worker_step_types, (find_tagName _ _ _ He). }
  unfold Legacy.extractSections, Worker.parseContent.
  destruct (fold_left Legacy.extractStep _ _) as [ls lc].
  destruct (fold_left Worker.parseStep _ _) as [ws wc].
  destruct (typesInv_flush Hl) as [H1 H2].
  destruct (typesInv_flush Hw) as [H3 H4].
  repeat split; assumption.
Qed.

(** ** Content items *)

Lemma collectListItems_trimmed (e : node) :
  Forall isTrimmedText (collectListItems e).
Proof.
  unfold collectListItems. apply Forall_forall. intros t Ht.
  apply filter_In in Ht. destruct Ht as [Hin Htr].
  apply in_map_iff in Hin. destruct Hin as [li [<- _]].
  split; [exact Htr | apply trim_idem].
Qed.

Lemma legacy_step_items st e :
  walkInv (fun s => Forall wellFormedItem (ContentSection.content s)) st ->
  walkInv (fun s => Forall wellFormedItem (ContentSection.content s))
          (Legacy.extractStep st e).
Proof.
  destruct st as [secs cur]. intros H. unfold Legacy.extractStep.
  destruct (truthy (trim (Dom.text e))) eqn:Ht; simpl negb; cbv iota; [|exact H].
  destruct (startsWith _ (js "h")).
  - split; [apply flush_walkInv, H | constructor].
  - destruct H as [Hs Hc]. simpl in Hs, Hc.
    destruct (JS.eqb _ (js "ul") || JS.eqb _ (js "ol")).
    + destruct (0 <? List.length (collectListItems e))%nat;
        [|split; assumption].
      split; [exact Hs|]. simpl. apply Forall_app. split; [exact Hc|].
      constructor; [|constructor]. right.
      exists (collectListItems e). split; [reflexivity|].
      apply collectListItems_trimmed.
    + split; [exact Hs|]. simpl. apply Forall_app. split; [exact Hc|].
      constructor; [|constructor]. left.
      exists (trim (Dom.text e)). split; [reflexivity|].
      split; [exact Ht | apply trim_idem].
Qed.

Lemma worker_step_items st e :
  walkInv (fun s => Forall wellFormedItem (ContentSection.content s)) st ->
  walkInv (fun s => Forall wellFormedItem (ContentSection.content s))
          (Worker.parseStep st e).
Proof.
  destruct st as [secs cur]. intros H. unfold Worker.parseStep.
  destruct (truthy (trim (Dom.text e))) eqn:Ht; simpl negb; cbv iota; [|exact H].
  destruct (startsWith _ (js "h")).
  - split; [apply flush_walkInv, H | constructor].
  - destruct H as [Hs Hc]. simpl in Hs, Hc.
    destruct (JS.eqb _ (js "ul") || JS.eqb _ (js "ol")).
    + split; [exact Hs|]. simpl. apply Forall_app. split; [exact Hc|].
      constructor; [|constructor]. right.
      exists (collectListItems e). split; [reflexivity|].
      apply collectListItems_trimmed.
    + split; [exact Hs|]. simpl. apply Forall_app. split; [exact Hc|].
      constructor; [|constructor]. left.
      exists (trim (Dom.text e)). split; [reflexivity|].
      split; [exact Ht | apply trim_idem].
Qed.

(** X3.  Every content item of every section returned by either walk is a
    paragraph whose text is not empty and already trimmed, or a list whose
    items are all not empty and already trimmed; no item has both a text
    and items. *)
Theorem content_items_well_formed (root : node) (s : ContentSection.t)
    (c : ScrapedContent.t) :
  In s (Legacy.extractSections root) \/ In s (Worker.parseContent root) ->
  In c (ContentSection.content s) ->
  wellFormedItem c.
Proof.
  intros Hs Hc.
  assert (H : Forall wellFormedItem (ContentSection.content s)).
  { destruct Hs as [Hs | Hs].
    - unfold Legacy.extractSections in Hs.
      pose proof (@fold_walkInv _ Legacy.extractStep legacy_step_items
                    (find contentSelector root) walk_init) as H.
      destruct (fold_left Legacy.extractStep _ walk_init) as [secs cur].
      assert (Hi : walkInv (fun s => Forall wellFormedItem (ContentSection.content s))
                           walk_init) by (split; constructor).
      pose proof (flush_walkInv (H Hi)) as Hf.
      rewrite Forall_forall in Hf. exact (proj1 (Hf s Hs)).
    - unfold Worker.parseContent in Hs.
      pose proof (@fold_walkInv _ Worker.parseStep worker_step_items
                    (find contentSelector root) walk_init) as H.
      destruct (fold_left Worker.parseStep _ walk_init) as [secs cur].
      assert (Hi : walkInv (fun s => Forall wellFormedItem (ContentSection.content s))
                           walk_init) by (split; constructor).
      pose proof (flush_walkInv (H Hi)) as Hf.
      rewrite Forall_forall in Hf. exact (proj1 (Hf s Hs)). }
  rewrite Forall_forall in H. exact (H c Hc).
Qed.

Lemma content_items_well_formed_witness :
  wellFormedItem (ListOf [js "A"; js "B"]).
Proof.
  apply (@content_items_well_formed scenarioRoot
           (Heading 2 (js "Next") [ListOf [js "A"; js "B"]])).
  - left. vm_compute. right. left. reflexivity.
  - left. reflexivity.
Defined.

(** ** Number of sections *)

Lemma flush_length (secs : list ContentSection.t) (cur : ContentSection.t) :
  (List.length (flush secs cur) <= S (List.length secs))%nat.
Proof.
  unfold flush. destruct (0 <? _)%nat; [rewrite length_app; simpl|]; lia.
Qed.

Ltac split_ifs :=
  repeat match goal with
         | |- context [if ?c then _ else _] => destruct c
         end.

Lemma legacy_fold_length (es : list node) :
  forall st,
    (List.length (fst (fold_left Legacy.extractStep es st))
     <= List.length (fst st) + List.length (filter opensSection es))%nat.
Proof.
  induction es as [|e es IH]; intros [secs cur]; [simpl; lia|].
  cbn [fold_left filter]. etransitivity; [apply IH|].
  pose proof (flush_length secs cur) as Hf.
  unfold Legacy.extractStep, opensSection.
  destruct (truthy (trim (Dom.text e)));
    destruct (startsWith (toLowerCaseAscii (Dom.tagName e)) (js "h"));
    cbn [negb andb]; split_ifs; cbn [fst List.length]; lia.
Qed.

Lemma worker_fold_length (es : list node) :
  forall st,
    (List.length (fst (fold_left Worker.parseStep es st))
     <= List.length (fst st) + List.length (filter opensSection es))%nat.
Proof.
  induction es as [|e es IH]; intros [secs cur]; [simpl; lia|].
  cbn [fold_left filter]. etransitivity; [apply IH|].
  pose proof (flush_length secs cur) as Hf.
  unfold Worker.parseStep, opensSection.
  destruct (truthy (trim (Dom.text e)));
    destruct (startsWith (toLowerCaseAscii (Dom.tagName e)) (js "h"));
    cbn [negb andb]; split_ifs; cbn [fst List.length]; lia.
Qed.

(** X4.  Either walk returns at most one section more than the number of
    visited headings that have text. *)
Theorem section_count_bound (root : node) :
  (List.length (Legacy.extractSections root) <= S (countHeadings root))%nat
  /\ (List.length (Worker.parseContent root) <= S (countHeadings root))%nat.
Proof.
  unfold Legacy.extractSections, Worker.parseContent, countHeadings. split.
  - pose proof (legacy_fold_length (find contentSelector root) walk_init) as H.
    destruct (fold_left Legacy.extractStep _ _) as [secs cur]. simpl in H.
    pose proof (flush_length secs cur). lia.
  - pose proof (worker_fold_length (find contentSelector root) walk_init) as H.
    destruct (fold_left Worker.parseStep _ _) as [secs cur]. simpl in H.
    pose proof (flush_length secs cur). lia.
Qed.

(* ================================================================== *)
(** * More on the prompts *)
(* ================================================================== *)

Lemma truthy_app_l (a b : jsstring) : truthy a = true -> truthy (a ++ b) = true.
Proof. destruct a; [discriminate | reflexivity]. Qed.

Lemma legacy_paragraphLine_truthy (c : ScrapedContent.t) :
  Forall (fun p => truthy p = true) (Legacy.paragraphLine c).
Proof.
  unfold Legacy.paragraphLine.
  destruct (ScrapedContent.type c); [|constructor].
  destruct (ScrapedContent.text c) as [t|]; [|constructor].
  destruct (truthy t); repeat constructor.
Qed.

Lemma legacy_contentLines_truthy (c : ScrapedContent.t) :
  Forall (fun p => truthy p = true) (Legacy.contentLines c).
Proof.
  unfold Legacy.contentLines.
  destruct (ScrapedContent.type c); [apply legacy_paragraphLine_truthy|].
  destruct (ScrapedContent.items c) as [items|]; [|constructor].
  constructor; [reflexivity|].
  apply Forall_forall. intros p Hp. apply in_map_iff in Hp.
  destruct Hp as [item [<- _]]. reflexivity.
Qed.

Lemma Forall_flat_map (A B : Type) (P : B -> Prop) (f : A -> list B)
    (l : list A) :
  (forall x, In x l -> Forall P (f x)) -> Forall P (flat_map f l).
Proof.
  induction l as [|x l IH]; simpl; intros H; [constructor|].
  apply Forall_app. split; [apply H; left; reflexivity|].
  apply IH. intros y Hy. apply H. right. exact Hy.
Qed.

Lemma legacy_sectionLines_truthy (s : ContentSection.t) :
  Forall (fun p => truthy p = true) (Legacy.sectionLines s).
Proof.
  unfold Legacy.sectionLines. destruct (JS.eqb _ _).
  - constructor; [reflexivity|].
    apply Forall_flat_map. intros c _. apply legacy_paragraphLine_truthy.
  - apply Forall_app. split.
    + destruct (ContentSection.heading s) as [h|]; [|constructor].
      destruct (truthy h); repeat constructor.
    + apply Forall_flat_map. intros c _. apply legacy_contentLines_truthy.
Qed.

Lemma legacy_headerLines_eq (d : Legacy.PromptData.t) :
  Legacy.headerLines d
  = [js "Title: " ++ Legacy.PromptData.title d]
    ++ (match Legacy.PromptData.description d with
        | Some description =>
            if truthy description then [js "Description: " ++ description]
            else []
        | None => []
        end)
    ++ [js "Category: " ++ Legacy.PromptData.category d].
Proof.
  unfold Legacy.headerLines.
  destruct (Legacy.PromptData.description d) as [desc|];
    [destruct (truthy desc) eqn:E|]; reflexivity.
Qed.

Lemma join_cons_app (sep x : jsstring) (rest : list jsstring) :
  exists tail, join sep (x :: rest) = x ++ tail.
Proof.
  destruct rest as [|y rest'].
  - exists []. simpl. rewrite app_nil_r. reflexivity.
  - eexists. reflexivity.
Qed.

(** X5.  The pieces that the legacy formatter joins are the title piece, the
    description piece when the description is present and not empty, the
    category piece, and then the pieces of the sections; none of them is
    empty (the empty piece of the header is filtered out), and the prompt
    starts with [Title: ] and the title. *)
Theorem legacy_prompt_pieces (d : Legacy.PromptData.t) :
  Legacy.promptSections d
  = [js "Title: " ++ Legacy.PromptData.title d]
    ++ (match Legacy.PromptData.description d with
        | Some description =>
            if truthy description then [js "Description: " ++ description]
            else []
        | None => []
        end)
    ++ [js "Category: " ++ Legacy.PromptData.category d]
    ++ flat_map Legacy.sectionLines (Legacy.PromptData.sections d)
  /\ Forall (fun p => truthy p = true) (Legacy.promptSections d)
  /\ exists tail,
       Legacy.prepareForAI d
       = js "Title: " ++ Legacy.PromptData.title d ++ tail.
Proof.
  assert (E : Legacy.promptSections d
              = [js "Title: " ++ Legacy.PromptData.title d]
                ++ (match Legacy.PromptData.description d with
                    | Some description =>
                        if truthy description
                        then [js "Description: " ++ description]
                        else []
                    | None => []
                    end)
                ++ [js "Category: " ++ Legacy.PromptData.category d]
                ++ flat_map Legacy.sectionLines (Legacy.PromptData.sections d)).
  { rewrite legacy_promptSections_flat, legacy_headerLines_eq.
    rewrite <- !app_assoc. reflexivity. }
  split; [exact E|]. split.
  - rewrite legacy_promptSections_flat. apply Forall_app. split.
    + unfold Legacy.headerLines. apply Forall_forall. intros p Hp.
      apply filter_In in Hp. exact (proj2 Hp).
    + apply Forall_flat_map. intros s _. apply legacy_sectionLines_truthy.
  - unfold Legacy.prepareForAI. rewrite E. cbn [app].
    match goal with
    | |- context [join ?sep (?x :: ?r)] =>
        destruct (join_cons_app sep x r) as [tail Ht]
    end.
    exists tail. etransitivity; [exact Ht|]. symmetry. apply app_assoc.
Qed.

Lemma paragraphLine_printed (content : list ScrapedContent.t) :
  flat_map Legacy.paragraphLine (filter isPrintedParagraph content)
  = flat_map Legacy.paragraphLine content.
Proof.
  induction content as [|c content IH]; [reflexivity|]. simpl.
  unfold isPrintedParagraph at 1. unfold Legacy.paragraphLine at 2.
  destruct (ScrapedContent.type c) eqn:Ety;
    [destruct (ScrapedContent.text c) as [t|] eqn:Etx;
     [destruct (truthy t) eqn:Et|]|];
    simpl; try exact IH.
  unfold Legacy.paragraphLine at 1. rewrite Ety, Etx, Et, IH. reflexivity.
Qed.

(** X6.  In an Intro section the legacy formatter prints the paragraphs that
    have text and nothing else: lists, and paragraphs without text, leave
    no trace in the prompt. *)
Theorem legacy_intro_ignores_lists (d : Legacy.PromptData.t) :
  Legacy.prepareForAI d
  = Legacy.prepareForAI
      (Legacy.PromptData.mk
         (Legacy.PromptData.title d) (Legacy.PromptData.description d)
         (Legacy.PromptData.category d)
         (map (fun s => if isIntro s then printedIntro s else s)
              (Legacy.PromptData.sections d))
         (Legacy.PromptData.url d)).
Proof.
  unfold Legacy.prepareForAI. f_equal.
  rewrite !legacy_promptSections_flat. f_equal. simpl Legacy.PromptData.sections.
  induction (Legacy.PromptData.sections d) as [|s l IH]; [reflexivity|].
  simpl. rewrite <- IH. f_equal.
  destruct (isIntro s) eqn:E; [|reflexivity].
  unfold Legacy.sectionLines, printedIntro. unfold isIntro in E.
  simpl ContentSection.type. rewrite E. simpl ContentSection.content.
  rewrite paragraphLine_printed. reflexivity.
Qed.

Lemma worker_introLines_intro (s : ContentSection.t) :
  isIntro s = true -> Worker.introLines s = Legacy.sectionLines s.
Proof.
  unfold isIntro, Worker.introLines, Legacy.sectionLines. intros ->.
  reflexivity.
Qed.

(** X7.  The prompt of the worker is its header followed by what the legacy
    formatter prints for the Intro sections of the document; the sections
    of every other type contribute nothing. *)
Theorem worker_prompt_is_header_and_intros (blog : Worker.ScrapedBlog.t) :
  Worker.promptSections blog
  = Worker.promptHeader blog
    :: flat_map Legacy.sectionLines
         (filter isIntro (Worker.ScrapedBlog.sections blog)).
Proof.
  unfold Worker.promptSections. rewrite fold_left_app_flat_map. simpl. f_equal.
  induction (Worker.ScrapedBlog.sections blog) as [|s l IH]; [reflexivity|].
  simpl. destruct (isIntro s) eqn:E.
  - simpl. rewrite (worker_introLines_intro s E), IH. reflexivity.
  - rewrite (worker_introLines_heading s E). exact IH.
Qed.

(* ================================================================== *)
(** * More on the dedup store *)
(* ================================================================== *)

Lemma isUrlKeyChar_replaced (c : N) :
  Legacy.isUrlKeyChar (if Legacy.isUrlKeyChar c then c else 95) = true.
Proof. destruct (Legacy.isUrlKeyChar c) eqn:E; [exact E | reflexivity]. Qed.

Lemma replaceOutside_fixed (inClass : N -> bool) (r : N) (s : jsstring) :
  Forall (fun c => inClass c = true) s -> replaceOutside inClass r s = s.
Proof.
  unfold replaceOutside. induction 1 as [|c t Hc _ IH]; simpl; [reflexivity|].
  rewrite Hc, IH. reflexivity.
Qed.

(** X8.  The key of a URL has the length of the URL, capped at 512 code
    units; it only holds letters, digits, hyphens and underscores; and
    making the key of a key changes nothing. *)
Theorem createUrlKey_shape (url : jsstring) :
  List.length (Legacy.createUrlKey url) = Nat.min 512 (List.length url)
  /\ Forall (fun c => Legacy.isUrlKeyChar c = true) (Legacy.createUrlKey url)
  /\ Legacy.createUrlKey (Legacy.createUrlKey url) = Legacy.createUrlKey url.
Proof.
  assert (Hc : Forall (fun c => Legacy.isUrlKeyChar c = true)
                      (Legacy.createUrlKey url)).
  { unfold Legacy.createUrlKey, replaceOutside. apply Forall_firstn'.
    apply Forall_forall. intros c Hin. apply in_map_iff in Hin.
    destruct Hin as [x [<- _]]. apply isUrlKeyChar_replaced. }
  split; [|split; [exact Hc|]].
  - unfold Legacy.createUrlKey, replaceOutside.
    rewrite length_firstn, length_map. reflexivity.
  - unfold Legacy.createUrlKey at 1.
    rewrite (@replaceOutside_fixed _ 95 _ Hc).
    unfold Legacy.createUrlKey. rewrite firstn_firstn. reflexivity.
Qed.

(** X9.  Two URLs that share their first 512 code units have the same key,
    so the dedup check cannot tell them apart. *)
Theorem long_urls_share_key (kv : option Legacy.CloudflareKV.t)
    (common a b : jsstring) :
  (512 <= List.length common)%nat ->
  Legacy.createUrlKey (common ++ a) = Legacy.createUrlKey (common ++ b)
  /\ Legacy.isUrlScraped kv (common ++ a)
     = Legacy.isUrlScraped kv (common ++ b).
Proof.
  intros H.
  assert (E : forall x, Legacy.createUrlKey (common ++ x)
                        = Legacy.createUrlKey common).
  { intros x. unfold Legacy.createUrlKey, replaceOutside.
    rewrite map_app, firstn_app, length_map.
    replace (512 - List.length common)%nat with 0%nat by lia.
    simpl. rewrite app_nil_r. reflexivity. }
  assert (Ek : Legacy.createUrlKey (common ++ a)
               = Legacy.createUrlKey (common ++ b)) by (rewrite !E; reflexivity).
  split; [exact Ek|].
  unfold Legacy.isUrlScraped, Legacy.scrapedKey. rewrite Ek. reflexivity.
Qed.

Lemma long_urls_share_key_witness :
  Legacy.createUrlKey (repeat 97 512 ++ js "/one")
  = Legacy.createUrlKey (repeat 97 512 ++ js "/two").
Proof.
  assert (H : (512 <= List.length (repeat 97 512))%nat)
    by (vm_compute; reflexivity).
  exact (proj1 (@long_urls_share_key None (repeat 97 512) (js "/one")
                  (js "/two") H)).
Defined.

(** ** The mock store *)

Lemma storage_get_set_same storage key value :
  Legacy.storage_get (Main.storage_set storage key value) key = Some value.
Proof.
  simpl. destruct (JS.eqb key key) eqn:E; [reflexivity|].
  apply eqb_false_iff in E. congruence.
Qed.

Lemma storage_get_set_other storage key value key' :
  key' <> key ->
  Legacy.storage_get (Main.storage_set storage key value) key'
  = Legacy.storage_get storage key'.
Proof.
  intros H. simpl. destruct (JS.eqb key key') eqn:E; [|reflexivity].
  apply eqb_true_iff in E. congruence.
Qed.

(** X10.  A read of the mock store after a write of the same key returns the
    written value, except that a written empty string reads as [null];
    the reads of every other key are unchanged; no read throws. *)
Theorem MockKV_put_get (storage : list (jsstring * jsstring))
    (key value key' : jsstring) :
  Legacy.CloudflareKV.get
    (Legacy.MockKV (Main.storage_set storage key value)) key
  = Returns (if truthy value then Some value else None)
  /\ (key' <> key ->
      Legacy.CloudflareKV.get
        (Legacy.MockKV (Main.storage_set storage key value)) key'
      = Legacy.CloudflareKV.get (Legacy.MockKV storage) key')
  /\ Legacy.CloudflareKV.get (Legacy.MockKV storage) key' <> Throws.
Proof.
  split; [|split].
  - unfold Legacy.MockKV. cbn [Legacy.CloudflareKV.get].
    rewrite storage_get_set_same. reflexivity.
  - intros H. unfold Legacy.MockKV. cbn [Legacy.CloudflareKV.get].
    rewrite (storage_get_set_other storage value H). reflexivity.
  - unfold Legacy.MockKV. cbn [Legacy.CloudflareKV.get].
    destruct (Legacy.storage_get storage key'); discriminate.
Qed.

Lemma isUrlScraped_MockKV_iff storage url :
  Legacy.isUrlScraped (Some (Legacy.MockKV storage)) url = true
  <-> isStored storage (Legacy.scrapedKey url).
Proof.
  unfold Legacy.isUrlScraped, Legacy.MockKV, isStored.
  cbn [Legacy.CloudflareKV.get].
  destruct (Legacy.storage_get storage (Legacy.scrapedKey url)) as [v|].
  - destruct (truthy v) eqn:E; split; intros H; try discriminate.
    + exists v. split; [reflexivity | exact E].
    + reflexivity.
    + destruct H as [v' [Hv Ht]]. injection Hv as <-. congruence.
  - split; [discriminate | intros [v [Hv _]]; discriminate].
Qed.

(** ** Outcomes of one scrape *)

(** X11.  A URL that the dedup check reports as scraped is skipped: the
    scraper returns nothing and does not fetch the page.  Whenever the
    scraper returns nothing, for this or any other reason, it writes
    nothing to the store. *)
Theorem scrape_failure_writes_nothing (w : Legacy.World)
    (blogUrl category : jsstring) :
  (Legacy.isUrlScraped (Legacy.kvNamespace w)
     (js "https://blog.peppercloud.com" ++ blogUrl) = true ->
   Legacy.scrapePepperCloudBlog w blogUrl category
   = (None, Legacy.kvGetEffect w (js "https://blog.peppercloud.com" ++ blogUrl)))
  /\ (forall effects,
        Legacy.scrapePepperCloudBlog w blogUrl category = (None, effects) ->
        forall key value, ~ In (Legacy.KvPut key value) effects).
Proof.
  unfold Legacy.scrapePepperCloudBlog, Legacy.kvGetEffect. split.
  - intros ->. reflexivity.
  - intros effects H key value Hin.
    assert (Hg : forall l, In (Legacy.KvPut key value)
                     (match Legacy.kvNamespace w with
                      | Some _ => [Legacy.KvGet
                                     (Legacy.scrapedKey
                                        (js "https://blog.peppercloud.com" ++ blogUrl))]
                      | None => []
                      end ++ l) -> In (Legacy.KvPut key value) l).
    { intros l Hl. apply in_app_or in Hl. destruct Hl as [Hl|Hl]; [|exact Hl].
      destruct (Legacy.kvNamespace w); simpl in Hl;
        [destruct Hl as [Hl|[]]; discriminate | destruct Hl]. }
    destruct (Legacy.isUrlScraped _ _).
    { injection H as <-. apply (Hg []). rewrite app_nil_r. exact Hin. }
    destruct (Legacy.fetchPage w _) as [page|].
    2:{ injection H as <-. apply Hg in Hin. destruct Hin as [Hin|[]]. discriminate. }
    destruct (negb (truthy (trim (Legacy.Page.titleText page)))).
    { injection H as <-. apply Hg in Hin. destruct Hin as [Hin|[]]. discriminate. }
    destruct (Legacy.Page.content page); [discriminate|].
    injection H as <-. apply Hg in Hin. destruct Hin as [Hin|[]]. discriminate.
Qed.

(** X12.  A post that the scraper returns has a title that is not empty and
    already trimmed, the URL and category it was asked for, the source
    URL on the blog host, the sections of its content root and their
    number; the page was fetched after the dedup check answered "not
    scraped", and the URL is then marked in the store when there is one. *)
Theorem scrape_success_shape (w : Legacy.World) (blogUrl category : jsstring)
    (blog : Legacy.ScrapedBlog.t) (effects : list Legacy.Effect) :
  Legacy.scrapePepperCloudBlog w blogUrl category = (Some blog, effects) ->
  let fullUrl := js "https://blog.peppercloud.com" ++ blogUrl in
  isTrimmedText (Legacy.ScrapedBlog.title blog)
  /\ Legacy.ScrapedBlog.url blog = blogUrl
  /\ Legacy.ScrapedBlog.category blog = category
  /\ Legacy.ScrapedBlog.sourceUrl blog = fullUrl
  /\ Legacy.ScrapedBlog.sectionsCount blog
     = List.length (Legacy.ScrapedBlog.sections blog)
  /\ (exists page root,
        Legacy.fetchPage w fullUrl = Some page
        /\ Legacy.Page.content page = Some root
        /\ Legacy.ScrapedBlog.sections blog = Legacy.extractSections root)
  /\ Legacy.isUrlScraped (Legacy.kvNamespace w) fullUrl = false
  /\ effects
     = Legacy.kvGetEffect w fullUrl ++ [Legacy.Fetch fullUrl]
       ++ Legacy.markUrlAsScraped w fullUrl blog.
Proof.
  intros H fullUrl. subst fullUrl. unfold Legacy.scrapePepperCloudBlog in H.
  destruct (Legacy.isUrlScraped _ _) eqn:Es; [discriminate|].
  destruct (Legacy.fetchPage w _) as [page|] eqn:Ef; [|discriminate].
  destruct (truthy (trim (Legacy.Page.titleText page))) eqn:Et;
    simpl negb in H; cbv iota in H; [|discriminate].
  destruct (Legacy.Page.content page) as [root|] eqn:Ec; [|discriminate].
  injection H as <- <-. cbn [Legacy.ScrapedBlog.title Legacy.ScrapedBlog.url
    Legacy.ScrapedBlog.category Legacy.ScrapedBlog.sourceUrl
    Legacy.ScrapedBlog.sectionsCount Legacy.ScrapedBlog.sections].
  split; [split; [exact Et | apply trim_idem]|].
  repeat (split; [reflexivity|]).
  split; [exists page, root; repeat split; assumption|].
  split; reflexivity.
Qed.

Lemma scrape_success_shape_witness :
  Legacy.ScrapedBlog.sourceUrl helloLegacyBlog = helloUrl
  /\ Legacy.ScrapedBlog.sectionsCount helloLegacyBlog = 1%nat.
Proof.
  assert (H : Legacy.scrapePepperCloudBlog helloWorld (js "/hello/") (js "crm")
              = (Some helloLegacyBlog, [Legacy.Fetch helloUrl]))
    by (vm_compute; reflexivity).
  pose proof (scrape_success_shape helloWorld (js "/hello/") (js "crm") H) as S.
  split; [exact (proj1 (proj2 (proj2 (proj2 S))))
         | exact (proj1 (proj2 (proj2 (proj2 (proj2 S)))))].
Defined.

(** X13.  With the mock store and a [JSON.stringify] that never yields the
    empty string, a scrape that returns a post leaves the store in a state
    in which the same URL is reported as scraped, and a second scrape of
    it returns nothing after the read of the store alone: the page is not
    fetched again. *)
Theorem scrape_twice_skips (w : Legacy.World)
    (storage : list (jsstring * jsstring)) (blogUrl category : jsstring)
    (blog : Legacy.ScrapedBlog.t) (effects : list Legacy.Effect) :
  Legacy.kvNamespace w = Some (Legacy.MockKV storage) ->
  stringifyNonEmpty (Legacy.JSON_stringify w) ->
  Legacy.scrapePepperCloudBlog w blogUrl category = (Some blog, effects) ->
  let fullUrl := js "https://blog.peppercloud.com" ++ blogUrl in
  let storage' := fold_left Main.applyEffect effects storage in
  Legacy.isUrlScraped (Some (Legacy.MockKV storage)) fullUrl = false
  /\ Legacy.isUrlScraped (Some (Legacy.MockKV storage')) fullUrl = true
  /\ forall category',
       Legacy.scrapePepperCloudBlog (withKv w (Legacy.MockKV storage'))
                                    blogUrl category'
       = (None, [Legacy.KvGet (Legacy.scrapedKey fullUrl)]).
Proof.
  intros Hkv Hjson H fullUrl storage'.
  destruct (scrape_success_shape _ _ _ H) as [_ [_ [_ [_ [_ [_ [Hs He]]]]]]].
  fold fullUrl in Hs, He. rewrite Hkv in Hs.
  assert (Hst : isStored storage' (Legacy.scrapedKey fullUrl)).
  { subst storage'. rewrite He.
    unfold Legacy.kvGetEffect, Legacy.markUrlAsScraped. rewrite Hkv. simpl.
    eexists. split; [apply storage_get_set_same | apply Hjson]. }
  assert (Hs' : Legacy.isUrlScraped (Some (Legacy.MockKV storage')) fullUrl = true)
    by (apply isUrlScraped_MockKV_iff, Hst).
  split; [exact Hs|]. split; [exact Hs'|].
  intros category'.
  destruct (scrape_failure_writes_nothing
              (withKv w (Legacy.MockKV storage')) blogUrl category') as [Hskip _].
  fold fullUrl in Hskip. exact (Hskip Hs').
Qed.

Lemma scrape_twice_skips_witness :
  Legacy.scrapePepperCloudBlog
    (withKv mockWorld (Legacy.MockKV [(Legacy.scrapedKey helloUrl, js "{}")]))
    (js "/hello/") (js "grant")
  = (None, [Legacy.KvGet (Legacy.scrapedKey helloUrl)]).
Proof.
  assert (Hkv : Legacy.kvNamespace mockWorld = Some (Legacy.MockKV []))
    by reflexivity.
  assert (Hjson : stringifyNonEmpty (Legacy.JSON_stringify mockWorld))
    by (intros fields; reflexivity).
  assert (H : Legacy.scrapePepperCloudBlog mockWorld (js "/hello/") (js "crm")
              = (Some helloLegacyBlog,
                 [Legacy.KvGet (Legacy.scrapedKey helloUrl);
                  Legacy.Fetch helloUrl;
                  Legacy.KvPut (Legacy.scrapedKey helloUrl) (js "{}")]))
    by (vm_compute; reflexivity).
  exact (proj2 (proj2 (@scrape_twice_skips mockWorld [] (js "/hello/")
                         (js "crm") helloLegacyBlog _ Hkv Hjson H))
           (js "grant")).
Defined.

(* ================================================================== *)
(** * The workflow of [main] *)
(* ================================================================== *)

Section MainFacts.
Context {rt : JsRuntime}.
Variable w : Main.World.

(** What one URL does to the state: nothing is counted and the store is
    left as it is, or one post is counted whose key was not stored and now
    is. *)
Lemma processUrl_cases (category : jsstring) (st : Main.State)
    (blogUrl : jsstring) :
  let st' := Main.processUrl w category st blogUrl in
  (Main.storage st' = Main.storage st
   /\ Main.totalProcessed st' = Main.totalProcessed st
   /\ Main.totalGenerated st' = Main.totalGenerated st
   /\ Main.processed st' = Main.processed st)
  \/ (exists blog,
        Main.storage st'
        = Main.storage_set (Main.storage st) (keyOf blog)
            (Main.JSON_stringify w
               [ (js "url", Legacy.ScrapedBlog.sourceUrl blog);
                 (js "title", Legacy.ScrapedBlog.title blog);
                 (js "scrapedDate", Legacy.ScrapedBlog.scrapedDate blog);
                 (js "category", Legacy.ScrapedBlog.category blog) ])
        /\ ~ isStored (Main.storage st) (keyOf blog)
        /\ Main.totalProcessed st' = S (Main.totalProcessed st)
        /\ (Main.totalGenerated st' = Main.totalGenerated st
            \/ Main.totalGenerated st' = S (Main.totalGenerated st))
        /\ Main.processed st' = Main.processed st ++ [blog]).
Proof.
  intros st'. subst st'. unfold Main.processUrl.
  destruct (Legacy.scrapePepperCloudBlog _ blogUrl category)
    as [[blog|] scrapeEffects] eqn:E.
  - right. exists blog.
    destruct (scrape_success_shape _ _ _ E) as [_ [_ [_ [Hsrc [_ [_ [Hs He]]]]]]].
    assert (Hst : fold_left Main.applyEffect scrapeEffects (Main.storage st)
                  = Main.storage_set (Main.storage st) (keyOf blog)
                      (Main.JSON_stringify w
                         [ (js "url", Legacy.ScrapedBlog.sourceUrl blog);
                           (js "title", Legacy.ScrapedBlog.title blog);
                           (js "scrapedDate", Legacy.ScrapedBlog.scrapedDate blog);
                           (js "category", Legacy.ScrapedBlog.category blog) ])).
    { rewrite He. unfold keyOf. rewrite Hsrc. reflexivity. }
    assert (Hns : ~ isStored (Main.storage st) (keyOf blog)).
    { intros Hi. unfold keyOf in Hi. rewrite Hsrc in Hi.
      apply isUrlScraped_MockKV_iff in Hi.
      cbn [Main.scraperWorld Legacy.kvNamespace] in Hs. congruence. }
    destruct (LegacyGenerator.generateBlog _) as [generatedContent|];
      [destruct (LegacyGenerator.saveBlogToFile _ _ _ _ _)|];
      cbn [Main.storage Main.totalProcessed Main.totalGenerated Main.processed];
      repeat split; auto.
  - left.
    destruct (scrape_failure_writes_nothing (Main.scraperWorld w (Main.storage st) blogUrl)
                blogUrl category) as [_ Hn].
    specialize (Hn _ E).
    cbn [Main.storage Main.totalProcessed Main.totalGenerated Main.processed].
    split; [|repeat split].
    clear E. revert Hn. generalize (Main.storage st).
    induction scrapeEffects as [|e l IH]; intros s Hn; [reflexivity|].
    simpl. destruct e as [k|u|k v]; simpl.
    + apply IH. intros k' v' Hin. apply (Hn k' v'). right. exact Hin.
    + apply IH. intros k' v' Hin. apply (Hn k' v'). right. exact Hin.
    + exfalso. apply (Hn k v). left. reflexivity.
Qed.

(** Invariant of the workflow. *)
Lemma processUrl_inv (category : jsstring) (st : Main.State)
    (blogUrl : jsstring) :
  stringifyNonEmpty (Main.JSON_stringify w) ->
  mainInv st -> mainInv (Main.processUrl w category st blogUrl).
Proof.
  intros Hjson [Hlen [Hle [Hnd Hst]]].
  destruct (processUrl_cases category st blogUrl)
    as [[Es [Ep [Eg Er]]] | [blog [Es [Hns [Ep [Eg Er]]]]]].
  - unfold mainInv. rewrite Es, Ep, Eg, Er. repeat split; assumption.
  - assert (Hnew : ~ In (keyOf blog) (map keyOf (Main.processed st))).
    { intros Hin. apply in_map_iff in Hin. destruct Hin as [b [Hk Hb]].
      apply Hns. rewrite <- Hk. apply Hst, Hb. }
    unfold mainInv. rewrite Es, Ep, Er. repeat split.
    + rewrite length_app, Hlen. simpl. lia.
    + destruct Eg as [-> | ->]; lia.
    + rewrite map_app. simpl.
      apply NoDup_app; [exact Hnd | repeat constructor; intros [] |].
      intros k Hk [<-|[]]. exact (Hnew Hk).
    + intros b Hb. apply in_app_or in Hb. destruct Hb as [Hb | [<-|[]]].
      * destruct (Hst b Hb) as [v [Hv Ht]].
        exists v. split; [|exact Ht].
        rewrite storage_get_set_other; [exact Hv|].
        intros Heq. apply Hnew. rewrite <- Heq. apply in_map, Hb.
      * eexists. split; [apply storage_get_set_same | apply Hjson].
Qed.

Lemma processUrl_count (category : jsstring) (st : Main.State)
    (blogUrl : jsstring) :
  (Main.totalProcessed (Main.processUrl w category st blogUrl)
   <= S (Main.totalProcessed st))%nat.
Proof.
  destruct (processUrl_cases category st blogUrl)
    as [[_ [Ep _]] | [blog [_ [_ [Ep _]]]]]; rewrite Ep; lia.
Qed.

Lemma processCategory_inv (st : Main.State) (category : jsstring) :
  stringifyNonEmpty (Main.JSON_stringify w) ->
  mainInv st -> mainInv (Main.processCategory w st category).
Proof.
  intros Hjson. unfold Main.processCategory.
  generalize (Main.blogUrlsOf w category). intros urls. revert st.
  induction urls as [|u urls IH]; intros st H; [exact H|].
  simpl. apply IH, processUrl_inv; assumption.
Qed.

Lemma processCategory_count (st : Main.State) (category : jsstring) :
  (Main.totalProcessed (Main.processCategory w st category)
   <= Main.totalProcessed st + List.length (Main.blogUrlsOf w category))%nat.
Proof.
  unfold Main.processCategory.
  generalize (Main.blogUrlsOf w category). intros urls. revert st.
  induction urls as [|u urls IH]; intros st; simpl; [lia|].
  etransitivity; [apply IH|].
  pose proof (processUrl_count category st u). lia.
Qed.

Lemma categories_inv (cats : list jsstring) :
  stringifyNonEmpty (Main.JSON_stringify w) ->
  forall st, mainInv st -> mainInv (fold_left (Main.processCategory w) cats st).
Proof.
  intros Hjson. induction cats as [|c cats IH]; intros st H; [exact H|].
  simpl. apply IH, processCategory_inv; assumption.
Qed.

Lemma categories_count (cats : list jsstring) :
  forall st,
    (Main.totalProcessed (fold_left (Main.processCategory w) cats st)
     <= Main.totalProcessed st
        + List.length (flat_map (Main.blogUrlsOf w) cats))%nat.
Proof.
  induction cats as [|c cats IH]; intros st; simpl; [lia|].
  etransitivity; [apply IH|].
  pose proof (processCategory_count st c). rewrite length_app. lia.
Qed.

End MainFacts.

(** X14.  In a run of [main] with a [JSON.stringify] that never yields the
    empty string, no two processed posts have the same key in the store:
    a URL listed twice, or under several categories, is scraped once.
    The count of processed posts is the number of those posts, is at most
    the number of listed URLs, and the count of generated posts is at most
    the count of processed ones. *)
Theorem main_processes_each_key_once {rt : JsRuntime} (w : Main.World)
    (final : Main.State) :
  stringifyNonEmpty (Main.JSON_stringify w) ->
  Main.main w = Some final ->
  NoDup (map keyOf (Main.processed final))
  /\ Main.totalProcessed final = List.length (Main.processed final)
  /\ (Main.totalGenerated final <= Main.totalProcessed final)%nat
  /\ (Main.totalProcessed final
      <= List.length (flat_map (Main.blogUrlsOf w) Main.categories))%nat
  /\ (forall b, In b (Main.processed final) ->
                isStored (Main.storage final) (keyOf b)).
Proof.
  intros Hjson Hmain. unfold Main.main in Hmain.
  destruct (Main.openaiApiKey w) as [key|]; [|discriminate].
  destruct (truthy key); [|discriminate]. injection Hmain as <-.
  assert (Hi : mainInv Main.initialState).
  { split; [reflexivity|]. split; [simpl; lia|].
    split; [constructor | intros b []]. }
  destruct (categories_inv w Main.categories Hjson Hi) as [Hlen [Hle [Hnd Hst]]].
  pose proof (categories_count w Main.categories Main.initialState) as Hc.
  simpl Main.totalProcessed in Hc at 2.
  repeat split; try assumption; lia.
Qed.

Lemma main_processes_each_key_once_witness :
  match Main.main (rt := asciiRuntime) mainWorld with
  | Some final =>
      NoDup (map keyOf (Main.processed final))
      /\ Main.totalProcessed final = 1%nat
      /\ List.length
           (flat_map (Main.blogUrlsOf (rt := asciiRuntime) mainWorld)
                     Main.categories) = 5%nat
  | None => False
  end.
Proof.
  assert (Hj : stringifyNonEmpty (Main.JSON_stringify mainWorld))
    by (intros fields; reflexivity).
  destruct (Main.main (rt := asciiRuntime) mainWorld) as [final|] eqn:E.
  - split.
    + exact (proj1 (@main_processes_each_key_once asciiRuntime mainWorld
                      final Hj E)).
    + vm_compute in E. injection E as <-. split; reflexivity.
  - vm_compute in E. discriminate E.
Defined.

(* ================================================================== *)
(** * More on the worker *)
(* ================================================================== *)

(** ** Sitemap and listing *)

(** X15.  The sitemap parser returns at most one post per [url] element, in
    order; the URL and the date string of every post are not empty and
    already trimmed; an element yields its post exactly when both its
    [loc] and its [lastmod] have text after trimming. *)
Theorem parseXMLSitemap_shape (urls : list Worker.UrlElement.t) :
  (List.length (Worker.parseXMLSitemap urls) <= List.length urls)%nat
  /\ Forall (fun p => isTrimmedText (Worker.BlogPost.url p)
                      /\ isTrimmedText (Worker.BlogPost.lastmod p))
            (Worker.parseXMLSitemap urls)
  /\ (forall p,
        In p (Worker.parseXMLSitemap urls) <->
        exists e,
          In e urls
          /\ p = Worker.BlogPost.mk (trim (Worker.UrlElement.locText e))
                                    (trim (Worker.UrlElement.lastmodText e))
          /\ truthy (trim (Worker.UrlElement.locText e)) = true
          /\ truthy (trim (Worker.UrlElement.lastmodText e)) = true).
Proof.
  assert (Hiff : forall p,
             In p (Worker.parseXMLSitemap urls) <->
             exists e,
               In e urls
               /\ p = Worker.BlogPost.mk (trim (Worker.UrlElement.locText e))
                                         (trim (Worker.UrlElement.lastmodText e))
               /\ truthy (trim (Worker.UrlElement.locText e)) = true
               /\ truthy (trim (Worker.UrlElement.lastmodText e)) = true).
  { intros p. unfold Worker.parseXMLSitemap. rewrite in_flat_map. split.
    - intros [e [He Hp]]. exists e. split; [exact He|].
      destruct (truthy (trim (Worker.UrlElement.locText e))) eqn:E1;
        destruct (truthy (trim (Worker.UrlElement.lastmodText e))) eqn:E2;
        simpl in Hp; try destruct Hp as [<-|[]]; try destruct Hp.
      repeat split.
    - intros [e [He [-> [E1 E2]]]]. exists e. split; [exact He|].
      rewrite E1, E2. left. reflexivity. }
  split; [|split; [|exact Hiff]].
  - clear Hiff. unfold Worker.parseXMLSitemap.
    induction urls as [|e l IH]; [simpl; lia|].
    cbn [flat_map List.length]. rewrite length_app.
    destruct (truthy _ && truthy _); cbn [List.length]; lia.
  - apply Forall_forall. intros p Hp. apply Hiff in Hp.
    destruct Hp as [e [_ [-> [E1 E2]]]]. simpl.
    split; (split; [assumption | apply trim_idem]).
Qed.

Section ListingLinks.
Context {rt : JsRuntime}.

Lemma cardsBeforeStop_incl cutoff (cards : list Legacy.ArticleCard.t) :
  incl (cardsBeforeStop cutoff cards) cards
  /\ (List.length (cardsBeforeStop cutoff cards) <= List.length cards)%nat.
Proof.
  induction cards as [|a l [IHi IHl]]; simpl.
  - split; [apply incl_refl | lia].
  - destruct (Legacy.stopsAt cutoff a); simpl.
    + split; [intros x [] | lia].
    + split; [|lia]. intros x [<-|Hx]; [left; reflexivity | right; apply IHi, Hx].
Qed.

Lemma cardsBeforeStop_all cutoff (cards : list Legacy.ArticleCard.t) :
  (forall a, In a cards -> Legacy.stopsAt cutoff a = false) ->
  cardsBeforeStop cutoff cards = cards.
Proof.
  induction cards as [|a l IH]; simpl; intros H; [reflexivity|].
  rewrite (H a (or_introl eq_refl)), IH; [reflexivity|].
  intros b Hb. apply H. right. exact Hb.
Qed.

Lemma cardLink_length (a : Legacy.ArticleCard.t) :
  (List.length (cardLink a) <= 1)%nat.
Proof.
  unfold cardLink. destruct (Legacy.ArticleCard.href a) as [u|]; [|simpl; lia].
  destruct (truthy u); simpl; lia.
Qed.

End ListingLinks.

(** X16.  Every URL returned from the listing page is the non-empty link of
    one of its cards, and there are at most as many as cards; when no card
    stops the walk, the links of all cards are returned, in order. *)
Theorem listing_links_returned {rt : JsRuntime} (cutoffDate : Date)
    (cards : list Legacy.ArticleCard.t) :
  (forall u, In u (Legacy.getRecentBlogUrls cutoffDate cards) ->
             truthy u = true
             /\ exists a, In a cards /\ Legacy.ArticleCard.href a = Some u)
  /\ (List.length (Legacy.getRecentBlogUrls cutoffDate cards)
      <= List.length cards)%nat
  /\ ((forall a, In a cards -> Legacy.stopsAt cutoffDate a = false) ->
      Legacy.getRecentBlogUrls cutoffDate cards = flat_map cardLink cards).
Proof.
  unfold Legacy.getRecentBlogUrls. rewrite eachArticle_cardsBeforeStop.
  cbn [app]. destruct (cardsBeforeStop_incl cutoffDate cards) as [Hi Hl].
  split; [|split].
  - intros u Hu. apply in_flat_map in Hu. destruct Hu as [a [Ha Hu]].
    unfold cardLink in Hu.
    destruct (Legacy.ArticleCard.href a) as [v|] eqn:E; [|destruct Hu].
    destruct (truthy v) eqn:Et; [|destruct Hu].
    destruct Hu as [<-|[]]. split; [exact Et|].
    exists a. split; [apply Hi, Ha | exact E].
  - etransitivity; [|exact Hl].
    clear Hi Hl.
    induction (cardsBeforeStop cutoffDate cards) as [|a l IH]; [simpl; lia|].
    cbn [flat_map List.length]. rewrite length_app.
    pose proof (cardLink_length a). lia.
  - intros H. rewrite (cardsBeforeStop_all _ _ H). reflexivity.
Qed.

(** ** Scraping one post *)

Lemma startsWith_app_same (p rest : jsstring) : startsWith (p ++ rest) p = true.
Proof.
  induction p as [|c p IH]; [reflexivity|]. simpl.
  rewrite N.eqb_refl. exact IH.
Qed.

Lemma endsWith_app_same (s suffix : jsstring) :
  endsWith (s ++ suffix) suffix = true.
Proof. unfold endsWith. rewrite rev_app_distr. apply startsWith_app_same. Qed.

(** The worker scraper returns a post exactly when the page is
    fetched, its title has text after trimming and it has a content root.
    The post then carries the trimmed title and description, the category
    [uncategorized], the sections of the content root, the URL and date
    string it was given, and a file name that is the cleaned title
    followed by [.mdx]. *)
Theorem scrapeBlog_some_iff {rt : JsRuntime}
    (fetchPage : jsstring -> option Worker.Page.t) (blogUrl : jsstring)
    (lastmod : option jsstring) (blog : Worker.ScrapedBlog.t) :
  Worker.scrapeBlog fetchPage blogUrl lastmod = Some blog
  <-> exists page root,
        fetchPage blogUrl = Some page
        /\ truthy (trim (Worker.Page.titleText page)) = true
        /\ Worker.Page.content page = Some root
        /\ blog
           = Worker.ScrapedBlog.mk
               (trim (Worker.Page.titleText page))
               (trim (Worker.Page.excerptText page))
               (js "uncategorized") (Worker.parseContent root) blogUrl
               (Some (Worker.generateCleanFilename
                        (trim (Worker.Page.titleText page)) ++ js ".mdx"))
               lastmod.
Proof.
  unfold Worker.scrapeBlog. split.
  - destruct (fetchPage blogUrl) as [page|]; [|discriminate].
    destruct (truthy (trim (Worker.Page.titleText page))) eqn:Et;
      simpl negb; cbv iota; [|discriminate].
    destruct (Worker.Page.content page) as [root|] eqn:Ec; [|discriminate].
    intros H. injection H as <-. exists page, root. repeat split; assumption.
  - intros [page [root [-> [Et [Ec ->]]]]]. rewrite Et, Ec. reflexivity.
Qed.

(** X17.  For a post returned by the worker scraper, the tracking data has
    the file name of the post, which ends with [.mdx] (the fallback name
    is never used), the number of its sections, and a word count of at
    least one. *)
Theorem createPostData_of_scraped {rt : JsRuntime}
    (fetchPage : jsstring -> option Worker.Page.t) (blogUrl : jsstring)
    (lastmod : option jsstring) (blog : Worker.ScrapedBlog.t) :
  Worker.scrapeBlog fetchPage blogUrl lastmod = Some blog ->
  Worker.PostData.filename (Worker.createPostData blog)
  = Worker.generateCleanFilename (Worker.ScrapedBlog.title blog) ++ js ".mdx"
  /\ endsWith (Worker.PostData.filename (Worker.createPostData blog))
              (js ".mdx") = true
  /\ (List.length (Worker.PostData.filename (Worker.createPostData blog))
      <= 104)%nat
  /\ Worker.PostData.sections_count (Worker.createPostData blog)
     = List.length (Worker.ScrapedBlog.sections blog)
  /\ (1 <= Worker.PostData.word_count (Worker.createPostData blog))%nat.
Proof.
  intros H. apply scrapeBlog_some_iff in H.
  destruct H as [page [root [_ [_ [_ ->]]]]].
  assert (E : Worker.PostData.filename
                (Worker.createPostData
                   (Worker.ScrapedBlog.mk
                      (trim (Worker.Page.titleText page))
                      (trim (Worker.Page.excerptText page))
                      (js "uncategorized") (Worker.parseContent root) blogUrl
                      (Some (Worker.generateCleanFilename
                               (trim (Worker.Page.titleText page)) ++ js ".mdx"))
                      lastmod))
              = Worker.generateCleanFilename (trim (Worker.Page.titleText page))
                ++ js ".mdx").
  { unfold Worker.createPostData. cbn [Worker.ScrapedBlog.filename Worker.PostData.filename].
    destruct (Worker.generateCleanFilename _ ++ js ".mdx") as [|c t] eqn:Ef;
      [|reflexivity].
    apply app_eq_nil in Ef. destruct Ef as [_ Ef]. discriminate Ef. }
  rewrite E. cbn [Worker.ScrapedBlog.title Worker.ScrapedBlog.sections].
  split; [reflexivity|]. split; [apply endsWith_app_same|]. split; [|split].
  - rewrite length_app. unfold Worker.generateCleanFilename, substring0.
    pose proof (firstn_le_length 100
                  (stripEdgeHyphens
                     (replaceRuns isHyphen [hyphen]
                        (replaceRuns isWhiteSpace [hyphen]
                           (keepOnly Worker.isFilenameChar
                              (toLowerCase (trim (Worker.Page.titleText page)))))))).
    simpl List.length at 2. lia.
  - reflexivity.
  - rewrite createPostData_word_count, calculateWordCount_sum. lia.
Qed.

Lemma createPostData_of_scraped_witness :
  Worker.PostData.filename (Worker.createPostData helloWorkerBlog)
  = js "t.mdx"
  /\ Worker.PostData.word_count (Worker.createPostData helloWorkerBlog)
     = 2%nat.
Proof.
  assert (H : Worker.scrapeBlog (rt := asciiRuntime)
                (fun _ => Some helloWorkerPage) helloUrl None
              = Some helloWorkerBlog) by (vm_compute; reflexivity).
  split.
  - exact (proj1 (@createPostData_of_scraped asciiRuntime _ _ _ _ H)).
  - vm_compute. reflexivity.
Defined.

(** ** Consecutive runs *)

(** X18.  When a run has written the watermark, the run that starts from the
    written value only attempts posts dated strictly after it; none of the
    posts attempted by the first run is attempted again. *)
Theorem next_run_attempts_only_newer {rt : JsRuntime} (lp : Z)
    (allPosts nextPosts : list Worker.BlogPost.t) (written : Date)
    (p : Worker.BlogPost.t) :
  In written (watermarkWrites (Worker.run (Returns (Some lp : Date)) allPosts)) ->
  In p (attemptedPosts (Worker.run (Returns written) nextPosts)) ->
  Date_gt (Worker.postDate p) written = true
  /\ ~ In p (attemptedPosts (Worker.run (Returns (Some lp : Date)) allPosts)).
Proof.
  intros Hw Hp.
  destruct (run_from_valid lp allPosts) as [Hrun Hgt].
  remember (firstn 5 (filter (newerThan lp) allPosts)) as att eqn:Hatt.
  rewrite Hrun, watermarkWrites_app, watermarkWrites_map in Hw.
  destruct att as [|p0 l0]; [destruct Hw|].
  destruct Hw as [<-|[]].
  destruct (fold_laterDate_max (p0 :: l0) lp) as [d [Hf [_ [Hall _]]]].
  rewrite Hf in Hp |- *.
  destruct (run_from_valid d nextPosts) as [Hrun' _].
  rewrite Hrun', attemptedPosts_app, attemptedPosts_map in Hp.
  assert (Hin : In p (firstn 5 (filter (newerThan d) nextPosts))).
  { apply in_app_or in Hp. destruct Hp as [Hp|Hp]; [exact Hp|].
    destruct (firstn 5 (filter (newerThan d) nextPosts)); destruct Hp. }
  apply In_firstn, filter_In in Hin. destruct Hin as [_ Hn].
  split; [exact Hn|].
  rewrite Hrun, attemptedPosts_app, attemptedPosts_map. simpl. rewrite app_nil_r.
  intros Hold. unfold newerThan in Hn. apply Date_gt_Some in Hn.
  destruct Hn as [t [Et Ht]].
  pose proof (Hall p t Hold Et). lia.
Qed.

Lemma next_run_attempts_only_newer_witness :
  ~ In (post "https://blog.peppercloud.com/f/" "2025-08-09")
       (attemptedPosts
          (Worker.run (rt := asciiRuntime) (Returns (Some august1 : Date))
                      sixPosts)).
Proof.
  assert (Hw : In (IsoDate.parse (js "2025-08-05"))
                  (watermarkWrites
                     (Worker.run (rt := asciiRuntime)
                                 (Returns (Some august1 : Date)) sixPosts)))
    by (vm_compute; left; reflexivity).
  assert (Hp : In (post "https://blog.peppercloud.com/f/" "2025-08-09")
                  (attemptedPosts
                     (Worker.run (rt := asciiRuntime)
                                 (Returns (IsoDate.parse (js "2025-08-05")))
                                 sixPosts)))
    by (vm_compute; left; reflexivity).
  exact (proj2 (@next_run_attempts_only_newer asciiRuntime august1 sixPosts
                  sixPosts _ _ Hw Hp)).
Defined.

(* ================================================================== *)
(** * The generators *)
(* ================================================================== *)

Lemma includes_In (arr : list jsstring) (x : jsstring) :
  WorkerGenerator.includes arr x = true <-> In x arr.
Proof.
  unfold WorkerGenerator.includes. rewrite existsb_exists. split.
  - intros [y [Hy E]]. apply eqb_true_iff in E. subst y. exact Hy.
  - intros H. exists x. split; [exact H | apply eqb_true_iff; reflexivity].
Qed.

(** X19.  Whatever the model answers, and also when the request fails, the
    category chosen by [categorizeWithAI] is one of the five category
    names; it is the trimmed answer when that is one of the names, and
    [Product Updates] in every other case. *)
Theorem categorizeWithAI_valid (reply : Outcome (option jsstring)) :
  In (WorkerGenerator.categorizeWithAI reply) WorkerGenerator.categories
  /\ (forall answer,
        reply = Returns (Some answer) ->
        In (trim answer) WorkerGenerator.categories ->
        WorkerGenerator.categorizeWithAI reply = trim answer)
  /\ (forall answer,
        reply = Returns (Some answer) ->
        ~ In (trim answer) WorkerGenerator.categories ->
        WorkerGenerator.categorizeWithAI reply = js "Product Updates")
  /\ WorkerGenerator.categorizeWithAI Throws = js "Product Updates"
  /\ WorkerGenerator.categorizeWithAI (Returns None) = js "Product Updates".
Proof.
  assert (Hd : In WorkerGenerator.defaultCategory WorkerGenerator.categories)
    by (left; reflexivity).
  split; [|split; [|split; [|split; reflexivity]]].
  - unfold WorkerGenerator.categorizeWithAI.
    destruct reply as [content|]; [|exact Hd].
    destruct (WorkerGenerator.includes _ _) eqn:E; [|exact Hd].
    apply includes_In, E.
  - intros answer -> Hin. unfold WorkerGenerator.categorizeWithAI.
    assert (Ht : truthy (trim answer) = true).
    { destruct (trim answer); [|reflexivity].
      simpl in Hin. repeat (destruct Hin as [Hin|Hin]; [discriminate Hin|]).
      destruct Hin. }
    rewrite Ht. apply includes_In in Hin. rewrite Hin. reflexivity.
  - intros answer -> Hnin. unfold WorkerGenerator.categorizeWithAI.
    destruct (truthy (trim answer)); [|reflexivity].
    destruct (WorkerGenerator.includes _ (trim answer)) eqn:E; [|reflexivity].
    apply includes_In in E. contradiction.
Qed.

Lemma categoryPathOf_slug (name : jsstring) :
  In name WorkerGenerator.categories ->
  WorkerGenerator.lookup WorkerGenerator.categoryMap name
  = Some (WorkerGenerator.categoryPathOf name)
  /\ In (WorkerGenerator.categoryPathOf name) categorySlugs.
Proof.
  intros H. simpl in H.
  destruct H as [<-|[<-|[<-|[<-|[<-|[]]]]]]; split;
    vm_compute; auto 10.
Qed.

(** X20.  [generateBlogWithAI] returns nothing exactly when the generating
    request fails or its answer has no content; otherwise it returns the
    content as answered, with the slug that [categoryMap] gives for the
    chosen category: always one of the five slugs, so that the fallback
    slug is never needed. *)
Theorem generateBlogWithAI_result
    (categoryReply generationReply : Outcome (option jsstring)) :
  (WorkerGenerator.generateBlogWithAI categoryReply generationReply = None
   <-> (generationReply = Throws \/ generationReply = Returns None
        \/ generationReply = Returns (Some [])))
  /\ (forall content category,
        WorkerGenerator.generateBlogWithAI categoryReply generationReply
        = Some (content, category) ->
        generationReply = Returns (Some content)
        /\ content <> []
        /\ In category categorySlugs
        /\ WorkerGenerator.lookup WorkerGenerator.categoryMap
             (WorkerGenerator.categorizeWithAI categoryReply)
           = Some category).
Proof.
  unfold WorkerGenerator.generateBlogWithAI.
  destruct (@categoryPathOf_slug
              (WorkerGenerator.categorizeWithAI categoryReply)
              (proj1 (categorizeWithAI_valid categoryReply))) as [Hl Hs].
  split.
  - destruct generationReply as [[[|c t]|]|]; simpl; split;
      try discriminate; auto;
      intros [H|[H|H]]; discriminate H.
  - intros content category H.
    destruct generationReply as [[[|c t]|]|]; simpl in H; try discriminate H.
    injection H as <- <-.
    split; [reflexivity|]. split; [discriminate|]. split; assumption.
Qed.

(** ** The legacy generator *)

(** X21.  The legacy [generateBlog] either throws or returns a text that is
    not empty and already trimmed; it throws exactly when the request
    fails or the answer is [null] or only white space. *)
Theorem generateBlog_result (completion : Outcome (option jsstring)) :
  (forall generated,
      LegacyGenerator.generateBlog completion = Returns generated ->
      isTrimmedText generated
      /\ exists answer, completion = Returns (Some answer)
                        /\ generated = trim answer)
  /\ (LegacyGenerator.generateBlog completion = Throws
      <-> (completion = Throws \/ completion = Returns None
           \/ exists answer, completion = Returns (Some answer)
                             /\ trim answer = [])).
Proof.
  unfold LegacyGenerator.generateBlog. split.
  - intros generated H.
    destruct completion as [[answer|]|]; try discriminate H.
    destruct (truthy (trim answer)) eqn:E; simpl in H; [|discriminate H].
    injection H as <-.
    split; [split; [exact E | apply trim_idem]|].
    exists answer. split; reflexivity.
  - destruct completion as [[answer|]|]; simpl.
    + destruct (truthy (trim answer)) eqn:E; simpl; split.
      * discriminate.
      * intros [H|[H|[a [H Ha]]]]; try discriminate H.
        injection H as <-. rewrite Ha in E. discriminate E.
      * intros _. right. right. exists answer.
        split; [reflexivity | apply truthy_false_iff, E].
      * reflexivity.
    + split; auto.
    + split; auto.
Qed.

Lemma startsWith_prefix (s p : jsstring) :
  startsWith s p = true -> exists rest, s = p ++ rest.
Proof.
  revert s. induction p as [|a p IH]; intros s H.
  - exists s. reflexivity.
  - destruct s as [|b s]; [discriminate H|]. simpl in H.
    apply andb_prop in H. destruct H as [E H].
    apply N.eqb_eq in E. subst b.
    destruct (IH s H) as [rest ->]. exists rest. reflexivity.
Qed.

Lemma startsWith_false_longer (s p : jsstring) :
  (List.length s < List.length p)%nat -> startsWith s p = false.
Proof.
  intros H. destruct (startsWith s p) eqn:E; [|reflexivity].
  apply startsWith_prefix in E. destruct E as [rest ->].
  rewrite length_app in H. lia.
Qed.

Lemma endsWith_iff (s suffix : jsstring) :
  endsWith s suffix = true <-> exists front, s = front ++ suffix.
Proof.
  unfold endsWith. split.
  - intros H. apply startsWith_prefix in H. destruct H as [rest H].
    exists (rev rest). rewrite <- (rev_involutive s), H, rev_app_distr,
      rev_involutive. reflexivity.
  - intros [front ->]. apply endsWith_app_same.
Qed.

(** The file name under which a generated post is saved always ends
    with [.mdx]: a name that already does is kept, any other name gets the
    extension appended; naming a second time changes nothing. *)
Theorem blogFilename_mdx (filename : jsstring) :
  endsWith (LegacyGenerator.blogFilename filename) (js ".mdx") = true
  /\ LegacyGenerator.blogFilename (LegacyGenerator.blogFilename filename)
     = LegacyGenerator.blogFilename filename
  /\ (LegacyGenerator.blogFilename filename = filename
      <-> endsWith filename (js ".mdx") = true).
Proof.
  assert (H1 : endsWith (LegacyGenerator.blogFilename filename) (js ".mdx")
               = true).
  { unfold LegacyGenerator.blogFilename.
    destruct (endsWith filename (js ".mdx")) eqn:E; [exact E|].
    apply endsWith_app_same. }
  split; [exact H1|]. split.
  - unfold LegacyGenerator.blogFilename at 1. rewrite H1. reflexivity.
  - unfold LegacyGenerator.blogFilename.
    destruct (endsWith filename (js ".mdx")) eqn:E; split; auto.
    + intros H. apply (f_equal (@List.length N)) in H.
      rewrite length_app in H. simpl in H. lia.
    + discriminate.
Qed.

Lemma takeWhile_Forall (p : N -> bool) (s : jsstring) :
  Forall (fun c => p c = true) (takeWhile p s).
Proof.
  induction s as [|c t IH]; simpl; [constructor|].
  destruct (p c) eqn:E; constructor; assumption.
Qed.

Lemma matchTitleAt_group (s group : jsstring) :
  LegacyGenerator.matchTitleAt s = Some group ->
  group <> []
  /\ Forall (fun c => c <> doubleQuote) group
  /\ In backslash s.
Proof.
  unfold LegacyGenerator.matchTitleAt.
  destruct (startsWith s (js "title:" ++ [backslash])) eqn:Es; [|discriminate].
  apply startsWith_prefix in Es. destruct Es as [rest Hs].
  assert (Hb : In backslash s).
  { rewrite Hs. apply in_or_app. left. simpl. auto 10. }
  destruct (dropWhile isLetterS (skipn 7 s)) as [|q after]; [discriminate|].
  destruct (q =? doubleQuote); [|discriminate].
  pose proof (takeWhile_Forall isNotQuote after) as Hf.
  destruct (takeWhile isNotQuote after) as [|g gs] eqn:Eg; [discriminate|].
  destruct (skipn _ after); [discriminate|].
  intros H. injection H as <-.
  split; [discriminate|]. split; [|exact Hb].
  revert Hf. apply Forall_impl. intros c Hc. unfold isNotQuote in Hc.
  apply negb_true_iff, N.eqb_neq in Hc. exact Hc.
Qed.

Lemma matchTitle_group (content group : jsstring) :
  LegacyGenerator.matchTitle content = Some group ->
  group <> []
  /\ Forall (fun c => c <> doubleQuote) group
  /\ In backslash content.
Proof.
  induction content as [|c rest IH]; [discriminate|].
  cbn [LegacyGenerator.matchTitle].
  destruct (LegacyGenerator.matchTitleAt (c :: rest)) as [g|] eqn:E.
  - intros H. injection H as <-. exact (matchTitleAt_group _ E).
  - intros H. destruct (IH H) as [H1 [H2 H3]].
    split; [exact H1|]. split; [exact H2 | right; exact H3].
Qed.

(** X22.  The title extracted from a generated text is never empty and never
    holds a double quote; when the text holds no backslash, the pattern of
    the source finds no match and the title is [Generated Blog Post]. *)
Theorem extractTitleFromContent_result (content : jsstring) :
  LegacyGenerator.extractTitleFromContent content <> []
  /\ Forall (fun c => c <> doubleQuote)
            (LegacyGenerator.extractTitleFromContent content)
  /\ (~ In backslash content ->
      LegacyGenerator.extractTitleFromContent content
      = js "Generated Blog Post").
Proof.
  unfold LegacyGenerator.extractTitleFromContent.
  destruct (LegacyGenerator.matchTitle content) as [g|] eqn:E.
  - destruct (matchTitle_group _ E) as [H1 [H2 H3]].
    split; [exact H1|]. split; [exact H2|]. intros Hn. contradiction.
  - split; [discriminate|]. split; [|reflexivity].
    apply Forall_forall. intros c Hc. simpl in Hc.
    repeat (destruct Hc as [<-|Hc]; [discriminate|]). destruct Hc.
Qed.

Lemma splitBackslashS_length (s : jsstring) :
  (1 <= List.length (splitBackslashS s))%nat.
Proof.
  unfold splitBackslashS. generalize (@nil N). generalize false.
  induction s as [|c t IH]; intros b cur; cbn [splitBackslashSAux].
  - simpl. lia.
  - destruct (b && isLetterS c); [apply IH|].
    destruct (backslashS_starts c t); [simpl; lia | apply IH].
Qed.

(** X23.  [saveBlogToFile] throws when writing throws and returns nothing
    then; otherwise the saved post holds the content unchanged, a file
    name that ends with [.mdx] and is the one written, and a title that is
    not empty. *)
Theorem saveBlogToFile_result
    (writeFile : jsstring -> jsstring -> jsstring -> Outcome unit)
    (nowISO content filename category : jsstring) :
  (writeFile category (LegacyGenerator.blogFilename filename) content = Throws ->
   LegacyGenerator.saveBlogToFile writeFile nowISO content filename category
   = Throws)
  /\ (forall saved,
        LegacyGenerator.saveBlogToFile writeFile nowISO content filename
                                       category = Returns saved ->
        writeFile category (LegacyGenerator.GeneratedBlog.filename saved)
                  content = Returns tt
        /\ LegacyGenerator.GeneratedBlog.content saved = content
        /\ endsWith (LegacyGenerator.GeneratedBlog.filename saved) (js ".mdx")
           = true
        /\ LegacyGenerator.GeneratedBlog.title saved <> []
        /\ (1 <= LegacyGenerator.GeneratedBlog.wordCount saved)%nat).
Proof.
  unfold LegacyGenerator.saveBlogToFile. split.
  - intros ->. reflexivity.
  - intros saved H.
    destruct (writeFile category (LegacyGenerator.blogFilename filename) content)
      as [[]|] eqn:E; [|discriminate H].
    injection H as <-. cbn.
    split; [exact E|]. split; [reflexivity|].
    split; [exact (proj1 (blogFilename_mdx filename))|].
    split; [exact (proj1 (extractTitleFromContent_result content))|].
    apply splitBackslashS_length.
Qed.

(* ================================================================== *)
(** * The image generator *)
(* ================================================================== *)

Lemma flat_map_flat_map (f g : N -> jsstring) (s : jsstring) :
  flat_map f (flat_map g s) = flat_map (fun x => flat_map f (g x)) s.
Proof.
  induction s as [|c t IH]; [reflexivity|].
  simpl. rewrite flat_map_app, IH. reflexivity.
Qed.

Lemma flat_map_pointwise (f g : N -> jsstring) (s : jsstring) :
  (forall x, f x = g x) -> flat_map f s = flat_map g s.
Proof.
  intros H. induction s as [|c t IH]; [reflexivity|].
  simpl. rewrite H, IH. reflexivity.
Qed.

(** Decide which of the five special code units [c] is, if any. *)
Ltac special_cases c :=
  destruct (N.eqb_spec c 38) as [->|?];
  [|destruct (N.eqb_spec c 60) as [->|?];
    [|destruct (N.eqb_spec c 62) as [->|?];
      [|destruct (N.eqb_spec c 34) as [->|?];
        [|destruct (N.eqb_spec c 39) as [->|?]]]]].

Lemma escapeHtml_unit (c : N) :
  BrowserImageGenerator.escapeHtml [c] = escapeUnit c.
Proof.
  unfold BrowserImageGenerator.escapeHtml, replaceUnit, escapeUnit.
  special_cases c; try reflexivity.
  repeat match goal with
         | H : c <> _ |- _ => apply N.eqb_neq in H
         end.
  repeat (cbn [flat_map app];
          match goal with
          | H : (c =? _) = false |- _ => rewrite H; clear H
          end).
  reflexivity.
Qed.

(** X24.  The five replacements of [escapeHtml] amount to one pass that
    replaces each of the five special code units by its entity and keeps
    every other code unit: nothing is escaped twice, and escaping a
    concatenation is concatenating the escapes. *)
Theorem escapeHtml_one_pass (text more : jsstring) :
  BrowserImageGenerator.escapeHtml text = flat_map escapeUnit text
  /\ BrowserImageGenerator.escapeHtml (text ++ more)
     = BrowserImageGenerator.escapeHtml text
       ++ BrowserImageGenerator.escapeHtml more.
Proof.
  assert (H : forall s, BrowserImageGenerator.escapeHtml s
                        = flat_map escapeUnit s).
  { intros s. unfold BrowserImageGenerator.escapeHtml, replaceUnit.
    rewrite !flat_map_flat_map. apply flat_map_pointwise. intros x.
    pose proof (escapeHtml_unit x) as Hx.
    unfold BrowserImageGenerator.escapeHtml, replaceUnit in Hx.
    rewrite !flat_map_flat_map in Hx. simpl in Hx.
    rewrite app_nil_r in Hx. exact Hx. }
  split; [apply H|]. rewrite !H. apply flat_map_app.
Qed.

Lemma escapeUnit_safe (c : N) :
  Forall (fun x => x <> 60 /\ x <> 62 /\ x <> 34 /\ x <> 39) (escapeUnit c).
Proof.
  unfold escapeUnit. special_cases c; cbn.
  6:{ repeat match goal with
             | H : c <> _ |- _ =>
                 let E := fresh in
                 pose proof H as E; apply N.eqb_neq in E; rewrite E; clear E
             end.
      constructor; [repeat split; assumption | constructor]. }
  all: repeat constructor; discriminate.
Qed.

(** X25.  The escaped text holds no [<], no [>], no double quote and no
    single quote. *)
Theorem escapeHtml_safe (text : jsstring) :
  Forall (fun x => x <> 60 /\ x <> 62 /\ x <> 34 /\ x <> 39)
         (BrowserImageGenerator.escapeHtml text).
Proof.
  rewrite (proj1 (escapeHtml_one_pass text [])).
  apply Forall_flat_map. intros c _. apply escapeUnit_safe.
Qed.

Lemma escapeUnit_prefix_free (x y : N) (ra rb : jsstring) :
  escapeUnit x ++ ra = escapeUnit y ++ rb -> x = y /\ ra = rb.
Proof.
  unfold escapeUnit.
  special_cases x; special_cases y; cbn;
    repeat match goal with
           | H : ?c <> _ |- _ =>
               let E := fresh in
               pose proof H as E; apply N.eqb_neq in E; rewrite E; clear E
           end;
    cbn; intros H; injection H; intros; subst;
    try discriminate; try congruence; split; reflexivity.
Qed.

(** X26.  Escaping loses nothing: two texts with the same escaped form are
    the same text. *)
Theorem escapeHtml_injective (a b : jsstring) :
  BrowserImageGenerator.escapeHtml a = BrowserImageGenerator.escapeHtml b ->
  a = b.
Proof.
  rewrite (proj1 (escapeHtml_one_pass a [])), (proj1 (escapeHtml_one_pass b [])).
  revert b. induction a as [|x a IH]; intros [|y b] H.
  - reflexivity.
  - exfalso. simpl in H. unfold escapeUnit in H.
    special_cases y; cbn in H; discriminate H.
  - exfalso. simpl in H. unfold escapeUnit in H.
    special_cases x; cbn in H; discriminate H.
  - simpl in H. apply escapeUnit_prefix_free in H. destruct H as [-> H].
    rewrite (IH b H). reflexivity.
Qed.

Lemma escapeHtml_injective_witness :
  [97; 60; 38; 98] = js "a<&b".
Proof.
  apply escapeHtml_injective. vm_compute. reflexivity.
Defined.

(** ** Image file names *)

Lemma replaceFirst_after_prefix (name rest : jsstring) :
  Forall (fun c => c <> 46) name ->
  replaceFirst (js ".mdx") [] (name ++ js ".mdx" ++ rest) = name ++ rest.
Proof.
  induction 1 as [|c t Hc _ IH].
  - reflexivity.
  - cbn [app replaceFirst].
    assert (E : startsWith (c :: t ++ js ".mdx" ++ rest) (js ".mdx") = false).
    { change ((46 =? c) && startsWith (t ++ js ".mdx" ++ rest) (js "mdx")
              = false).
      apply N.eqb_neq in Hc. rewrite N.eqb_sym, Hc. reflexivity. }
    rewrite E, IH. reflexivity.
Qed.

Section NameChars.
Context {rt : JsRuntime}.

(** The worker name only holds letters, digits, underscores and hyphens,
    whatever the run time. *)
Lemma generateCleanFilename_name_chars (title : jsstring) :
  Forall (fun c => isNameChar c = true) (Worker.generateCleanFilename title).
Proof.
  unfold Worker.generateCleanFilename, substring0.
  apply Forall_firstn', Forall_stripEdgeHyphens.
  apply (@Forall_replaceRuns (fun c => isNameChar c = true)
                             (fun c => isNameChar c = true));
    [repeat constructor | intros c H _; exact H |].
  apply (@Forall_replaceRuns (fun c => Worker.isFilenameChar c = true)
                             (fun c => isNameChar c = true));
    [repeat constructor | |].
  - intros c H Hw. unfold Worker.isFilenameChar in H. unfold isNameChar.
    rewrite Hw, orb_false_r in H. exact H.
  - unfold keepOnly. apply Forall_forall. intros c Hc.
    apply filter_In in Hc. exact (proj2 Hc).
Qed.

End NameChars.

Lemma isNameChar_not_dot (c : N) : isNameChar c = true -> c <> 46.
Proof.
  unfold isNameChar, isWordChar, isAsciiUpper, isAsciiLower, isDigit, isHyphen,
    hyphen.
  rewrite !orb_true_iff, !andb_true_iff, !N.leb_le, !N.eqb_eq. lia.
Qed.

(** X27.  For a post returned by the worker scraper, the image generator
    names the image after the cleaned title: the file name of the post
    with [.jpg] in place of [.mdx], under the directory of the category. *)
Theorem image_name_of_scraped {rt : JsRuntime}
    (fetchPage : jsstring -> option Worker.Page.t) (blogUrl : jsstring)
    (lastmod : option jsstring) (blog : Worker.ScrapedBlog.t)
    (category : jsstring) :
  Worker.scrapeBlog fetchPage blogUrl lastmod = Some blog ->
  exists filename,
    Worker.ScrapedBlog.filename blog = Some filename
    /\ BrowserImageGenerator.imageFilename filename
       = Worker.generateCleanFilename (Worker.ScrapedBlog.title blog)
         ++ js ".jpg"
    /\ BrowserImageGenerator.imagePath category filename
       = js "docs/public/images/blog/" ++ category ++ js "/"
         ++ Worker.generateCleanFilename (Worker.ScrapedBlog.title blog)
         ++ js ".jpg".
Proof.
  intros H. apply scrapeBlog_some_iff in H.
  destruct H as [page [root [_ [_ [_ ->]]]]].
  eexists. split; [reflexivity|].
  cbn [Worker.ScrapedBlog.title].
  assert (E : BrowserImageGenerator.imageFilename
                (Worker.generateCleanFilename (trim (Worker.Page.titleText page))
                 ++ js ".mdx")
              = Worker.generateCleanFilename (trim (Worker.Page.titleText page))
                ++ js ".jpg").
  { unfold BrowserImageGenerator.imageFilename.
    pose proof (@replaceFirst_after_prefix
                  (Worker.generateCleanFilename
                     (trim (Worker.Page.titleText page))) []) as R.
    rewrite !app_nil_r in R. rewrite R; [reflexivity|].
    eapply Forall_impl; [|apply generateCleanFilename_name_chars].
    intros c Hc. apply isNameChar_not_dot, Hc. }
  split; [exact E|].
  unfold BrowserImageGenerator.imagePath. rewrite E. reflexivity.
Qed.

Lemma image_name_of_scraped_witness :
  BrowserImageGenerator.imageFilename (js "t.mdx") = js "t.jpg".
Proof.
  assert (H : Worker.scrapeBlog (rt := asciiRuntime)
                (fun _ => Some helloWorkerPage) helloUrl None
              = Some helloWorkerBlog) by (vm_compute; reflexivity).
  destruct (@image_name_of_scraped asciiRuntime _ _ _ _ (js "crm") H)
    as [filename [Hf [Hi _]]].
  injection Hf as <-. exact Hi.
Defined.

(* ================================================================== *)
(** * More on file names *)
(* ================================================================== *)

Lemma worker_generateCleanFilename_shape_witness :
  hasDoubleHyphen
    (Worker.generateCleanFilename (rt := asciiRuntime)
                                  (js "  Hello,  World - 2025 "))
  = false
  /\ Worker.generateCleanFilename (rt := asciiRuntime)
                                  (js "  Hello,  World - 2025 ")
     = js "hello-world-2025".
Proof.
  split.
  - exact (proj1 (proj2 (proj2
             (@worker_generateCleanFilename_shape asciiRuntime
                (js "  Hello,  World - 2025 ") asciiRuntime_lowersAscii)))).
  - vm_compute. reflexivity.
Defined.

(** The [cleanTitle] that the worker generator puts into the image path
    of its prompt only holds letters, digits, underscores and hyphens,
    whatever the run time; the file name of the scraper is this string
    with the runs of hyphens collapsed, the hyphens at the ends stripped,
    and cut at 100 code units. *)
Theorem cleanTitle_name_chars {rt : JsRuntime} (title : jsstring) :
  Forall (fun c => isNameChar c = true) (WorkerGenerator.cleanTitle title)
  /\ Worker.generateCleanFilename title
     = substring0 100
         (stripEdgeHyphens
            (replaceRuns isHyphen [hyphen] (WorkerGenerator.cleanTitle title)))
  /\ Forall (fun c => isNameChar c = true) (Worker.generateCleanFilename title).
Proof.
  split; [|split; [reflexivity | apply generateCleanFilename_name_chars]].
  unfold WorkerGenerator.cleanTitle.
  apply (@Forall_replaceRuns (fun c => Worker.isFilenameChar c = true)
                             (fun c => isNameChar c = true));
    [repeat constructor | |].
  - intros c H Hw. unfold Worker.isFilenameChar in H. unfold isNameChar.
    rewrite Hw, orb_false_r in H. exact H.
  - unfold keepOnly. apply Forall_forall. intros c Hc.
    apply filter_In in Hc. exact (proj2 Hc).
Qed.

